(** * Leads API (app.py): validation and handlers

    A shallow embedding of [app.py]: the phone pattern and the matcher that
    [re.match] runs on it, the lead validator, and the five Flask handlers
    over the Supabase table [leads_table].

    Conventions of the embedding.
    - A Python [str] is the [string] of its code points; code points above
      255 are outside the model.  On the modelled range the classes [\s]
      and [\d] of Python's [re] are written out below.
    - A request body is the value [request.get_json()] returned: a [json]
      value ([JNull] for [None]).  JSON numbers with a fraction or an
      exponent (Python floats) are left out of [json].
    - The Supabase client is an interface ([TableStore]): a query either
      answers with rows or raises, and may change the store.  The queries a
      handler executes are recorded in [calls].
    - [validate_email] (package email_validator) and the clock are
      parameters of the section that holds the handlers.
    - The texts of the exceptions the interpreter raises are those of
      CPython 3.11.
    - Logging is not modelled. *)

From Stdlib Require Import String Ascii List ZArith Bool Lia DecimalString.
Import ListNotations.

Local Open Scope string_scope.
Local Open Scope list_scope.

Set Warnings "-register-all".

(* ================================================================== *)
(** ** Values *)

Inductive json : Type :=
| JNull
| JBool (b : bool)
| JInt (n : Z)
| JStr (s : string)
| JArr (items : list json)
| JObj (fields : list (string * json)).

(** Python exceptions: the class and the text [str(e)] yields.  Every class
    below derives from [Exception]; [EmailNotValidError] stands for the
    class and its subclasses. *)
Inductive exn_class : Type :=
| TypeError
| KeyError
| IndexError
| AttributeError
| EmailNotValidError
| OtherError (name : string).

Record exn : Type := Exn { exn_cls : exn_class; exn_str : string }.

Inductive outcome (A : Type) : Type :=
| Ok (a : A)
| Exc (e : exn).

Arguments Ok {A} a.
Arguments Exc {A} e.

Definition obind {A B} (c : outcome A) (k : A -> outcome B) : outcome B :=
  match c with
  | Ok a => k a
  | Exc e => Exc e
  end.

Notation "x <~ c ;; k" := (obind c (fun x => k))
  (at level 100, c at next level, right associativity).

(* ================================================================== *)
(** ** Python operations on JSON values *)

Module Py.

(** [dict] lookup, item assignment and [setdefault] on the field list; a
    [dict] keeps insertion order and holds a key once. *)
Fixpoint dict_get (k : string) (d : list (string * json)) : option json :=
  match d with
  | [] => None
  | (k', v) :: d' => if String.eqb k k' then Some v else dict_get k d'
  end.

Fixpoint dict_set (k : string) (v : json) (d : list (string * json))
  : list (string * json) :=
  match d with
  | [] => [(k, v)]
  | (k', v') :: d' =>
      if String.eqb k k' then (k', v) :: d' else (k', v') :: dict_set k v d'
  end.

Definition dict_has (k : string) (d : list (string * json)) : bool :=
  match dict_get k d with Some _ => true | None => false end.

(** [bool(v)] *)
Definition truthy (v : json) : bool :=
  match v with
  | JNull => false
  | JBool b => b
  | JInt n => negb (n =? 0)%Z
  | JStr s => negb (String.eqb s "")
  | JArr items => match items with [] => false | _ => true end
  | JObj fields => match fields with [] => false | _ => true end
  end.

(** [a == b] *)
Fixpoint eq (a b : json) {struct a} : bool :=
  match a, b with
  | JNull, JNull => true
  | JBool x, JBool y => Bool.eqb x y
  | JBool x, JInt n => (n =? (if x then 1 else 0))%Z
  | JInt n, JBool x => (n =? (if x then 1 else 0))%Z
  | JInt m, JInt n => (m =? n)%Z
  | JStr s, JStr t => String.eqb s t
  | JArr xs, JArr ys =>
      (fix items (xs ys : list json) {struct xs} : bool :=
         match xs, ys with
         | [], [] => true
         | x :: xs', y :: ys' => eq x y && items xs' ys'
         | _, _ => false
         end) xs ys
  | JObj d, JObj e =>
      (length d =? length e)%nat &&
      (fix fields (d : list (string * json)) {struct d} : bool :=
         match d with
         | [] => true
         | (k, v) :: d' =>
             match dict_get k e with
             | Some v' => eq v v'
             | None => false
             end && fields d'
         end) d
  | _, _ => false
  end.

(** [a != b] *)
Definition ne (a b : json) : bool := negb (eq a b).

Definition type_name (v : json) : string :=
  match v with
  | JNull => "NoneType"
  | JBool _ => "bool"
  | JInt _ => "int"
  | JStr _ => "str"
  | JArr _ => "list"
  | JObj _ => "dict"
  end.

(** [needle in hay] on two [str]: substring test *)
Fixpoint substring_of (needle hay : string) : bool :=
  String.prefix needle hay ||
  match hay with
  | EmptyString => false
  | String _ hay' => substring_of needle hay'
  end.

(** [key in container] *)
Definition contains (key : string) (container : json) : outcome bool :=
  match container with
  | JObj d => Ok (dict_has key d)
  | JArr items => Ok (existsb (fun x => eq x (JStr key)) items)
  | JStr s => Ok (substring_of key s)
  | v => Exc (Exn TypeError
                ("argument of type '" ++ type_name v ++ "' is not iterable"))
  end.

(** [container[key]] with a [str] key *)
Definition getitem (container : json) (key : string) : outcome json :=
  match container with
  | JObj d =>
      match dict_get key d with
      | Some v => Ok v
      | None => Exc (Exn KeyError ("'" ++ key ++ "'"))
      end
  | JArr _ => Exc (Exn TypeError "list indices must be integers or slices, not str")
  | JStr _ => Exc (Exn TypeError "string indices must be integers, not 'str'")
  | v => Exc (Exn TypeError ("'" ++ type_name v ++ "' object is not subscriptable"))
  end.

(** [container[key] = v]; the result is the container after the statement *)
Definition setitem (container : json) (key : string) (v : json) : outcome json :=
  match container with
  | JObj d => Ok (JObj (dict_set key v d))
  | JArr _ => Exc (Exn TypeError "list indices must be integers or slices, not str")
  | c => Exc (Exn TypeError
                ("'" ++ type_name c ++ "' object does not support item assignment"))
  end.

(** [container.setdefault(key, v)]; the result is the container after the call *)
Definition setdefault (container : json) (key : string) (v : json) : outcome json :=
  match container with
  | JObj d => Ok (JObj (if dict_has key d then d else dict_set key v d))
  | c => Exc (Exn AttributeError
                ("'" ++ type_name c ++ "' object has no attribute 'setdefault'"))
  end.

(** [rows[0]] *)
Definition first (rows : list json) : outcome json :=
  match rows with
  | r :: _ => Ok r
  | [] => Exc (Exn IndexError "list index out of range")
  end.

(** [bool(rows)] for a list *)
Definition nonempty {A} (l : list A) : bool :=
  match l with [] => false | _ => true end.

(** [str(n)] for an [int] *)
Definition str_of_int (n : Z) : string := NilZero.string_of_int (Z.to_int n).

End Py.

(* ================================================================== *)
(** ** The regular expressions of [re] that the pattern uses *)

Module Re.

(** [\s] on code points below 256: Py_UNICODE_ISSPACE *)
Definition is_space (c : ascii) : bool :=
  let n := nat_of_ascii c in
  (((9 <=? n) && (n <=? 13)) || ((28 <=? n) && (n <=? 32))
   || (n =? 133) || (n =? 160))%nat.

(** [\d] on code points below 256: Py_UNICODE_ISDECIMAL *)
Definition is_decimal (c : ascii) : bool :=
  let n := nat_of_ascii c in ((48 <=? n) && (n <=? 57))%nat.

Inductive set_item : Type :=
| Lit (c : ascii)             (* a character, escaped or not *)
| Range (lo hi : ascii)       (* lo-hi *)
| Space                       (* \s *)
| Digit.                      (* \d *)

Definition item_matches (i : set_item) (c : ascii) : bool :=
  match i with
  | Lit x => Ascii.eqb c x
  | Range lo hi =>
      ((nat_of_ascii lo <=? nat_of_ascii c) && (nat_of_ascii c <=? nat_of_ascii hi))%nat
  | Space => is_space c
  | Digit => is_decimal c
  end.

Inductive regex : Type :=
| Caret                       (* ^ *)
| Dollar                      (* $ *)
| OneOf (items : list set_item)   (* a character, a class or a set [...] *)
| Seq (r1 r2 : regex)
| Alt (r1 r2 : regex)         (* r1|r2 *)
| Opt (r : regex)             (* r? *)
| Rep (n : nat) (r : regex).  (* r{n} *)

(** The backtracking matcher.  [at_start] tells whether the position is
    the start of the string, [s] is what is left of the subject, [k] is
    the rest of the match.  Without MULTILINE, [$] matches at the end of
    the string and just before a newline that ends the string. *)
Fixpoint run (r : regex) (at_start : bool) (s : string)
         (k : bool -> string -> bool) {struct r} : bool :=
  match r with
  | Caret => at_start && k at_start s
  | Dollar =>
      match s with
      | EmptyString => k at_start s
      | String c EmptyString => Ascii.eqb c "010" && k at_start s
      | _ => false
      end
  | OneOf items =>
      match s with
      | String c s' => existsb (fun i => item_matches i c) items && k false s'
      | EmptyString => false
      end
  | Seq r1 r2 => run r1 at_start s (fun b s' => run r2 b s' k)
  | Alt r1 r2 => run r1 at_start s k || run r2 at_start s k
  | Opt r1 => run r1 at_start s k || k at_start s
  | Rep n r1 =>
      (fix rep (n : nat) (b : bool) (s : string)
           (k : bool -> string -> bool) {struct n} : bool :=
         match n with
         | O => k b s
         | S n' => run r1 b s (fun b' s' => rep n' b' s' k)
         end) n at_start s k
  end.

(** [bool(re.match(r, s))]: a match that starts at position 0 and may end
    anywhere *)
Definition matches (r : regex) (s : string) : bool :=
  run r true s (fun _ _ => true).

Definition lit (c : ascii) : regex := OneOf [Lit c].

End Re.

(* ================================================================== *)
(** ** Validation functions *)

(** [r'^(\+91[\s\-]?|0)?[6-9]\d{9}$'] *)
Definition pattern : Re.regex :=
  Re.Seq Re.Caret
 (Re.Seq (Re.Opt (Re.Alt (Re.Seq (Re.lit "+")
                         (Re.Seq (Re.lit "9")
                         (Re.Seq (Re.lit "1")
                                 (Re.Opt (Re.OneOf [Re.Space; Re.Lit "-"])))))
                         (Re.lit "0")))
 (Re.Seq (Re.OneOf [Re.Range "6" "9"])
 (Re.Seq (Re.Rep 9 (Re.OneOf [Re.Digit]))
         Re.Dollar))).

(** [re.match] takes a [str]; any other JSON value raises [TypeError]. *)
Definition validate_phone_number (phone : json) : outcome bool :=
  match phone with
  | JStr s => Ok (Re.matches pattern s)
  | v => Exc (Exn TypeError
                ("expected string or bytes-like object, got '"
                 ++ Py.type_name v ++ "'"))
  end.

(* ================================================================== *)
(** ** The table store and the effects of a handler *)

(** The queries the program builds on [supabase.table('leads_table')]
    before it calls [.execute()]. *)
Inductive query : Type :=
| SelectAll
    (* .select("*") *)
| SelectEq (column : string) (value : json)
    (* .select("*").eq(column, value) *)
| SelectEqLimit (column : string) (value : json) (n : nat)
    (* .select("*").eq(column, value).limit(n) *)
| Insert (data : json)
    (* .insert(data) *)
| UpdateEq (data : json) (column : string) (value : json)
    (* .update(data).eq(column, value) *)
| DeleteEq (column : string) (value : json).
    (* .delete().eq(column, value) *)

Definition is_select (q : query) : bool :=
  match q with
  | SelectAll | SelectEq _ _ | SelectEqLimit _ _ _ => true
  | Insert _ | UpdateEq _ _ _ | DeleteEq _ _ => false
  end.

(** The uniqueness lookups of the validator. *)
Definition is_lookup (q : query) : bool :=
  match q with
  | SelectEqLimit _ _ _ => true
  | _ => false
  end.

(** The client: [execute] answers with [response.data] or raises, and
    leaves the store in a new state. *)
Class TableStore (S : Type) : Type :=
  { execute_query : query -> S -> outcome (list json) * S }.

(** The global [supabase] and the queries executed so far. *)
Record world (S : Type) : Type :=
  World { supabase : S; calls : list query }.

Arguments World {S} supabase calls.
Arguments supabase {S} w.
Arguments calls {S} w.

(** A computation that may raise and may talk to the store; what it did to
    the store stays done when it raises. *)
Definition M (S A : Type) : Type := world S -> outcome A * world S.

Definition ret {S A} (a : A) : M S A := fun w => (Ok a, w).

Definition bind {S A B} (c : M S A) (k : A -> M S B) : M S B :=
  fun w =>
    match c w with
    | (Ok a, w') => k a w'
    | (Exc e, w') => (Exc e, w')
    end.

Notation "x <- c ;; k" := (bind c (fun x => k))
  (at level 100, c at next level, right associativity).

(** A pure step *)
Definition lift {S A} (c : outcome A) : M S A := fun w => (c, w).

(** [try: body  except <classes> as e: handler e] *)
Definition try_except {S A} (body : M S A) (catches : exn -> bool)
           (handler : exn -> M S A) : M S A :=
  fun w =>
    match body w with
    | (Ok a, w') => (Ok a, w')
    | (Exc e, w') => if catches e then handler e w' else (Exc e, w')
    end.

(** [except Exception] *)
Definition is_Exception (e : exn) : bool := true.

(** [except EmailNotValidError] *)
Definition is_EmailNotValidError (e : exn) : bool :=
  match exn_cls e with
  | EmailNotValidError => true
  | _ => false
  end.

(** [<query>.execute().data] *)
Definition execute {S} `{TableStore S} (q : query) : M S (list json) :=
  fun w =>
    let (r, s') := execute_query q (supabase w) in
    (r, World s' (calls w ++ [q])).

(** A Flask response: [jsonify(body), status] *)
Record response : Type := Response { body : json; status : nat }.

Definition jsonify (fields : list (string * json)) : json := JObj fields.

Section App.

Context {S : Type} {client : TableStore S}.

(** [validate_email] of email_validator: returns, or raises
    [EmailNotValidError] or something else. *)
Variable validate_email : json -> outcome unit.

(** [datetime.now(timezone.utc).isoformat()] at the time of the request *)
Variable utcnow_isoformat : string.

Definition required_fields : list string := ["name"; "phone"; "email"; "party"].

(** [field not in data or not data[field]] *)
Definition is_missing (field : string) (data : json) : outcome bool :=
  c <~ Py.contains field data ;;
  if negb c then Ok true
  else v <~ Py.getitem data field ;; Ok (negb (Py.truthy v)).

(** [field in data and data[field]] *)
Definition is_present (field : string) (data : json) : outcome bool :=
  c <~ Py.contains field data ;;
  if c then v <~ Py.getitem data field ;; Ok (Py.truthy v)
  else Ok false.

(** The loop over [required_fields] (lines 44-46). *)
Fixpoint check_required (fields : list string) (data : json)
         (errors : list string) : outcome (list string) :=
  match fields with
  | [] => Ok errors
  | field :: rest =>
      missing <~ is_missing field data ;;
      check_required rest data
        (if missing then errors ++ [(field ++ " is required")%string] else errors)
  end.

(** The phone block (lines 49-59). *)
Definition check_phone (data : json) (check_existing : bool)
           (errors : list string) : M S (list string) :=
  present <- lift (is_present "phone" data) ;;
  if present then
    phone <- lift (Py.getitem data "phone") ;;
    valid <- lift (validate_phone_number phone) ;;
    if negb valid then
      ret (errors ++ ["Invalid phone number format. Use +91 XXXXXXXXXX or 0XXXXXXXXXX"])
    else if check_existing then
      try_except
        (phone <- lift (Py.getitem data "phone") ;;
         result <- execute (SelectEqLimit "phone" phone 1) ;;
         ret (if Py.nonempty result
              then errors ++ ["Phone number already exists"]
              else errors))
        is_Exception
        (fun e => ret (errors ++ ["Error validating phone number"]))
    else ret errors
  else ret errors.

(** The email block (lines 62-74). *)
Definition check_email (data : json) (check_existing : bool)
           (errors : list string) : M S (list string) :=
  present <- lift (is_present "email" data) ;;
  if present then
    try_except
      (email <- lift (Py.getitem data "email") ;;
       _ <- lift (validate_email email) ;;
       if check_existing then
         try_except
           (email <- lift (Py.getitem data "email") ;;
            result <- execute (SelectEqLimit "email" email 1) ;;
            ret (if Py.nonempty result
                 then errors ++ ["Email already exists"]
                 else errors))
           is_Exception
           (fun e => ret (errors ++ ["Error validating email"]))
       else ret errors)
      is_EmailNotValidError
      (fun _ => ret (errors ++ ["Invalid email format"]))
  else ret errors.

Definition validate_lead_data (data : json) (check_existing : bool)
  : M S (list string) :=
  let errors := [] in
  errors <- lift (check_required required_fields data errors) ;;
  errors <- check_phone data check_existing errors ;;
  errors <- check_email data check_existing errors ;;
  ret errors.

(** *** Routes *)

Definition get_all_leads : M S response :=
  try_except
    (response <- execute SelectAll ;;
     ret (Response (jsonify [("leads", JArr response)]) 200))
    is_Exception
    (fun e => ret (Response
       (jsonify [("message", JStr ("Error fetching leads: " ++ exn_str e))]) 500)).

Definition get_lead (lead_id : Z) : M S response :=
  try_except
    (response <- execute (SelectEq "id" (JInt lead_id)) ;;
     if Py.nonempty response then
       row <- lift (Py.first response) ;;
       ret (Response (jsonify [("lead", row)]) 200)
     else ret (Response (jsonify [("message", JStr "Lead not found")]) 404))
    is_Exception
    (fun e => ret (Response
       (jsonify [("message", JStr ("Error fetching lead: " ++ exn_str e))]) 500)).

Definition errors_json (errors : list string) : json := JArr (map JStr errors).

Definition create_lead (data : json) : M S response :=
  if negb (Py.truthy data) then
    ret (Response (jsonify [("message", JStr "No data provided")]) 400)
  else
    errors <- validate_lead_data data true ;;
    if Py.nonempty errors then
      ret (Response (jsonify [("errors", errors_json errors)]) 400)
    else
      has_time <- lift (Py.contains "lastconnected" data) ;;
      data <- (if negb has_time
               then lift (Py.setitem data "lastconnected" (JStr utcnow_isoformat))
               else ret data) ;;
      data <- lift (Py.setdefault data "status" (JStr "Connected")) ;;
      data <- lift (Py.setdefault data "tag" (JStr "Lead")) ;;
      try_except
        (response <- execute (Insert data) ;;
         row <- lift (Py.first response) ;;
         ret (Response (jsonify [("lead", row)]) 201))
        is_Exception
        (fun e => ret (Response
           (jsonify [("message", JStr ("Error creating lead: " ++ exn_str e))]) 500)).

(** [field in data and data[field] != existing_lead.data[0][field]] *)
Definition differs (field : string) (data : json) (existing_lead : list json)
  : outcome bool :=
  c <~ Py.contains field data ;;
  if c then
    supplied <~ Py.getitem data field ;;
    row <~ Py.first existing_lead ;;
    stored <~ Py.getitem row field ;;
    Ok (Py.ne supplied stored)
  else Ok false.

(** Lines 134-137. *)
Definition compute_check_existing (data : json) (existing_lead : list json)
  : outcome bool :=
  let check_existing := false in
  email_differs <~ differs "email" data existing_lead ;;
  changed <~ (if email_differs then Ok true
              else differs "phone" data existing_lead) ;;
  Ok (if changed then true else check_existing).

Definition update_lead (lead_id : Z) (data : json) : M S response :=
  if negb (Py.truthy data) then
    ret (Response (jsonify [("message", JStr "No data provided")]) 400)
  else
    try_except
      (existing_lead <- execute (SelectEq "id" (JInt lead_id)) ;;
       if negb (Py.nonempty existing_lead) then
         ret (Response (jsonify [("message", JStr "Lead not found")]) 404)
       else
         check_existing <- lift (compute_check_existing data existing_lead) ;;
         errors <- validate_lead_data data check_existing ;;
         if Py.nonempty errors then
           ret (Response (jsonify [("errors", errors_json errors)]) 400)
         else
           response <- execute (UpdateEq data "id" (JInt lead_id)) ;;
           row <- lift (Py.first response) ;;
           ret (Response (jsonify [("lead", row)]) 200))
      is_Exception
      (fun e => ret (Response
         (jsonify [("message", JStr ("Error updating lead: " ++ exn_str e))]) 500)).

Definition delete_lead (lead_id : Z) : M S response :=
  try_except
    (response <- execute (DeleteEq "id" (JInt lead_id)) ;;
     if Py.nonempty response then
       ret (Response
         (jsonify [("message",
                    JStr ("Lead " ++ Py.str_of_int lead_id ++ " deleted successfully"))])
         200)
     else ret (Response (jsonify [("message", JStr "Lead not found")]) 404))
    is_Exception
    (fun e => ret (Response
       (jsonify [("message", JStr ("Error deleting lead: " ++ exn_str e))]) 500)).

End App.

(* ================================================================== *)
(** ** A reference store and a reference email checker

    Used to run the handlers on concrete requests.  The store keeps the
    table in memory and follows the repository contract: [select] filters
    by column equality, [insert] assigns the [id] and answers with the row
    it stored, [update] merges the patch into the matching rows and answers
    with them, [delete] answers with the rows it removed.  [outages] is a
    schedule of failures: each executed query takes its head, and a
    [Some msg] makes that query raise. *)

Module MemStore.

Record t : Type := Make { rows : list json; next_id : Z; outages : list (option string) }.

Definition row_matches (column : string) (value : json) (row : json) : bool :=
  match Py.getitem row column with
  | Ok x => Py.eq x value
  | Exc _ => false
  end.

Definition merge (patch : list (string * json)) (row : json) : json :=
  match row with
  | JObj d => JObj (fold_left (fun acc kv => Py.dict_set (fst kv) (snd kv) acc) patch d)
  | r => r
  end.

Definition api_error (msg : string) : exn := Exn (OtherError "APIError") msg.

Definition perform (q : query) (s : t) : outcome (list json) * t :=
  match q with
  | SelectAll => (Ok (rows s), s)
  | SelectEq c v => (Ok (filter (row_matches c v) (rows s)), s)
  | SelectEqLimit c v n => (Ok (firstn n (filter (row_matches c v) (rows s))), s)
  | Insert (JObj d) =>
      let row := JObj (if Py.dict_has "id" d then d
                       else ("id", JInt (next_id s)) :: d) in
      (Ok [row], Make (rows s ++ [row]) (next_id s + 1) (outages s))
  | Insert _ => (Exc (api_error "invalid input for insert"), s)
  | UpdateEq (JObj d) c v =>
      let rows' := map (fun r => if row_matches c v r then merge d r else r) (rows s) in
      (Ok (map (merge d) (filter (row_matches c v) (rows s))),
       Make rows' (next_id s) (outages s))
  | UpdateEq _ _ _ => (Exc (api_error "invalid input for update"), s)
  | DeleteEq c v =>
      (Ok (filter (row_matches c v) (rows s)),
       Make (filter (fun r => negb (row_matches c v r)) (rows s))
            (next_id s) (outages s))
  end.

Definition run_query (q : query) (s : t) : outcome (list json) * t :=
  match outages s with
  | Some msg :: rest => (Exc (api_error msg), Make (rows s) (next_id s) rest)
  | None :: rest => perform q (Make (rows s) (next_id s) rest)
  | [] => perform q s
  end.

#[global] Instance store : TableStore t := {| execute_query := run_query |}.

(** An empty log in front of a store *)
Definition fresh (s : t) : world t := World s [].

End MemStore.

(** A stand-in for [validate_email]: a [str] with an [@] is accepted, any
    other [str] raises [EmailNotValidError]; a value that is not a [str]
    raises [AttributeError], as the package does when it calls [.decode] on
    it. *)
Definition sample_validate_email (email : json) : outcome unit :=
  match email with
  | JStr s =>
      if Py.substring_of "@" s then Ok tt
      else Exc (Exn EmailNotValidError "An email address must have an @-sign.")
  | v => Exc (Exn AttributeError
                ("'" ++ Py.type_name v ++ "' object has no attribute 'decode'"))
  end.

(* ================================================================== *)
(** * Vocabulary of the properties *)

Definition dict_setdefault (k : string) (v : json) (d : list (string * json))
  : list (string * json) :=
  if Py.dict_has k d then d else Py.dict_set k v d.

Section Vocabulary.

Context {S : Type} {client : TableStore S}.
Variable validate_email : json -> outcome unit.
Variable utcnow_isoformat : string.

(** *** Computations that only read

    [reads_only c]: whatever [c] answers, the queries it executed are
    selects, and anything of the store that selects preserve is
    preserved. *)
Definition preserved_by_selects {X} (obs : S -> X) : Prop :=
  forall q s, is_select q = true -> obs (snd (execute_query q s)) = obs s.

Definition read_step (w w' : world S) : Prop :=
  (exists qs, calls w' = calls w ++ qs /\ forallb is_select qs = true) /\
  (forall X (obs : S -> X), preserved_by_selects obs ->
                            obs (supabase w') = obs (supabase w)).

Definition reads_only {A} (c : M S A) : Prop :=
  forall w, read_step w (snd (c w)).

(** [data.get(field)] is there and truthy *)
Definition supplied (field : string) (d : list (string * json)) : bool :=
  match Py.dict_get field d with
  | Some v => Py.truthy v
  | None => false
  end.

Definition required_message (field : string) : string := field ++ " is required".

(** What the loop appends on a map: one message per required field that is
    absent or falsy, in the order of [required_fields]. *)
Definition required_errors (fields : list string) (d : list (string * json))
  : list string :=
  map required_message (filter (fun f => negb (supplied f d)) fields).

Definition append_to {A} (errors : list A) (r : outcome (list A) * world S)
  : outcome (list A) * world S :=
  match r with
  | (Ok more, w) => (Ok (errors ++ more), w)
  | (Exc e, w) => (Exc e, w)
  end.

(** The messages of the phone and email blocks. *)
Definition phone_format_error : string :=
  "Invalid phone number format. Use +91 XXXXXXXXXX or 0XXXXXXXXXX".

Definition phone_exists_error : string := "Phone number already exists".

Definition phone_lookup_error : string := "Error validating phone number".

Definition email_format_error : string := "Invalid email format".

Definition email_exists_error : string := "Email already exists".

Definition email_lookup_error : string := "Error validating email".

Definition block_messages : list string :=
  [phone_format_error; phone_exists_error; phone_lookup_error;
   email_format_error; email_exists_error; email_lookup_error].

(** A phone that is supplied is a [str]. *)
Definition phone_is_text (d : list (string * json)) : Prop :=
  forall v, Py.dict_get "phone" d = Some v -> Py.truthy v = true ->
            exists s, v = JStr s.

(** On the email that is supplied, the checker returns or raises
    [EmailNotValidError], nothing else. *)
Definition email_checker_confined (d : list (string * json)) : Prop :=
  forall v, Py.dict_get "email" d = Some v -> Py.truthy v = true ->
            validate_email v = Ok tt \/
            exists e, validate_email v = Exc e /\ is_EmailNotValidError e = true.

Definition validation_failure (errors : list string) : response :=
  Response (jsonify [("errors", errors_json errors)]) 400.

(** The stored row carries both columns. *)
Definition lead_row (row email phone : json) : Prop :=
  exists r, row = JObj r /\
            Py.dict_get "email" r = Some email /\
            Py.dict_get "phone" r = Some phone.

(** The body supplies [field] with a value that differs from [stored]. *)
Definition changes (field : string) (d : list (string * json)) (stored : json)
  : bool :=
  match Py.dict_get field d with
  | Some v => Py.ne v stored
  | None => false
  end.

(** Lines 139-147 of [update_lead], with the flag given: validation, the
    update and the handler of the enclosing [try]. *)
Definition update_lead_validated (lead_id : Z) (data : json)
           (check_existing : bool) : M S response :=
  try_except
    (errors <- validate_lead_data validate_email data check_existing ;;
     if Py.nonempty errors then
       ret (Response (jsonify [("errors", errors_json errors)]) 400)
     else
       response <- execute (UpdateEq data "id" (JInt lead_id)) ;;
       row <- lift (Py.first response) ;;
       ret (Response (jsonify [("lead", row)]) 200))
    is_Exception
    (fun e => ret (Response
       (jsonify [("message", JStr ("Error updating lead: " ++ exn_str e))]) 500)).

(** The map the create handler inserts: lines 110-114 on a map. *)
Definition with_defaults (d : list (string * json)) : list (string * json) :=
  let d1 := if Py.dict_has "lastconnected" d then d
            else Py.dict_set "lastconnected" (JStr utcnow_isoformat) d in
  let d2 := dict_setdefault "status" (JStr "Connected") d1 in
  dict_setdefault "tag" (JStr "Lead") d2.

End Vocabulary.

(** ** The phone format *)

(** What a regular expression matches, as a relation between the position
    before and the position after: [denotes r b s b' s'] says that [r]
    matches from the position whose rest is [s] ([b]: it is the start of
    the string) to the position whose rest is [s']. *)
Fixpoint denotes (r : Re.regex) (b : bool) (s : string) (b' : bool) (s' : string)
  : Prop :=
  match r with
  | Re.Caret => b = true /\ b' = b /\ s' = s
  | Re.Dollar => (s = "" \/ s = String "010" "") /\ b' = b /\ s' = s
  | Re.OneOf items =>
      exists c, s = String c s' /\
                existsb (fun i => Re.item_matches i c) items = true /\ b' = false
  | Re.Seq r1 r2 => exists bm sm, denotes r1 b s bm sm /\ denotes r2 bm sm b' s'
  | Re.Alt r1 r2 => denotes r1 b s b' s' \/ denotes r2 b s b' s'
  | Re.Opt r1 => denotes r1 b s b' s' \/ (b' = b /\ s' = s)
  | Re.Rep n r1 =>
      (fix rep (n : nat) (b : bool) (s : string) {struct n} : Prop :=
         match n with
         | O => b' = b /\ s' = s
         | S n' => exists bm sm, denotes r1 b s bm sm /\ rep n' bm sm
         end) n b s
  end.

(** The format in the words of the specification: an optional "+91" with
    an optional whitespace character or hyphen after it, or a "0"; then ten
    digits of which the first is 6, 7, 8 or 9; nothing before and nothing
    after. *)
Definition six_to_nine (c : ascii) : bool :=
  existsb (Ascii.eqb c) ["6"; "7"; "8"; "9"]%char.

Fixpoint all_chars (p : ascii -> bool) (s : string) : bool :=
  match s with
  | EmptyString => true
  | String c s' => p c && all_chars p s'
  end.

Definition country_prefix (p : string) : Prop :=
  p = "" \/ p = "0" \/ p = "+91" \/
  exists c, (Re.is_space c = true \/ c = "-"%char) /\ p = String "+" (String "9" (String "1" (String c ""))).

Definition national_number (t : string) : Prop :=
  exists c rest,
    t = String c rest /\ six_to_nine c = true /\
    String.length rest = 9 /\ all_chars Re.is_decimal rest = true.

Definition accepted_phone (s : string) : Prop :=
  exists p t, s = (p ++ t)%string /\ country_prefix p /\ national_number t.

(** The part of the pattern after the prefix: [[6-9]\d{9}$]. *)
Definition number_and_end : Re.regex :=
  Re.Seq (Re.OneOf [Re.Range "6" "9"])
         (Re.Seq (Re.Rep 9 (Re.OneOf [Re.Digit])) Re.Dollar).

(** The prefix: [(\+91[\s\-]?|0)?]. *)
Definition optional_prefix : Re.regex :=
  Re.Opt (Re.Alt (Re.Seq (Re.lit "+")
                 (Re.Seq (Re.lit "9")
                 (Re.Seq (Re.lit "1")
                         (Re.Opt (Re.OneOf [Re.Space; Re.Lit "-"])))))
                 (Re.lit "0")).

(** ** Sample requests and stores *)

Definition sample_store : MemStore.t :=
  MemStore.Make
    [JObj [("id", JInt 1); ("name", JStr "Asha"); ("phone", JStr "9876543210");
           ("email", JStr "asha@old.example"); ("party", JStr "North");
           ("status", JStr "Connected"); ("tag", JStr "Lead");
           ("lastconnected", JStr "2024-01-01T00:00:00+00:00")]]
    2 [].

(** A body whose name is [0], whose phone is the empty string and whose
    party is absent: all three are reported alike. *)
Definition body_zero_empty_absent : list (string * json) :=
  [("name", JInt 0); ("phone", JStr ""); ("email", JStr "ravi@mail.example")].

(** A body with no name, a phone of the wrong format and an email the
    checker rejects. *)
Definition body_three_faults : list (string * json) :=
  [("phone", JStr "12345"); ("email", JStr "nobody"); ("party", JStr "North")].

(** A body whose phone is the JSON number 9876543210 and whose email the
    checker rejects. *)
Definition body_numeric_phone : list (string * json) :=
  [("name", JStr "Ravi"); ("phone", JInt 9876543210); ("email", JStr "nobody");
   ("party", JStr "North")].

Definition store_down_once : MemStore.t :=
  MemStore.Make (MemStore.rows sample_store) 2 [Some "connection reset"].

Definition store_down_at_second : MemStore.t :=
  MemStore.Make (MemStore.rows sample_store) 2 [None; Some "connection reset"].

Definition body_new_lead : list (string * json) :=
  [("name", JStr "Ravi"); ("phone", JStr "+91 9123456780");
   ("email", JStr "ravi@mail.example"); ("party", JStr "South")].

(** The body of a new lead whose email is the JSON number 5. *)
Definition body_numeric_email : list (string * json) :=
  [("name", JStr "Ravi"); ("phone", JStr "+91 9123456780");
   ("email", JInt 5); ("party", JStr "South")].

(** A body that repeats the stored email and phone of lead 1. *)
Definition body_same_contact : list (string * json) :=
  [("name", JStr "Asha K"); ("phone", JStr "9876543210");
   ("email", JStr "asha@old.example"); ("party", JStr "North")].

(** An update that changes the status only. *)
Definition body_status_only : list (string * json) := [("status", JStr "Closed")].

(** A body that leaves name, email and party out and gives the phone as a
    JSON number. *)
Definition body_only_numeric_phone : list (string * json) :=
  [("phone", JInt 9876543210)].

(** A body whose phone is the stored phone of lead 1: the create handler
    answers 400 after two lookups, and the table is as it was. *)
Definition body_taken_phone : list (string * json) :=
  [("name", JStr "Ravi"); ("phone", JStr "9876543210");
   ("email", JStr "ravi@mail.example"); ("party", JStr "South")].

(** A body that changes the email of lead 1 and repeats its stored phone. *)
Definition body_new_email : list (string * json) :=
  [("name", JStr "Asha"); ("phone", JStr "9876543210");
   ("email", JStr "asha@new.example"); ("party", JStr "North")].

(** A body that changes the phone of lead 1 and repeats its stored email. *)
Definition body_new_phone : list (string * json) :=
  [("name", JStr "Asha"); ("phone", JStr "9123456780");
   ("email", JStr "asha@old.example"); ("party", JStr "North")].

(** Ten digits, the first a 9, and a newline after them. *)
Definition phone_then_newline : string := "9876543210" ++ String "010" "".

(** ** Vocabulary of the further properties *)

(** The uniqueness lookups: lines 54 and 67. *)
Definition phone_lookup (v : json) : query := SelectEqLimit "phone" v 1.

Definition email_lookup (v : json) : query := SelectEqLimit "email" v 1.

(** [jsonify({"message": text}), code] *)
Definition message_response (text : string) (code : nat) : response :=
  Response (jsonify [("message", JStr text)]) code.

(** What a lookup contributes to [errors]: nothing when the store answers
    with no row, [taken] when it answers with a row, [failed] when it
    raises. *)
Definition lookup_report (taken failed : string) (answer : outcome (list json))
  : list string :=
  match answer with
  | Ok [] => []
  | Ok (_ :: _) => [taken]
  | Exc _ => [failed]
  end.

(** What a write handler answers once the store has answered its insert or
    update: the first row under "lead", or a 500 with the text of the
    exception ([response.data[0]] raises [IndexError] on no row). *)
Definition write_response (prefix : string) (code : nat)
           (answer : outcome (list json)) : response :=
  match answer with
  | Ok (row :: _) => Response (jsonify [("lead", row)]) code
  | Ok [] => message_response (prefix ++ "list index out of range") 500
  | Exc e => message_response (prefix ++ exn_str e) 500
  end.

(** A body the validator has nothing to say about, uniqueness apart. *)
Definition well_formed_lead (validate_email : json -> outcome unit)
           (d : list (string * json)) (phone email : json) : Prop :=
  (forall field, In field required_fields -> supplied field d = true) /\
  Py.dict_get "phone" d = Some phone /\
  validate_phone_number phone = Ok true /\
  Py.dict_get "email" d = Some email /\
  validate_email email = Ok tt.

(** The defaults the create handler adds, in the order it adds them. *)
Definition missing_defaults (utcnow_isoformat : string) (d : list (string * json))
  : list (string * json) :=
  (if Py.dict_has "lastconnected" d then []
   else [("lastconnected", JStr utcnow_isoformat)])
  ++ (if Py.dict_has "status" d then [] else [("status", JStr "Connected")])
  ++ (if Py.dict_has "tag" d then [] else [("tag", JStr "Lead")]).

(** A stored row without the email column. *)
Definition store_without_email : MemStore.t :=
  MemStore.Make
    [JObj [("id", JInt 7); ("name", JStr "Meera"); ("phone", JStr "9000000001")]]
    8 [].

(** A store whose first query answers and whose second query raises. *)
Definition store_answers_nothing : MemStore.t := MemStore.Make [] 1 [].

(** The messages the validator has about the phone, and about the email. *)
Definition phone_messages : list string :=
  ["phone is required"; phone_format_error; phone_exists_error; phone_lookup_error].

Definition email_messages : list string :=
  ["email is required"; email_format_error; email_exists_error; email_lookup_error].

(** How many of [errors] are among [messages]. *)
Definition count_among (messages errors : list string) : nat :=
  length (filter (fun m => existsb (String.eqb m) messages) errors).

(** A body with a phone of the accepted format that the table already
    holds, and an email the checker rejects. *)
Definition body_taken_phone_bad_email : list (string * json) :=
  [("name", JStr "Ravi"); ("phone", JStr "9876543210");
   ("email", JStr "nobody"); ("party", JStr "South")].

(** A store that answers from a script: each executed query takes the next
    answer of the list, and [Ok []] once the list is used up. *)
Module ScriptedStore.

Definition t : Type := list (outcome (list json)).

Definition run_query (q : query) (s : t) : outcome (list json) * t :=
  match s with
  | answer :: rest => (answer, rest)
  | [] => (Ok [], [])
  end.

Definition store : TableStore t := {| execute_query := run_query |}.

End ScriptedStore.

(** The status codes of the five routes. *)
Definition read_codes : list nat := [200; 404; 500].

Definition create_codes : list nat := [201; 400; 500].

Definition update_codes : list nat := [200; 400; 404; 500].

(** A body for lead 7 that supplies an email. *)
Definition body_for_meera : list (string * json) :=
  [("name", JStr "Meera"); ("phone", JStr "9000000001");
   ("email", JStr "meera@mail.example"); ("party", JStr "East")].

(** A body that is a JSON array. *)
Definition body_array : json := JArr [JStr "Ravi"; JStr "9123456780"].

(* ================================================================== *)
(** * Properties *)

(** ** The examples of the specification *)

Example phone_plain : validate_phone_number (JStr "9876543210") = Ok true.
Proof. reflexivity. Qed.

Example phone_plus91_space : validate_phone_number (JStr "+91 9876543210") = Ok true.
Proof. reflexivity. Qed.

Example phone_zero : validate_phone_number (JStr "09876543210") = Ok true.
Proof. reflexivity. Qed.

Example phone_bad_lead : validate_phone_number (JStr "5876543210") = Ok false.
Proof. reflexivity. Qed.

Example phone_short : validate_phone_number (JStr "12345") = Ok false.
Proof. reflexivity. Qed.

Example phone_plus91_joined : validate_phone_number (JStr "+919876543210") = Ok true.
Proof. reflexivity. Qed.

Example phone_plus91_nine_digits : validate_phone_number (JStr "+91123456789") = Ok false.
Proof. reflexivity. Qed.

(** ** Dictionaries *)

Lemma dict_get_set_same k v d : Py.dict_get k (Py.dict_set k v d) = Some v.
Proof.
  induction d as [|[k' v'] d IH]; simpl.
  - now rewrite String.eqb_refl.
  - destruct (String.eqb k k') eqn:E; simpl; rewrite E; auto.
Qed.

Lemma dict_get_set_other k k' v d :
  k' <> k -> Py.dict_get k' (Py.dict_set k v d) = Py.dict_get k' d.
Proof.
  intros Hne. induction d as [|[k0 v0] d IH]; simpl.
  - destruct (String.eqb k' k) eqn:E; auto.
    apply String.eqb_eq in E. contradiction.
  - destruct (String.eqb k k0) eqn:E; simpl.
    + apply String.eqb_eq in E. subst k0.
      destruct (String.eqb k' k) eqn:E'; auto.
      apply String.eqb_eq in E'. contradiction.
    + now rewrite IH.
Qed.

(** Item assignment and [setdefault] never disturb a key that is there
    under another name, and [setdefault] leaves a key that is there alone. *)
Lemma dict_get_set_absent k k' v v' d :
  Py.dict_get k d = None -> Py.dict_get k' d = Some v' ->
  Py.dict_get k' (Py.dict_set k v d) = Some v'.
Proof.
  intros Hk Hk'. rewrite dict_get_set_other; auto.
  intros ->. congruence.
Qed.

Lemma setdefault_dict d k v :
  Py.setdefault (JObj d) k v = Ok (JObj (dict_setdefault k v d)).
Proof. reflexivity. Qed.

Lemma dict_setdefault_keeps k v d k' v' :
  Py.dict_get k' d = Some v' -> Py.dict_get k' (dict_setdefault k v d) = Some v'.
Proof.
  intros H. unfold dict_setdefault, Py.dict_has.
  destruct (Py.dict_get k d) eqn:E; auto.
  now apply dict_get_set_absent.
Qed.

Lemma dict_setdefault_fills k v d :
  Py.dict_get k d = None -> Py.dict_get k (dict_setdefault k v d) = Some v.
Proof.
  intros H. unfold dict_setdefault, Py.dict_has. rewrite H.
  apply dict_get_set_same.
Qed.

(** ** The monad *)

Section Laws.

Context {S : Type} {client : TableStore S}.

Lemma bind_ok {A B} (c : M S A) (k : A -> M S B) w a w' :
  c w = (Ok a, w') -> bind c k w = k a w'.
Proof. unfold bind. now intros ->. Qed.

Lemma bind_exc {A B} (c : M S A) (k : A -> M S B) w e w' :
  c w = (Exc e, w') -> bind c k w = (Exc e, w').
Proof. unfold bind. now intros ->. Qed.

Lemma execute_eq q (w : world S) :
  execute q w =
  (fst (execute_query q (supabase w)),
   World (snd (execute_query q (supabase w))) (calls w ++ [q])).
Proof. unfold execute. now destruct (execute_query q (supabase w)). Qed.

Lemma read_step_refl w : read_step w w.
Proof.
  split.
  - exists []. now rewrite app_nil_r.
  - reflexivity.
Qed.

Lemma read_step_trans w1 w2 w3 :
  read_step w1 w2 -> read_step w2 w3 -> read_step w1 w3.
Proof.
  intros [[q1 [E1 F1]] O1] [[q2 [E2 F2]] O2]. split.
  - exists (q1 ++ q2). rewrite E2, E1, app_assoc, forallb_app, F1, F2. auto.
  - intros X obs H. rewrite (O2 X obs H). now apply O1.
Qed.

Lemma reads_only_ret {A} (a : A) : reads_only (ret (S:=S) a).
Proof. intro w. apply read_step_refl. Qed.

Lemma reads_only_lift {A} (c : outcome A) : reads_only (lift (S:=S) c).
Proof. intro w. apply read_step_refl. Qed.

Lemma reads_only_execute q : is_select q = true -> reads_only (execute q).
Proof.
  intros Hq w. rewrite execute_eq. simpl. split.
  - exists [q]. simpl. now rewrite Hq.
  - intros X obs H. simpl. now apply H.
Qed.

Lemma reads_only_bind {A B} (c : M S A) (k : A -> M S B) :
  reads_only c -> (forall a, reads_only (k a)) -> reads_only (bind c k).
Proof.
  intros Hc Hk w. unfold bind. specialize (Hc w).
  destruct (c w) as [[a|e] w1] eqn:E; simpl in *; auto.
  eapply read_step_trans; [exact Hc | apply Hk].
Qed.

Lemma reads_only_try {A} (c : M S A) catches (h : exn -> M S A) :
  reads_only c -> (forall e, reads_only (h e)) -> reads_only (try_except c catches h).
Proof.
  intros Hc Hh w. unfold try_except. specialize (Hc w).
  destruct (c w) as [[a|e] w1] eqn:E; simpl in *; auto.
  destruct (catches e); simpl; auto.
  eapply read_step_trans; [exact Hc | apply Hh].
Qed.

Lemma reads_only_if {A} (b : bool) (c1 c2 : M S A) :
  reads_only c1 -> reads_only c2 -> reads_only (if b then c1 else c2).
Proof. now destruct b. Qed.

End Laws.


(** ** The validator *)

Section Validator.

Context {S : Type} {client : TableStore S}.
Variable validate_email : json -> outcome unit.

Lemma is_missing_dict field d :
  is_missing field (JObj d) = Ok (negb (supplied field d)).
Proof.
  unfold is_missing, supplied, Py.contains, Py.getitem, Py.dict_has. simpl.
  now destruct (Py.dict_get field d).
Qed.

Lemma is_present_dict field d :
  is_present field (JObj d) = Ok (supplied field d).
Proof.
  unfold is_present, supplied, Py.contains, Py.getitem, Py.dict_has. simpl.
  now destruct (Py.dict_get field d).
Qed.

Lemma check_required_dict fields d errors :
  check_required fields (JObj d) errors = Ok (errors ++ required_errors fields d).
Proof.
  revert errors. induction fields as [|f fields IH]; intros errors; simpl.
  - now rewrite app_nil_r.
  - rewrite is_missing_dict. simpl. rewrite IH. unfold required_errors. simpl.
    destruct (supplied f d); simpl; auto.
    now rewrite <- app_assoc.
Qed.

(** The loop's result does not depend on what is already in [errors]. *)
Lemma check_required_appends fields data errors :
  check_required fields data errors =
  (r <~ check_required fields data [] ;; Ok (errors ++ r)).
Proof.
  revert errors. induction fields as [|f fields IH]; intros errors; simpl.
  - now rewrite app_nil_r.
  - destruct (is_missing f data) as [m|e]; simpl; auto.
    rewrite IH. rewrite (IH (if m then _ else _)).
    destruct (check_required fields data []) as [r|e]; simpl; auto.
    destruct m; simpl; auto. now rewrite <- app_assoc.
Qed.

(** Each block appends to [errors] what it would report on its own. *)
Lemma check_phone_appends data flag errors w :
  check_phone data flag errors w = append_to errors (check_phone data flag [] w).
Proof.
  unfold check_phone, bind, lift, ret, try_except, append_to.
  destruct (is_present "phone" data) as [[|]|e]; simpl; auto;
    try now rewrite app_nil_r.
  destruct (Py.getitem data "phone") as [v|e]; simpl; auto.
  destruct (validate_phone_number v) as [[|]|e]; simpl; auto.
  destruct flag; simpl; try now rewrite app_nil_r.
  destruct (execute _ w) as [[rows|e] w']; simpl; auto.
  destruct (Py.nonempty rows); simpl; auto. now rewrite app_nil_r.
Qed.

Lemma check_email_appends data flag errors w :
  check_email validate_email data flag errors w =
  append_to errors (check_email validate_email data flag [] w).
Proof.
  unfold check_email, bind, lift, ret, try_except, append_to.
  destruct (is_present "email" data) as [[|]|e]; simpl; auto;
    try now rewrite app_nil_r.
  destruct (Py.getitem data "email") as [v|e]; simpl; auto.
  - destruct (validate_email v) as [[]|e]; simpl; auto.
    + destruct flag; simpl; try now rewrite app_nil_r.
      destruct (execute _ w) as [[rows|e] w']; simpl; auto.
      destruct (Py.nonempty rows); simpl; auto. now rewrite app_nil_r.
    + destruct (is_EmailNotValidError e); auto.
  - destruct (is_EmailNotValidError e); auto.
Qed.

(** The validator as the three blocks in sequence. *)
Lemma validate_lead_data_blocks data flag w :
  validate_lead_data validate_email data flag w =
  match check_required required_fields data [] with
  | Exc e => (Exc e, w)
  | Ok req =>
      match check_phone data flag [] w with
      | (Exc e, w1) => (Exc e, w1)
      | (Ok ph, w1) =>
          match check_email validate_email data flag [] w1 with
          | (Exc e, w2) => (Exc e, w2)
          | (Ok em, w2) => (Ok (req ++ ph ++ em), w2)
          end
      end
  end.
Proof.
  unfold validate_lead_data, bind, lift, ret.
  destruct (check_required required_fields data []) as [req|e]; auto.
  rewrite check_phone_appends. unfold append_to.
  destruct (check_phone data flag [] w) as [[ph|e] w1]; auto.
  rewrite check_email_appends. unfold append_to.
  destruct (check_email validate_email data flag [] w1) as [[em|e] w2]; auto.
  now rewrite app_assoc.
Qed.

End Validator.

#[local] Arguments Py.getitem : simpl never.
#[local] Arguments validate_phone_number : simpl never.

Section ValidatorOnMaps.

Context {S : Type} {client : TableStore S}.
Variable validate_email : json -> outcome unit.

Lemma getitem_dict d k v :
  Py.dict_get k d = Some v -> Py.getitem (JObj d) k = Ok v.
Proof. unfold Py.getitem. now intros ->. Qed.

Lemma supplied_true field d :
  supplied field d = true ->
  exists v, Py.dict_get field d = Some v /\ Py.truthy v = true.
Proof.
  unfold supplied. destruct (Py.dict_get field d) as [v|]; try discriminate.
  intros H. now exists v.
Qed.

Lemma supplied_false field d :
  supplied field d = false <->
  Py.dict_get field d = None \/
  exists v, Py.dict_get field d = Some v /\ Py.truthy v = false.
Proof.
  unfold supplied. destruct (Py.dict_get field d) as [v|]; split; intros H; auto.
  - right. now exists v.
  - destruct H as [H|[v' [H1 H2]]]; congruence.
Qed.

(** A block reports nothing or one of its messages. *)
Lemma check_phone_messages data flag w ph w1 :
  check_phone data flag [] w = (Ok ph, w1) ->
  ph = [] \/ ph = [phone_format_error] \/ ph = [phone_exists_error]
  \/ ph = [phone_lookup_error].
Proof.
  unfold check_phone, bind, lift, ret, try_except.
  destruct (is_present "phone" data) as [[|]|e]; simpl; try congruence.
  - destruct (Py.getitem data "phone") as [v|e]; simpl; try congruence.
    destruct (validate_phone_number v) as [[|]|e]; simpl; try congruence.
    + destruct flag; simpl.
      * destruct (execute _ w) as [[rows|e] w']; simpl.
        -- destruct (Py.nonempty rows); intros H; inversion H; auto.
        -- intros H; inversion H; auto.
      * intros H; inversion H; auto.
    + intros H; inversion H; auto.
  - intros H; inversion H; auto.
Qed.

Lemma check_email_messages data flag w em w1 :
  check_email validate_email data flag [] w = (Ok em, w1) ->
  em = [] \/ em = [email_format_error] \/ em = [email_exists_error]
  \/ em = [email_lookup_error].
Proof.
  unfold check_email, bind, lift, ret, try_except.
  destruct (is_present "email" data) as [[|]|e]; simpl; try congruence.
  - destruct (Py.getitem data "email") as [v|e]; simpl.
    + destruct (validate_email v) as [[]|e]; simpl.
      * destruct flag; simpl.
        -- destruct (execute _ w) as [[rows|e] w']; simpl.
           ++ destruct (Py.nonempty rows); intros H; inversion H; auto.
           ++ intros H; inversion H; auto.
        -- intros H; inversion H; auto.
      * destruct (is_EmailNotValidError e); intros H; inversion H; auto.
    + destruct (is_EmailNotValidError e); intros H; inversion H; auto.
  - intros H; inversion H; auto.
Qed.

(** The phone block on a map whose phone is a [str] or falsy or absent:
    it returns, and what it reports is decided by the phone alone. *)
Lemma check_phone_on_text d flag w :
  phone_is_text d ->
  exists ph w1,
    check_phone (JObj d) flag [] w = (Ok ph, w1) /\
    (forall s, Py.dict_get "phone" d = Some (JStr s) -> s <> "" ->
               Re.matches pattern s = false -> ph = [phone_format_error]).
Proof.
  intros Htext. unfold check_phone, bind, lift, ret, try_except.
  rewrite is_present_dict. simpl.
  destruct (supplied "phone" d) eqn:Hsup; simpl.
  - destruct (supplied_true _ _ Hsup) as [v [Hv Ht]].
    destruct (Htext v Hv Ht) as [s ->].
    rewrite (getitem_dict _ _ _ Hv). simpl.
    destruct (Re.matches pattern s) eqn:Hm; simpl.
    + destruct flag; simpl.
      * destruct (execute _ w) as [[rows|e] w'] eqn:E; simpl.
        -- eexists _, _. split; [reflexivity|].
           intros s' Hs'. rewrite Hv in Hs'. inversion Hs'; subst. congruence.
        -- eexists _, _. split; [reflexivity|].
           intros s' Hs'. rewrite Hv in Hs'. inversion Hs'; subst. congruence.
      * eexists _, _. split; [reflexivity|].
        intros s' Hs'. rewrite Hv in Hs'. inversion Hs'; subst. congruence.
    + eexists _, _. split; [reflexivity|]. reflexivity.
  - eexists _, _. split; [reflexivity|].
    intros s Hs Hne. unfold supplied in Hsup. rewrite Hs in Hsup. simpl in Hsup.
    destruct (String.eqb s "") eqn:E; try discriminate.
    apply String.eqb_eq in E. contradiction.
Qed.

(** The email block on a map on which the checker is confined. *)
Lemma check_email_on_confined d flag w :
  email_checker_confined validate_email d ->
  exists em w1,
    check_email validate_email (JObj d) flag [] w = (Ok em, w1) /\
    (forall v e, Py.dict_get "email" d = Some v -> Py.truthy v = true ->
                 validate_email v = Exc e -> em = [email_format_error]).
Proof.
  intros Hconf. unfold check_email, bind, lift, ret, try_except.
  rewrite is_present_dict. simpl.
  destruct (supplied "email" d) eqn:Hsup; simpl.
  - destruct (supplied_true _ _ Hsup) as [v [Hv Ht]].
    rewrite (getitem_dict _ _ _ Hv). simpl.
    destruct (Hconf v Hv Ht) as [Hok|[e [He Hcls]]].
    + rewrite Hok. simpl. destruct flag; simpl.
      * destruct (execute _ w) as [[rows|e] w'] eqn:E; simpl.
        -- eexists _, _. split; [reflexivity|].
           intros v' e' Hv'. rewrite Hv in Hv'. inversion Hv'; subst. congruence.
        -- eexists _, _. split; [reflexivity|].
           intros v' e' Hv'. rewrite Hv in Hv'. inversion Hv'; subst. congruence.
      * eexists _, _. split; [reflexivity|].
        intros v' e' Hv'. rewrite Hv in Hv'. inversion Hv'; subst. congruence.
    + rewrite He. simpl. rewrite Hcls.
      eexists _, _. split; [reflexivity|]. reflexivity.
  - eexists _, _. split; [reflexivity|].
    intros v e Hv Ht. unfold supplied in Hsup. rewrite Hv in Hsup. congruence.
Qed.

(** On such a map the validator returns a list. *)
Lemma validate_lead_data_returns d flag w :
  phone_is_text d -> email_checker_confined validate_email d ->
  exists errors w', validate_lead_data validate_email (JObj d) flag w = (Ok errors, w').
Proof.
  intros Ht Hc. rewrite validate_lead_data_blocks, check_required_dict.
  destruct (check_phone_on_text d flag w Ht) as [ph [w1 [-> _]]].
  destruct (check_email_on_confined d flag w1 Hc) as [em [w2 [-> _]]].
  eauto.
Qed.

(** The validator executes selects only, whatever its input and outcome. *)
Lemma check_phone_reads data flag errors : reads_only (check_phone data flag errors).
Proof.
  unfold check_phone.
  repeat first [apply reads_only_bind; [|intro] | apply reads_only_if
               | apply reads_only_try; [|intro]
               | apply reads_only_execute; reflexivity
               | apply reads_only_lift | apply reads_only_ret].
Qed.

Lemma check_email_reads data flag errors :
  reads_only (check_email validate_email data flag errors).
Proof.
  unfold check_email.
  repeat first [apply reads_only_bind; [|intro] | apply reads_only_if
               | apply reads_only_try; [|intro]
               | apply reads_only_execute; reflexivity
               | apply reads_only_lift | apply reads_only_ret].
Qed.

Lemma validate_lead_data_reads data flag :
  reads_only (validate_lead_data validate_email data flag).
Proof.
  unfold validate_lead_data. cbv zeta.
  apply reads_only_bind; [apply reads_only_lift|intro].
  apply reads_only_bind; [apply check_phone_reads|intro].
  apply reads_only_bind; [apply check_email_reads|intro].
  apply reads_only_ret.
Qed.

End ValidatorOnMaps.

(* ================================================================== *)
(** ** Required fields (C8) *)

Lemma required_message_inj f f' :
  In f required_fields -> In f' required_fields ->
  required_message f = required_message f' -> f = f'.
Proof.
  unfold required_fields, required_message. simpl.
  intros [<-|[<-|[<-|[<-|[]]]]] [<-|[<-|[<-|[<-|[]]]]]; simpl; intros H;
    first [reflexivity | discriminate H].
Qed.

Lemma required_message_not_block f :
  In f required_fields -> ~ In (required_message f) block_messages.
Proof.
  unfold required_fields, required_message, block_messages. simpl.
  intros [<-|[<-|[<-|[<-|[]]]]]; simpl; intros H;
    repeat (destruct H as [H|H]; [discriminate H|]); exact H.
Qed.

Lemma in_required_errors f d :
  In f required_fields ->
  (In (required_message f) (required_errors required_fields d) <->
   supplied f d = false).
Proof.
  intros Hf. unfold required_errors. rewrite in_map_iff. split.
  - intros [f' [Heq Hin]]. apply filter_In in Hin. destruct Hin as [Hin Hs].
    apply required_message_inj in Heq; auto. subst f'.
    now destruct (supplied f d).
  - intros Hs. exists f. split; auto. apply filter_In. split; auto.
    now rewrite Hs.
Qed.

(** C8, amended. For every input map and each required field: the loop over
    the required fields always completes and appends "<field> is required"
    exactly when the key is absent or its value is falsy ([None], [False],
    [0], the empty string, list or map), so that [0], the empty string and
    an absent key are treated alike.  When the supplied phone is a [str]
    and the email checker raises nothing but [EmailNotValidError] on the
    supplied email, the validator returns a list, and the message is in it
    under the same condition; and whenever the validator returns a list,
    the message is in it under that condition (no later block adds or
    removes one). *)
Theorem required_message_iff_absent_or_falsy
  {S : Type} {client : TableStore S} (validate_email : json -> outcome unit)
  (d : list (string * json)) (field : string) :
  In field required_fields ->
  let absent_or_falsy :=
    Py.dict_get field d = None \/
    exists v, Py.dict_get field d = Some v /\ Py.truthy v = false in
  (exists req, check_required required_fields (JObj d) [] = Ok req /\
               (In (required_message field) req <-> absent_or_falsy)) /\
  (phone_is_text d -> email_checker_confined validate_email d ->
   forall flag (w : world S), exists errors w',
      validate_lead_data validate_email (JObj d) flag w = (Ok errors, w') /\
      (In (required_message field) errors <-> absent_or_falsy)) /\
  (forall flag (w : world S) errors w',
      validate_lead_data validate_email (JObj d) flag w = (Ok errors, w') ->
      (In (required_message field) errors <-> absent_or_falsy)) /\
  Forall (fun v => Py.truthy v = false) [JStr ""; JNull; JInt 0; JBool false].
Proof.
  intros Hf absent_or_falsy. subst absent_or_falsy.
  assert (Hret : forall flag (w : world S) errors w',
             validate_lead_data validate_email (JObj d) flag w = (Ok errors, w') ->
             (In (required_message field) errors <->
              Py.dict_get field d = None \/
              exists v, Py.dict_get field d = Some v /\ Py.truthy v = false)).
  { intros flag w errors w' Hrun.
    rewrite validate_lead_data_blocks, check_required_dict in Hrun. simpl in Hrun.
    destruct (check_phone (JObj d) flag [] w) as [[ph|e] w1] eqn:Hph;
      try discriminate.
    destruct (check_email validate_email (JObj d) flag [] w1) as [[em|e] w2] eqn:Hem;
      try discriminate.
    inversion Hrun; subst. clear Hrun.
    rewrite <- supplied_false, <- in_required_errors by assumption.
    pose proof (required_message_not_block _ Hf) as Hnot.
    apply check_phone_messages in Hph. apply check_email_messages in Hem.
    rewrite !in_app_iff. split; auto.
    intros [H|[H|H]]; auto; exfalso; apply Hnot; unfold block_messages.
    + destruct Hph as [->|[->|[->| ->]]]; simpl in *; tauto.
    + destruct Hem as [->|[->|[->| ->]]]; simpl in *; tauto. }
  split; [|split; [|split]].
  - exists (required_errors required_fields d). split.
    + apply (check_required_dict required_fields d []).
    + rewrite in_required_errors by assumption. apply supplied_false.
  - intros Ht Hc flag w.
    destruct (check_phone_on_text d flag w Ht) as [ph [w1 [Hph _]]].
    destruct (check_email_on_confined validate_email d flag w1 Hc)
      as [em [w2 [Hem _]]].
    assert (Hrun : validate_lead_data validate_email (JObj d) flag w
                   = (Ok (required_errors required_fields d ++ ph ++ em), w2)).
    { rewrite validate_lead_data_blocks, check_required_dict, Hph, Hem.
      reflexivity. }
    eexists _, w2. split; [exact Hrun|]. exact (Hret _ _ _ _ Hrun).
  - exact Hret.
  - repeat constructor.
Qed.

Example required_zero_empty_absent :
  fst (validate_lead_data sample_validate_email (JObj body_zero_empty_absent) true
         (MemStore.fresh sample_store))
  = Ok ["name is required"; "phone is required"; "party is required"].
Proof. reflexivity. Qed.

Lemma sample_checker_confined d :
  (forall v, Py.dict_get "email" d = Some v -> exists s, v = JStr s) ->
  email_checker_confined sample_validate_email d.
Proof.
  intros H v Hv _. destruct (H v Hv) as [s ->]. simpl.
  destruct (Py.substring_of "@" s); [left|right]; auto.
  eexists. split; reflexivity.
Qed.

Lemma required_message_iff_absent_or_falsy_witness :
  In "name" required_fields /\
  phone_is_text body_zero_empty_absent /\
  email_checker_confined sample_validate_email body_zero_empty_absent /\
  fst (validate_lead_data sample_validate_email (JObj body_zero_empty_absent) true
         (MemStore.fresh sample_store))
  = Ok ["name is required"; "phone is required"; "party is required"] /\
  (In (required_message "name")
      ["name is required"; "phone is required"; "party is required"] <->
   Py.dict_get "name" body_zero_empty_absent = None \/
   exists v, Py.dict_get "name" body_zero_empty_absent = Some v /\
             Py.truthy v = false).
Proof.
  assert (Hin : In "name" required_fields) by (simpl; auto).
  assert (Ht : phone_is_text body_zero_empty_absent).
  { intros v Hv _. inversion Hv. now exists "". }
  assert (Hc : email_checker_confined sample_validate_email body_zero_empty_absent).
  { apply sample_checker_confined. intros v Hv. inversion Hv.
    now exists "ravi@mail.example". }
  split; [exact Hin|]. split; [exact Ht|]. split; [exact Hc|].
  destruct (proj1 (proj2 (required_message_iff_absent_or_falsy
                            (client:=MemStore.store) sample_validate_email
                            body_zero_empty_absent "name" Hin))
              Ht Hc true (MemStore.fresh sample_store))
    as [errors [w' [Hrun Hiff]]].
  vm_compute in Hrun. inversion Hrun; subst errors w'.
  split; [reflexivity | exact Hiff].
Defined.

(** C8 as stated fails: on [body_only_numeric_phone] the name is absent, but
    the validator raises [TypeError] in the phone block and returns no list,
    so that no "name is required" is reported. *)
Lemma validate_lead_data_numeric_phone_reports_nothing :
  Py.dict_get "name" body_only_numeric_phone = None /\
  check_required required_fields (JObj body_only_numeric_phone) []
  = Ok ["name is required"; "email is required"; "party is required"] /\
  (forall flag,
      validate_lead_data sample_validate_email (JObj body_only_numeric_phone) flag
        (MemStore.fresh sample_store)
      = (Exc (Exn TypeError "expected string or bytes-like object, got 'int'"),
         MemStore.fresh sample_store)) /\
  ~ (exists flag errors w',
        validate_lead_data sample_validate_email (JObj body_only_numeric_phone) flag
          (MemStore.fresh sample_store) = (Ok errors, w') /\
        In (required_message "name") errors).
Proof.
  split; [reflexivity|]. split; [reflexivity|]. split.
  - intros [|]; reflexivity.
  - intros [flag [errors [w' [H _]]]]. destruct flag; vm_compute in H; discriminate H.
Qed.

(* ================================================================== *)
(** ** Accumulation of errors (C3) *)

(** On a map whose supplied phone is a [str] and on which the email checker
    is confined, the validator returns the three reports one after the
    other. *)
Lemma validate_lead_data_on_map
  {S : Type} {client : TableStore S} (validate_email : json -> outcome unit)
  (d : list (string * json)) (flag : bool) (w : world S) :
  phone_is_text d ->
  email_checker_confined validate_email d ->
  exists ph w1 em w2,
    check_phone (JObj d) flag [] w = (Ok ph, w1) /\
    check_email validate_email (JObj d) flag [] w1 = (Ok em, w2) /\
    validate_lead_data validate_email (JObj d) flag w
    = (Ok (required_errors required_fields d ++ ph ++ em), w2) /\
    (forall s, Py.dict_get "phone" d = Some (JStr s) -> s <> "" ->
               Re.matches pattern s = false -> ph = [phone_format_error]) /\
    (forall v e, Py.dict_get "email" d = Some v -> Py.truthy v = true ->
                 validate_email v = Exc e -> em = [email_format_error]).
Proof.
  intros Ht Hc.
  destruct (check_phone_on_text d flag w Ht) as [ph [w1 [Hph Hfmt]]].
  destruct (check_email_on_confined validate_email d flag w1 Hc) as [em [w2 [Hem Hrej]]].
  exists ph, w1, em, w2. repeat split; auto.
  rewrite validate_lead_data_blocks, check_required_dict, Hph, Hem.
  reflexivity.
Qed.

(** C3, amended. For every input map whose supplied phone is a [str] and on
    whose supplied email the checker raises nothing but
    [EmailNotValidError], and for every flag, the validator returns the
    required-field errors, then what the phone block reports, then what the
    email block reports.  Each block runs whatever the blocks before it
    reported: a phone of the wrong format is reported whatever the other
    fields are, and so is an email that the checker rejects. *)
Theorem validate_lead_data_accumulates
  {S : Type} {client : TableStore S} (validate_email : json -> outcome unit)
  (d : list (string * json)) (flag : bool) (w : world S) :
  phone_is_text d ->
  email_checker_confined validate_email d ->
  exists ph w1 em w2,
    check_phone (JObj d) flag [] w = (Ok ph, w1) /\
    check_email validate_email (JObj d) flag [] w1 = (Ok em, w2) /\
    validate_lead_data validate_email (JObj d) flag w
    = (Ok (required_errors required_fields d ++ ph ++ em), w2) /\
    (forall s, Py.dict_get "phone" d = Some (JStr s) -> s <> "" ->
               Re.matches pattern s = false -> ph = [phone_format_error]) /\
    (forall v e, Py.dict_get "email" d = Some v -> Py.truthy v = true ->
                 validate_email v = Exc e -> em = [email_format_error]).
Proof. apply validate_lead_data_on_map. Qed.

Lemma validate_lead_data_accumulates_witness :
  phone_is_text body_three_faults /\
  email_checker_confined sample_validate_email body_three_faults /\
  validate_lead_data sample_validate_email (JObj body_three_faults) true
    (MemStore.fresh sample_store)
  = (Ok ["name is required"; phone_format_error; email_format_error],
     MemStore.fresh sample_store).
Proof.
  assert (Ht : phone_is_text body_three_faults).
  { intros v Hv _. inversion Hv. now exists "12345". }
  assert (Hc : email_checker_confined sample_validate_email body_three_faults).
  { apply sample_checker_confined. intros v Hv. inversion Hv. now exists "nobody". }
  split; [exact Ht|]. split; [exact Hc|].
  destruct (validate_lead_data_accumulates (client:=MemStore.store)
              sample_validate_email body_three_faults
              true (MemStore.fresh sample_store) Ht Hc)
    as [ph [w1 [em [w2 [Hph [Hem [Hrun _]]]]]]].
  vm_compute in Hph. inversion Hph; subst ph w1.
  vm_compute in Hem. inversion Hem; subst em w2.
  exact Hrun.
Defined.

(** C3 as stated fails: on [body_numeric_phone] the email block, run on its
    own, reports the rejected email, but the validator raises [TypeError] in
    the phone block and returns no list at all. *)
Lemma validate_lead_data_stops_at_numeric_phone :
  check_email sample_validate_email (JObj body_numeric_phone) true []
    (MemStore.fresh sample_store)
  = (Ok [email_format_error], MemStore.fresh sample_store) /\
  validate_lead_data sample_validate_email (JObj body_numeric_phone) true
    (MemStore.fresh sample_store)
  = (Exc (Exn TypeError "expected string or bytes-like object, got 'int'"),
     MemStore.fresh sample_store) /\
  ~ (exists errors w',
        validate_lead_data sample_validate_email (JObj body_numeric_phone) true
          (MemStore.fresh sample_store) = (Ok errors, w') /\
        In email_format_error errors).
Proof.
  split; [reflexivity|]. split; [reflexivity|].
  intros [errors [w' [H _]]]. vm_compute in H. discriminate H.
Qed.

(* ================================================================== *)
(** ** What the write handlers do with the validator's answer *)

Section Rejection.

Context {S : Type} {client : TableStore S}.
Variable validate_email : json -> outcome unit.
Variable utcnow_isoformat : string.

Lemma create_lead_rejects data (w : world S) errors w' :
  Py.truthy data = true ->
  validate_lead_data validate_email data true w = (Ok errors, w') ->
  errors <> [] ->
  create_lead validate_email utcnow_isoformat data w
  = (Ok (validation_failure errors), w').
Proof.
  intros Ht Hv Hne. unfold create_lead. rewrite Ht. simpl.
  erewrite bind_ok by exact Hv.
  destruct errors; [contradiction|]. reflexivity.
Qed.

Lemma update_lead_rejects lead_id data (w0 : world S) rows w flag errors w' :
  Py.truthy data = true ->
  execute (SelectEq "id" (JInt lead_id)) w0 = (Ok rows, w) ->
  rows <> [] ->
  compute_check_existing data rows = Ok flag ->
  validate_lead_data validate_email data flag w = (Ok errors, w') ->
  errors <> [] ->
  update_lead validate_email lead_id data w0 = (Ok (validation_failure errors), w').
Proof.
  intros Ht Hsel Hrows Hflag Hv Hne. unfold update_lead. rewrite Ht. simpl.
  unfold try_except. erewrite bind_ok by exact Hsel.
  destruct rows; [contradiction|]. simpl.
  unfold bind at 1. unfold lift at 1. rewrite Hflag.
  erewrite bind_ok by exact Hv.
  destruct errors; [contradiction|]. reflexivity.
Qed.

End Rejection.

(* ================================================================== *)
(** ** Lookups that fail (C4) *)

Section LookupFailure.

Context {S : Type} {client : TableStore S}.
Variable validate_email : json -> outcome unit.

Lemma matched_phone_is_truthy s :
  validate_phone_number (JStr s) = Ok true -> Py.truthy (JStr s) = true.
Proof.
  destruct s; [intros H; vm_compute in H; discriminate H | reflexivity].
Qed.

Lemma check_phone_lookup_fails d (w : world S) s e st' :
  Py.dict_get "phone" d = Some (JStr s) ->
  validate_phone_number (JStr s) = Ok true ->
  execute_query (SelectEqLimit "phone" (JStr s) 1) (supabase w) = (Exc e, st') ->
  check_phone (JObj d) true [] w
  = (Ok [phone_lookup_error],
     World st' (calls w ++ [SelectEqLimit "phone" (JStr s) 1])).
Proof.
  intros Hget Hvalid Hfail.
  unfold check_phone, bind, lift, ret, try_except.
  rewrite is_present_dict. unfold supplied. rewrite Hget.
  rewrite (matched_phone_is_truthy _ Hvalid).
  rewrite (getitem_dict _ _ _ Hget), Hvalid. simpl.
  rewrite execute_eq, Hfail. reflexivity.
Qed.

Lemma check_email_lookup_fails d (w : world S) v e st' :
  Py.dict_get "email" d = Some v -> Py.truthy v = true ->
  validate_email v = Ok tt ->
  execute_query (SelectEqLimit "email" v 1) (supabase w) = (Exc e, st') ->
  check_email validate_email (JObj d) true [] w
  = (Ok [email_lookup_error],
     World st' (calls w ++ [SelectEqLimit "email" v 1])).
Proof.
  intros Hget Ht Hvalid Hfail.
  unfold check_email, bind, lift, ret, try_except.
  rewrite is_present_dict. unfold supplied. rewrite Hget, Ht.
  rewrite (getitem_dict _ _ _ Hget), Hvalid. simpl.
  rewrite execute_eq, Hfail. reflexivity.
Qed.

End LookupFailure.

(** C4, amended. When the phone has the accepted format, the flag is true,
    the phone lookup raises and the email checker raises nothing but
    [EmailNotValidError] on the supplied email (the email block runs after
    the failed lookup), the validator does not raise: it returns a list
    that holds "Error validating phone number", and the create handler, and
    the update handler once it has found the lead and computed a true flag,
    answer 400 with that list.  When the checker accepts the email, the
    flag is true and the email lookup raises, the validator returns a list
    that holds "Error validating email" and the handlers answer 400 with
    it. *)
Theorem lookup_failure_is_reported
  {S : Type} {client : TableStore S} (validate_email : json -> outcome unit)
  (utcnow_isoformat : string) (d : list (string * json)) (w : world S) :
  let answers_400 errors w' :=
    create_lead validate_email utcnow_isoformat (JObj d) w
    = (Ok (validation_failure errors), w') /\
    (forall lead_id w0 rows,
        execute (SelectEq "id" (JInt lead_id)) w0 = (Ok rows, w) ->
        rows <> [] -> compute_check_existing (JObj d) rows = Ok true ->
        update_lead validate_email lead_id (JObj d) w0
        = (Ok (validation_failure errors), w')) in
  (forall s e st',
      Py.dict_get "phone" d = Some (JStr s) ->
      validate_phone_number (JStr s) = Ok true ->
      email_checker_confined validate_email d ->
      execute_query (SelectEqLimit "phone" (JStr s) 1) (supabase w) = (Exc e, st') ->
      exists errors w',
        validate_lead_data validate_email (JObj d) true w = (Ok errors, w') /\
        In phone_lookup_error errors /\ answers_400 errors w') /\
  (forall ph w1 v e st',
      check_phone (JObj d) true [] w = (Ok ph, w1) ->
      Py.dict_get "email" d = Some v -> Py.truthy v = true ->
      validate_email v = Ok tt ->
      execute_query (SelectEqLimit "email" v 1) (supabase w1) = (Exc e, st') ->
      exists errors w',
        validate_lead_data validate_email (JObj d) true w = (Ok errors, w') /\
        In email_lookup_error errors /\ answers_400 errors w').
Proof.
  intros answers_400.
  assert (Hrej : forall errors w',
             validate_lead_data validate_email (JObj d) true w = (Ok errors, w') ->
             errors <> [] -> d <> [] -> answers_400 errors w').
  { intros errors w' Hv Hne Hd. subst answers_400. simpl.
    assert (Ht : Py.truthy (JObj d) = true) by (destruct d; [contradiction|reflexivity]).
    split.
    - now apply create_lead_rejects.
    - intros lead_id w0 rows Hsel Hrows Hflag.
      eapply update_lead_rejects; eauto. }
  split.
  - intros s e st' Hget Hvalid Hconf Hfail.
    pose proof (check_phone_lookup_fails d w s e st' Hget Hvalid Hfail) as Hph.
    destruct (check_email_on_confined validate_email d true
                (World st' (calls w ++ [SelectEqLimit "phone" (JStr s) 1])) Hconf)
      as [em [w2 [Hem _]]].
    assert (Hv : validate_lead_data validate_email (JObj d) true w
                 = (Ok (required_errors required_fields d
                          ++ [phone_lookup_error] ++ em), w2)).
    { rewrite validate_lead_data_blocks, check_required_dict, Hph, Hem. reflexivity. }
    eexists _, w2. split; [exact Hv|]. split.
    + rewrite !in_app_iff. right. left. simpl. auto.
    + apply Hrej; auto.
      * intros Habs. apply app_eq_nil in Habs. destruct Habs as [_ Habs].
        discriminate Habs.
      * intros ->. discriminate Hget.
  - intros ph w1 v e st' Hph Hget Ht Hvalid Hfail.
    pose proof (check_email_lookup_fails validate_email d w1 v e st'
                  Hget Ht Hvalid Hfail) as Hem.
    assert (Hv : validate_lead_data validate_email (JObj d) true w
                 = (Ok (required_errors required_fields d
                          ++ ph ++ [email_lookup_error]),
                    World st' (calls w1 ++ [SelectEqLimit "email" v 1]))).
    { rewrite validate_lead_data_blocks, check_required_dict, Hph, Hem. reflexivity. }
    eexists _, _. split; [exact Hv|]. split.
    + rewrite !in_app_iff. right. right. simpl. auto.
    + apply Hrej; auto.
      * intros Habs. apply app_eq_nil in Habs. destruct Habs as [_ Habs].
        apply app_eq_nil in Habs. destruct Habs as [_ Habs]. discriminate Habs.
      * intros ->. discriminate Hget.
Qed.

Lemma body_new_lead_confined :
  email_checker_confined sample_validate_email body_new_lead.
Proof.
  apply sample_checker_confined. intros v Hv. inversion Hv.
  now exists "ravi@mail.example".
Qed.

Lemma lookup_failure_is_reported_witness :
  (exists errors w',
      In phone_lookup_error errors /\
      create_lead sample_validate_email "2024-05-01T10:00:00+00:00"
        (JObj body_new_lead) (MemStore.fresh store_down_once)
      = (Ok (validation_failure errors), w')) /\
  (exists errors w',
      In email_lookup_error errors /\
      create_lead sample_validate_email "2024-05-01T10:00:00+00:00"
        (JObj body_new_lead) (MemStore.fresh store_down_at_second)
      = (Ok (validation_failure errors), w')).
Proof.
  split.
  - destruct (proj1 (lookup_failure_is_reported (client:=MemStore.store)
                       sample_validate_email "2024-05-01T10:00:00+00:00"
                       body_new_lead (MemStore.fresh store_down_once))
                    "+91 9123456780" (MemStore.api_error "connection reset")
                    (MemStore.Make (MemStore.rows sample_store) 2 [])
                    eq_refl eq_refl body_new_lead_confined eq_refl)
      as [errors [w' [_ [Hin [Hc _]]]]].
    exists errors, w'. split; assumption.
  - destruct (proj2 (lookup_failure_is_reported (client:=MemStore.store)
                       sample_validate_email "2024-05-01T10:00:00+00:00"
                       body_new_lead (MemStore.fresh store_down_at_second))
                    []
                    (World (MemStore.Make (MemStore.rows sample_store) 2
                              [Some "connection reset"])
                           [SelectEqLimit "phone" (JStr "+91 9123456780") 1])
                    (JStr "ravi@mail.example")
                    (MemStore.api_error "connection reset")
                    (MemStore.Make (MemStore.rows sample_store) 2 [])
                    eq_refl eq_refl eq_refl eq_refl eq_refl)
      as [errors [w' [_ [Hin [Hc _]]]]].
    exists errors, w'. split; assumption.
Defined.

(** C4 as stated fails: in [body_numeric_email] the phone has the accepted
    format, the flag is true and the phone lookup raises, but the email is
    the number 5, on which the checker raises an exception that is not
    [EmailNotValidError].  The failed lookup is caught and its message
    appended, then the email block raises: the validator returns no list,
    the exception leaves the create handler, and the update handler answers
    500, not 400. *)
Lemma lookup_failure_lost_on_numeric_email :
  Py.dict_get "phone" body_numeric_email = Some (JStr "+91 9123456780") /\
  validate_phone_number (JStr "+91 9123456780") = Ok true /\
  fst (execute_query (SelectEqLimit "phone" (JStr "+91 9123456780") 1)
         store_down_once)
  = Exc (MemStore.api_error "connection reset") /\
  check_phone (JObj body_numeric_email) true [] (MemStore.fresh store_down_once)
  = (Ok [phone_lookup_error],
     World (MemStore.Make (MemStore.rows sample_store) 2 [])
           [SelectEqLimit "phone" (JStr "+91 9123456780") 1]) /\
  fst (validate_lead_data sample_validate_email (JObj body_numeric_email) true
         (MemStore.fresh store_down_once))
  = Exc (Exn AttributeError "'int' object has no attribute 'decode'") /\
  fst (create_lead sample_validate_email "2024-05-01T10:00:00+00:00"
         (JObj body_numeric_email) (MemStore.fresh store_down_once))
  = Exc (Exn AttributeError "'int' object has no attribute 'decode'") /\
  compute_check_existing (JObj body_numeric_email) (MemStore.rows sample_store)
  = Ok true /\
  fst (update_lead sample_validate_email 1 (JObj body_numeric_email)
         (MemStore.fresh store_down_at_second))
  = Ok (message_response
          "Error updating lead: 'int' object has no attribute 'decode'" 500).
Proof. repeat split; vm_compute; reflexivity. Qed.

(* ================================================================== *)
(** ** The flag of the update handler (C5) *)

Section UpdateFlag.

Context {S : Type} {client : TableStore S}.
Variable validate_email : json -> outcome unit.

Lemma differs_on_lead_row field d r stored rest :
  Py.dict_get field r = Some stored ->
  differs field (JObj d) (JObj r :: rest) = Ok (changes field d stored).
Proof.
  intros Hr. unfold differs, changes, Py.contains, Py.dict_has. simpl.
  destruct (Py.dict_get field d) as [v|] eqn:Hd; simpl; auto.
  rewrite (getitem_dict _ _ _ Hd), (getitem_dict _ _ _ Hr). reflexivity.
Qed.

Lemma compute_check_existing_on_lead_row d row rest email phone :
  lead_row row email phone ->
  compute_check_existing (JObj d) (row :: rest)
  = Ok (changes "email" d email || changes "phone" d phone).
Proof.
  intros [r [-> [He Hp]]]. unfold compute_check_existing.
  erewrite differs_on_lead_row by exact He. simpl.
  destruct (changes "email" d email); simpl; auto.
  erewrite differs_on_lead_row by exact Hp. simpl.
  now destruct (changes "phone" d phone).
Qed.

(** Once the lead is found and the flag computed, the handler is the rest
    of its body run with that flag. *)
Lemma update_lead_with_flag lead_id data (w0 : world S) rows w flag :
  Py.truthy data = true ->
  execute (SelectEq "id" (JInt lead_id)) w0 = (Ok rows, w) ->
  rows <> [] ->
  compute_check_existing data rows = Ok flag ->
  update_lead validate_email lead_id data w0
  = update_lead_validated validate_email lead_id data flag w.
Proof.
  intros Ht Hsel Hrows Hflag. unfold update_lead, update_lead_validated.
  rewrite Ht. simpl. unfold try_except.
  erewrite bind_ok by exact Hsel.
  destruct rows; [contradiction|]. simpl.
  unfold bind at 1. unfold lift at 1. rewrite Hflag. reflexivity.
Qed.

(** With a false flag neither block executes a query. *)
Lemma check_phone_without_flag data errors (w : world S) :
  snd (check_phone data false errors w) = w.
Proof.
  unfold check_phone, bind, lift, ret.
  destruct (is_present "phone" data) as [[|]|e]; simpl; auto.
  destruct (Py.getitem data "phone") as [v|e]; simpl; auto.
  destruct (validate_phone_number v) as [[|]|e]; simpl; auto.
Qed.

Lemma check_email_without_flag data errors (w : world S) :
  snd (check_email validate_email data false errors w) = w.
Proof.
  unfold check_email, bind, lift, ret, try_except.
  destruct (is_present "email" data) as [[|]|e]; simpl; auto.
  destruct (Py.getitem data "email") as [v|e]; simpl; auto.
  - destruct (validate_email v) as [[]|e]; simpl; auto.
    destruct (is_EmailNotValidError e); auto.
  - destruct (is_EmailNotValidError e); auto.
Qed.

Lemma validate_lead_data_without_flag data (w : world S) :
  snd (validate_lead_data validate_email data false w) = w.
Proof.
  rewrite validate_lead_data_blocks.
  destruct (check_required required_fields data []) as [req|e]; auto.
  pose proof (check_phone_without_flag data [] w) as Hp.
  destruct (check_phone data false [] w) as [[ph|e] w1]; simpl in Hp; subst w1; auto.
  pose proof (check_email_without_flag data [] w) as He.
  destruct (check_email validate_email data false [] w) as [[em|e] w2];
    simpl in He; subst w2; auto.
Qed.

Lemma update_lead_validated_without_flag lead_id data (w : world S) :
  let q := UpdateEq data "id" (JInt lead_id) in
  calls (snd (update_lead_validated validate_email lead_id data false w)) = calls w \/
  calls (snd (update_lead_validated validate_email lead_id data false w)) = calls w ++ [q].
Proof.
  intros q. subst q.
  remember (update_lead_validated validate_email lead_id data false w) as r eqn:Hr.
  unfold update_lead_validated, try_except in Hr. unfold bind at 1 in Hr.
  pose proof (validate_lead_data_without_flag data w) as Hv.
  destruct (validate_lead_data validate_email data false w) as [[errors|e] w1];
    simpl in Hv; subst w1; [|subst r; simpl; auto].
  destruct (Py.nonempty errors); [subst r; simpl; auto|].
  unfold bind, lift, ret, execute in Hr.
  destruct (execute_query _ (supabase w)) as [[rows|e] s']; [|subst r; simpl; auto].
  destruct (Py.first rows); subst r; simpl; auto.
Qed.

End UpdateFlag.

(** C5. For an update of an existing lead (the lookup by id answers with a
    row that carries email and phone), the flag is true exactly when the
    body supplies an email that differs from the stored one or a phone that
    differs from the stored one, and the handler is the validator and what
    follows it, run with that flag.  When both are unchanged or absent the
    flag is false and the request executes no uniqueness lookup: after the
    lookup by id it executes nothing, or the update alone. *)
Theorem update_flag_is_change_of_email_or_phone
  {S : Type} {client : TableStore S} (validate_email : json -> outcome unit)
  (lead_id : Z) (d : list (string * json)) (w0 w : world S)
  (row : json) (rest : list json) (email phone : json) :
  d <> [] ->
  execute (SelectEq "id" (JInt lead_id)) w0 = (Ok (row :: rest), w) ->
  lead_row row email phone ->
  let flag := changes "email" d email || changes "phone" d phone in
  compute_check_existing (JObj d) (row :: rest) = Ok flag /\
  update_lead validate_email lead_id (JObj d) w0
  = update_lead_validated validate_email lead_id (JObj d) flag w /\
  (changes "email" d email = false -> changes "phone" d phone = false ->
   let after := calls (snd (update_lead validate_email lead_id (JObj d) w0)) in
   let by_id := SelectEq "id" (JInt lead_id) in
   (after = calls w0 ++ [by_id] \/
    after = calls w0 ++ [by_id; UpdateEq (JObj d) "id" (JInt lead_id)]) /\
   forall q, In q after -> In q (calls w0) \/ is_lookup q = false).
Proof.
  intros Hd Hsel Hrow flag.
  assert (Ht : Py.truthy (JObj d) = true) by (destruct d; [contradiction|reflexivity]).
  pose proof (compute_check_existing_on_lead_row d row rest email phone Hrow) as Hflag.
  assert (Hw : calls w = calls w0 ++ [SelectEq "id" (JInt lead_id)]).
  { rewrite execute_eq in Hsel. inversion Hsel. reflexivity. }
  assert (Hup : update_lead validate_email lead_id (JObj d) w0
                = update_lead_validated validate_email lead_id (JObj d) flag w).
  { eapply update_lead_with_flag; eauto. discriminate. }
  split; [exact Hflag|]. split; [exact Hup|].
  intros He Hp after by_id. subst after by_id. rewrite Hup.
  subst flag. rewrite He, Hp. simpl.
  assert (Hcases := update_lead_validated_without_flag validate_email lead_id (JObj d) w).
  simpl in Hcases. rewrite Hw in Hcases. rewrite <- app_assoc in Hcases. simpl in Hcases.
  split; [exact Hcases|].
  intros q Hq. destruct Hcases as [Hc|Hc]; rewrite Hc in Hq;
    apply in_app_or in Hq; destruct Hq as [Hq|Hq]; auto; right;
    simpl in Hq; intuition (subst; reflexivity).
Qed.

Lemma sample_lead_row :
  lead_row (hd JNull (MemStore.rows sample_store))
           (JStr "asha@old.example") (JStr "9876543210").
Proof. eexists. split; [reflexivity|]. split; reflexivity. Qed.

Lemma update_flag_is_change_of_email_or_phone_witness :
  compute_check_existing (JObj body_same_contact) (MemStore.rows sample_store)
  = Ok false /\
  calls (snd (update_lead sample_validate_email 1 (JObj body_same_contact)
                (MemStore.fresh sample_store)))
  = [SelectEq "id" (JInt 1); UpdateEq (JObj body_same_contact) "id" (JInt 1)].
Proof.
  assert (Hd : body_same_contact <> []) by discriminate.
  destruct (update_flag_is_change_of_email_or_phone (client:=MemStore.store)
              sample_validate_email 1 body_same_contact
              (MemStore.fresh sample_store)
              (World sample_store [SelectEq "id" (JInt 1)])
              (hd JNull (MemStore.rows sample_store)) []
              (JStr "asha@old.example") (JStr "9876543210")
              Hd eq_refl sample_lead_row)
    as [Hflag [_ Hquiet]].
  split; [exact Hflag|].
  destruct (Hquiet eq_refl eq_refl) as [[Hc|Hc] _].
  - vm_compute in Hc. discriminate Hc.
  - exact Hc.
Defined.

(* ================================================================== *)
(** ** Updates need the four required fields (C9) *)

(** C9, amended. An update of an existing lead (the stored row carries
    email and phone) whose body is a non-empty map that leaves a required
    field out, or gives it a falsy value, and whose supplied phone is a
    [str] (the email checker being confined on it), is answered 400 with
    "<field> is required" for each such field, and executes nothing but
    selects: the validator that runs on the body is the one of the create
    handler. *)
Theorem update_requires_all_fields
  {S : Type} {client : TableStore S} (validate_email : json -> outcome unit)
  (lead_id : Z) (d : list (string * json)) (w0 w : world S)
  (row : json) (rest : list json) (email phone : json) :
  d <> [] ->
  execute (SelectEq "id" (JInt lead_id)) w0 = (Ok (row :: rest), w) ->
  lead_row row email phone ->
  phone_is_text d ->
  email_checker_confined validate_email d ->
  (exists field, In field required_fields /\ supplied field d = false) ->
  exists errors w',
    update_lead validate_email lead_id (JObj d) w0
    = (Ok (validation_failure errors), w') /\
    (forall field, In field required_fields -> supplied field d = false ->
                   In (required_message field) errors) /\
    (exists qs, calls w' = calls w0 ++ qs /\ forallb is_select qs = true).
Proof.
  intros Hd Hsel Hrow Htext Hconf [f0 [Hf0 Hs0]].
  assert (Ht : Py.truthy (JObj d) = true) by (destruct d; [contradiction|reflexivity]).
  pose proof (compute_check_existing_on_lead_row d row rest email phone Hrow) as Hflag.
  set (flag := changes "email" d email || changes "phone" d phone) in *.
  destruct (validate_lead_data_on_map validate_email d flag w Htext Hconf)
    as [ph [w1 [em [w2 [_ [_ [Hv _]]]]]]].
  exists (required_errors required_fields d ++ ph ++ em), w2.
  assert (Hreq : forall field, In field required_fields -> supplied field d = false ->
                   In (required_message field)
                      (required_errors required_fields d ++ ph ++ em)).
  { intros field Hf Hs. apply in_or_app. left. now apply in_required_errors. }
  split; [|split; [exact Hreq|]].
  - eapply update_lead_rejects; eauto; try discriminate.
    intros Habs. specialize (Hreq f0 Hf0 Hs0). rewrite Habs in Hreq. exact Hreq.
  - pose proof (reads_only_execute (SelectEq "id" (JInt lead_id)) eq_refl w0) as R1.
    rewrite Hsel in R1. simpl in R1.
    pose proof (validate_lead_data_reads validate_email (JObj d) flag w) as R2.
    rewrite Hv in R2. simpl in R2.
    destruct (read_step_trans _ _ _ R1 R2) as [Hqs _]. exact Hqs.
Qed.

Lemma update_requires_all_fields_witness :
  exists errors w',
    update_lead sample_validate_email 1 (JObj body_status_only)
      (MemStore.fresh sample_store)
    = (Ok (validation_failure errors), w') /\
    In "name is required" errors /\ In "phone is required" errors /\
    In "email is required" errors /\ In "party is required" errors.
Proof.
  assert (Hd : body_status_only <> []) by discriminate.
  assert (Ht : phone_is_text body_status_only).
  { intros v Hv. discriminate Hv. }
  assert (Hc : email_checker_confined sample_validate_email body_status_only).
  { intros v Hv. discriminate Hv. }
  assert (Hm : exists field, In field required_fields /\
                             supplied field body_status_only = false).
  { exists "name". split; [simpl; auto | reflexivity]. }
  destruct (update_requires_all_fields (client:=MemStore.store)
              sample_validate_email 1 body_status_only
              (MemStore.fresh sample_store)
              (World sample_store [SelectEq "id" (JInt 1)])
              (hd JNull (MemStore.rows sample_store)) []
              (JStr "asha@old.example") (JStr "9876543210")
              Hd eq_refl sample_lead_row Ht Hc Hm)
    as [errors [w' [Hrun [Hreq _]]]].
  exists errors, w'. split; [exact Hrun|].
  repeat split.
  - apply (Hreq "name"); [simpl; auto | reflexivity].
  - apply (Hreq "phone"); [simpl; auto | reflexivity].
  - apply (Hreq "email"); [simpl; auto | reflexivity].
  - apply (Hreq "party"); [simpl; auto 6 | reflexivity].
Defined.

(** C9 as stated fails: the update of lead 1 with [body_only_numeric_phone]
    omits three required fields and is answered 500, not 400, and no
    "<field> is required" is reported: the validator raises [TypeError] on
    the phone and the handler's [except] turns it into the 500. *)
Lemma update_numeric_phone_is_500_not_400 :
  update_lead sample_validate_email 1 (JObj body_only_numeric_phone)
    (MemStore.fresh sample_store)
  = (Ok (Response
           (jsonify [("message",
                      JStr ("Error updating lead: "
                            ++ "expected string or bytes-like object, got 'int'"))])
           500),
     World sample_store [SelectEq "id" (JInt 1)]) /\
  supplied "name" body_only_numeric_phone = false /\
  ~ (exists errors w',
        update_lead sample_validate_email 1 (JObj body_only_numeric_phone)
          (MemStore.fresh sample_store)
        = (Ok (validation_failure errors), w')).
Proof.
  split; [reflexivity|]. split; [reflexivity|].
  intros [errors [w' H]]. vm_compute in H. discriminate H.
Qed.

(* ================================================================== *)
(** ** A request answered 400 leaves the store alone (C10) *)

Section Rejected.

Context {S : Type} {client : TableStore S}.
Variable validate_email : json -> outcome unit.
Variable utcnow_isoformat : string.

Lemma create_lead_rejected_reads data (w : world S) r w' :
  create_lead validate_email utcnow_isoformat data w = (Ok r, w') ->
  status r = 400 -> read_step w w'.
Proof.
  unfold create_lead. destruct (Py.truthy data); simpl.
  - unfold bind at 1.
    pose proof (validate_lead_data_reads validate_email data true w) as R.
    destruct (validate_lead_data validate_email data true w) as [[errors|e] w1];
      simpl in R; [|discriminate].
    destruct (Py.nonempty errors).
    + intros H _. inversion H; subst. exact R.
    + unfold bind, lift, ret, try_except, execute.
      destruct (Py.contains "lastconnected" data) as [c|e]; [|discriminate].
      destruct (if negb c then _ else _) as [[data1|e] w2]; [|discriminate].
      destruct (Py.setdefault data1 "status" _) as [data2|e]; [|discriminate].
      destruct (Py.setdefault data2 "tag" _) as [data3|e]; [|discriminate].
      destruct (execute_query _ (supabase w2)) as [[rows|e] s'].
      * destruct (Py.first rows); simpl; intros H Hs; inversion H; subst;
          discriminate Hs.
      * simpl. intros H Hs; inversion H; subst; discriminate Hs.
  - unfold ret. intros H _. inversion H; subst. apply read_step_refl.
Qed.

Lemma update_lead_rejected_reads lead_id data (w : world S) r w' :
  update_lead validate_email lead_id data w = (Ok r, w') ->
  status r = 400 -> read_step w w'.
Proof.
  unfold update_lead. destruct (Py.truthy data); simpl.
  - unfold try_except. unfold bind at 1.
    pose proof (reads_only_execute (SelectEq "id" (JInt lead_id)) eq_refl w) as R1.
    destruct (execute (SelectEq "id" (JInt lead_id)) w) as [[rows|e] w1];
      simpl in R1.
    + destruct (Py.nonempty rows); simpl.
      * unfold bind at 1. unfold lift at 1.
        destruct (compute_check_existing data rows) as [flag|e]; simpl.
        -- unfold bind at 1.
           pose proof (validate_lead_data_reads validate_email data flag w1) as R2.
           destruct (validate_lead_data validate_email data flag w1)
             as [[errors|e] w2]; simpl in R2.
           ++ destruct (Py.nonempty errors).
              ** unfold ret. intros H _. inversion H; subst.
                 eapply read_step_trans; eauto.
              ** unfold bind, lift, ret, execute.
                 destruct (execute_query _ (supabase w2)) as [[rows'|e] s'].
                 --- destruct (Py.first rows'); simpl; intros H Hs;
                       inversion H; subst; discriminate Hs.
                 --- simpl. intros H Hs; inversion H; subst; discriminate Hs.
           ++ unfold ret. intros H Hs; inversion H; subst; discriminate Hs.
        -- unfold ret. intros H Hs; inversion H; subst; discriminate Hs.
      * unfold ret. intros H Hs; inversion H; subst; discriminate Hs.
    + simpl. unfold ret. intros H Hs; inversion H; subst; discriminate Hs.
  - unfold ret. intros H _. inversion H; subst. apply read_step_refl.
Qed.

End Rejected.

(** C10. Whenever the create or the update handler answers 400, on any
    body, every query it executed is a select (the lookup by id of the
    update handler and the lookups of the validator), and whatever part of
    the store selects leave unchanged is unchanged: no insert and no update
    is executed before validation has returned an empty list. *)
Theorem rejected_write_leaves_store
  {S : Type} {client : TableStore S} (validate_email : json -> outcome unit)
  (utcnow_isoformat : string) (lead_id : Z) (data : json)
  (w w' : world S) (r : response) :
  create_lead validate_email utcnow_isoformat data w = (Ok r, w') \/
  update_lead validate_email lead_id data w = (Ok r, w') ->
  status r = 400 ->
  (exists qs, calls w' = calls w ++ qs /\ forallb is_select qs = true) /\
  (forall X (obs : S -> X),
      (forall q s, is_select q = true -> obs (snd (execute_query q s)) = obs s) ->
      obs (supabase w') = obs (supabase w)).
Proof.
  intros [H|H] Hs.
  - exact (create_lead_rejected_reads validate_email utcnow_isoformat data w r w' H Hs).
  - exact (update_lead_rejected_reads validate_email lead_id data w r w' H Hs).
Qed.

Lemma memstore_select_keeps_rows :
  forall q s, is_select q = true ->
              MemStore.rows (snd (execute_query q s)) = MemStore.rows s.
Proof.
  intros q [rows next outages] Hq. simpl. unfold MemStore.run_query. simpl.
  destruct q; try discriminate Hq; destruct outages as [|[msg|] rest]; reflexivity.
Qed.

Lemma rejected_write_leaves_store_witness :
  exists r w',
    create_lead sample_validate_email "2024-05-01T10:00:00+00:00"
      (JObj body_taken_phone) (MemStore.fresh sample_store) = (Ok r, w') /\
    status r = 400 /\
    MemStore.rows (supabase w') = MemStore.rows sample_store.
Proof.
  eexists _, _. split; [reflexivity|]. split; [reflexivity|].
  refine (proj2 (rejected_write_leaves_store (client:=MemStore.store)
                   sample_validate_email "2024-05-01T10:00:00+00:00" 0
                   (JObj body_taken_phone) (MemStore.fresh sample_store) _ _
                   (or_introl eq_refl) eq_refl)
                _ MemStore.rows memstore_select_keeps_rows).
Defined.

(* ================================================================== *)
(** ** Defaults of the create handler (C6) *)

Section Defaults.

Context {S : Type} {client : TableStore S}.
Variable validate_email : json -> outcome unit.
Variable utcnow_isoformat : string.

Lemma with_defaults_keeps d k v :
  Py.dict_get k d = Some v -> Py.dict_get k (with_defaults utcnow_isoformat d) = Some v.
Proof.
  intros H. unfold with_defaults. cbv zeta.
  apply dict_setdefault_keeps, dict_setdefault_keeps.
  unfold Py.dict_has. destruct (Py.dict_get "lastconnected" d) eqn:E; auto.
  now apply dict_get_set_absent.
Qed.

Lemma with_defaults_lastconnected d :
  Py.dict_get "lastconnected" d = None ->
  Py.dict_get "lastconnected" (with_defaults utcnow_isoformat d) = Some (JStr utcnow_isoformat).
Proof.
  intros H. unfold with_defaults. cbv zeta.
  apply dict_setdefault_keeps, dict_setdefault_keeps.
  unfold Py.dict_has. rewrite H. apply dict_get_set_same.
Qed.

Lemma with_defaults_status d :
  Py.dict_get "status" d = None ->
  Py.dict_get "status" (with_defaults utcnow_isoformat d) = Some (JStr "Connected").
Proof.
  intros H. unfold with_defaults. cbv zeta.
  apply dict_setdefault_keeps, dict_setdefault_fills.
  destruct (Py.dict_has "lastconnected" d); auto.
  rewrite dict_get_set_other; auto. discriminate.
Qed.

Lemma with_defaults_tag d :
  Py.dict_get "tag" d = None ->
  Py.dict_get "tag" (with_defaults utcnow_isoformat d) = Some (JStr "Lead").
Proof.
  intros H. unfold with_defaults. cbv zeta.
  apply dict_setdefault_fills.
  unfold dict_setdefault at 1.
  assert (H1 : Py.dict_get "tag"
                 (if Py.dict_has "lastconnected" d then d
                  else Py.dict_set "lastconnected" (JStr utcnow_isoformat) d) = None).
  { destruct (Py.dict_has "lastconnected" d); auto.
    rewrite dict_get_set_other; auto. discriminate. }
  destruct (Py.dict_has "status" _); auto.
  rewrite dict_get_set_other; auto. discriminate.
Qed.

(** After a validation without errors the handler inserts [with_defaults]
    of the body and wraps what the store answers. *)
Lemma create_lead_inserts d (w w1 : world S) :
  d <> [] ->
  validate_lead_data validate_email (JObj d) true w = (Ok [], w1) ->
  create_lead validate_email utcnow_isoformat (JObj d) w
  = try_except
      (response <- execute (Insert (JObj (with_defaults utcnow_isoformat d))) ;;
       row <- lift (Py.first response) ;;
       ret (Response (jsonify [("lead", row)]) 201))
      is_Exception
      (fun e => ret (Response
         (jsonify [("message", JStr ("Error creating lead: " ++ exn_str e))]) 500))
      w1.
Proof.
  intros Hd Hv. unfold create_lead.
  assert (Ht : Py.truthy (JObj d) = true) by (destruct d; [contradiction|reflexivity]).
  rewrite Ht. cbn [negb].
  erewrite bind_ok by exact Hv. cbn [Py.nonempty].
  unfold with_defaults, dict_setdefault. cbv zeta.
  unfold Py.contains. unfold bind at 1. unfold lift at 1.
  destruct (Py.dict_has "lastconnected" d); reflexivity.
Qed.

End Defaults.

(** C6. A create request that passes validation: the handler inserts the
    body with [lastconnected] set to the clock's ISO string if the key is
    absent, [status] set to "Connected" and [tag] to "Lead" if absent, and
    every key of the body kept with its value; that insert is the one query
    executed after validation, and when the store answers it with a row,
    the response is 201 with that row under the key "lead". *)
Theorem create_lead_fills_defaults
  {S : Type} {client : TableStore S} (validate_email : json -> outcome unit)
  (utcnow_isoformat : string) (d : list (string * json)) (w w1 : world S) :
  validate_lead_data validate_email (JObj d) true w = (Ok [], w1) ->
  let row := with_defaults utcnow_isoformat d in
  (forall k v, Py.dict_get k d = Some v -> Py.dict_get k row = Some v) /\
  (Py.dict_get "lastconnected" d = None ->
   Py.dict_get "lastconnected" row = Some (JStr utcnow_isoformat)) /\
  (Py.dict_get "status" d = None ->
   Py.dict_get "status" row = Some (JStr "Connected")) /\
  (Py.dict_get "tag" d = None -> Py.dict_get "tag" row = Some (JStr "Lead")) /\
  calls (snd (create_lead validate_email utcnow_isoformat (JObj d) w))
  = calls w1 ++ [Insert (JObj row)] /\
  (forall persisted more st',
      execute_query (Insert (JObj row)) (supabase w1) = (Ok (persisted :: more), st') ->
      create_lead validate_email utcnow_isoformat (JObj d) w
      = (Ok (Response (jsonify [("lead", persisted)]) 201),
         World st' (calls w1 ++ [Insert (JObj row)]))).
Proof.
  intros Hv row.
  assert (Hd : d <> []).
  { intros ->. rewrite validate_lead_data_blocks in Hv. simpl in Hv.
    inversion Hv. }
  pose proof (create_lead_inserts validate_email utcnow_isoformat d w w1 Hd Hv) as Hc.
  split; [intros k v; apply with_defaults_keeps|].
  split; [apply with_defaults_lastconnected|].
  split; [apply with_defaults_status|].
  split; [apply with_defaults_tag|].
  rewrite Hc. unfold try_except, bind, lift, ret, execute. fold row.
  destruct (execute_query (Insert (JObj row)) (supabase w1)) as [[rows|e] s'].
  - split.
    + destruct rows; reflexivity.
    + intros persisted more st' H. inversion H; subst. reflexivity.
  - split; [reflexivity|]. intros persisted more st' H. discriminate H.
Qed.

Lemma create_lead_fills_defaults_witness :
  let now := "2024-05-01T10:00:00+00:00" in
  let row := with_defaults now body_new_lead in
  Py.dict_get "name" row = Some (JStr "Ravi") /\
  Py.dict_get "lastconnected" row = Some (JStr now) /\
  Py.dict_get "status" row = Some (JStr "Connected") /\
  Py.dict_get "tag" row = Some (JStr "Lead") /\
  create_lead sample_validate_email now (JObj body_new_lead)
    (MemStore.fresh sample_store)
  = (Ok (Response (jsonify [("lead", JObj (("id", JInt 2) :: row))]) 201),
     World (MemStore.Make
              (MemStore.rows sample_store ++ [JObj (("id", JInt 2) :: row)]) 3 [])
           [SelectEqLimit "phone" (JStr "+91 9123456780") 1;
            SelectEqLimit "email" (JStr "ravi@mail.example") 1;
            Insert (JObj row)]).
Proof.
  intros now row.
  destruct (create_lead_fills_defaults (client:=MemStore.store)
              sample_validate_email now body_new_lead
              (MemStore.fresh sample_store)
              (World sample_store
                 [SelectEqLimit "phone" (JStr "+91 9123456780") 1;
                  SelectEqLimit "email" (JStr "ravi@mail.example") 1])
              eq_refl)
    as [Hkeep [Htime [Hstatus [Htag [_ Hins]]]]].
  split; [apply Hkeep; reflexivity|].
  split; [apply Htime; reflexivity|].
  split; [apply Hstatus; reflexivity|].
  split; [apply Htag; reflexivity|].
  exact (Hins (JObj (("id", JInt 2) :: row)) []
              (MemStore.Make
                 (MemStore.rows sample_store ++ [JObj (("id", JInt 2) :: row)]) 3 [])
              eq_refl).
Defined.

(* ================================================================== *)
(** ** Exceptions at the handler boundary (C7) *)

Section Boundary.

Context {S : Type} {client : TableStore S}.
Variable validate_email : json -> outcome unit.

(** A [try] whose [except Exception] handler returns always returns. *)
Lemma try_except_returns {A} (body : M S A) (handler : exn -> M S A) :
  (forall e w, exists a w', handler e w = (Ok a, w')) ->
  forall w, exists a w', try_except body is_Exception handler w = (Ok a, w').
Proof.
  intros Hh w. unfold try_except.
  destruct (body w) as [[a|e] w1]; simpl; eauto.
Qed.

(** The four handlers whose whole work is inside the [try] answer with a
    response on every request and every store. *)
Lemma guarded_handlers_respond (lead_id : Z) (data : json) (w : world S) :
  (exists r w', get_all_leads w = (Ok r, w')) /\
  (exists r w', get_lead lead_id w = (Ok r, w')) /\
  (exists r w', update_lead validate_email lead_id data w = (Ok r, w')) /\
  (exists r w', delete_lead lead_id w = (Ok r, w')).
Proof.
  repeat split.
  - apply try_except_returns. intros e w1. unfold ret. eauto.
  - apply try_except_returns. intros e w1. unfold ret. eauto.
  - unfold update_lead. destruct (negb (Py.truthy data)).
    + unfold ret. eauto.
    + apply try_except_returns. intros e w1. unfold ret. eauto.
  - apply try_except_returns. intros e w1. unfold ret. eauto.
Qed.

End Boundary.

(** C7 fails in the create handler.  On a body whose phone is a JSON number
    the validator raises [TypeError]; [create_lead] calls the validator
    outside its [try], so the exception leaves the handler: there is no
    response, and no 500 with the error text.  [update_lead], which calls
    the validator inside its [try], answers the same body with such a 500. *)
Theorem create_lead_lets_type_error_escape :
  create_lead sample_validate_email "2024-05-01T10:00:00+00:00"
    (JObj body_numeric_phone) (MemStore.fresh sample_store)
  = (Exc (Exn TypeError "expected string or bytes-like object, got 'int'"),
     MemStore.fresh sample_store) /\
  update_lead sample_validate_email 1 (JObj body_numeric_phone)
    (MemStore.fresh sample_store)
  = (Ok (Response
           (jsonify [("message",
                      JStr ("Error updating lead: "
                            ++ "expected string or bytes-like object, got 'int'"))])
           500),
     World sample_store [SelectEq "id" (JInt 1)]).
Proof. split; reflexivity. Qed.

(* ================================================================== *)
(** ** An unchanged phone next to a changed email (C1) *)

Section SelfCollision.

Context {S : Type} {client : TableStore S}.
Variable validate_email : json -> outcome unit.

Lemma check_phone_lookup_hits d (w : world S) s hit more st' :
  Py.dict_get "phone" d = Some (JStr s) ->
  validate_phone_number (JStr s) = Ok true ->
  execute_query (SelectEqLimit "phone" (JStr s) 1) (supabase w)
  = (Ok (hit :: more), st') ->
  check_phone (JObj d) true [] w
  = (Ok [phone_exists_error],
     World st' (calls w ++ [SelectEqLimit "phone" (JStr s) 1])).
Proof.
  intros Hget Hvalid Hhit.
  unfold check_phone, bind, lift, ret, try_except.
  rewrite is_present_dict. unfold supplied. rewrite Hget.
  rewrite (matched_phone_is_truthy _ Hvalid).
  rewrite (getitem_dict _ _ _ Hget), Hvalid. simpl.
  rewrite execute_eq, Hhit. reflexivity.
Qed.

(** On any store: when the body changes the email, the flag is true for the
    phone too, so a phone of the accepted format is looked up whether it
    changed or not; the lead's own row answers the lookup, and the update is
    answered 400 with "Phone number already exists". *)
Lemma update_looks_up_phone_when_email_changes
  lead_id d (w0 w : world S) row rest email phone s hit more st' :
  execute (SelectEq "id" (JInt lead_id)) w0 = (Ok (row :: rest), w) ->
  lead_row row email phone ->
  changes "email" d email = true ->
  Py.dict_get "phone" d = Some (JStr s) ->
  validate_phone_number (JStr s) = Ok true ->
  email_checker_confined validate_email d ->
  execute_query (SelectEqLimit "phone" (JStr s) 1) (supabase w)
  = (Ok (hit :: more), st') ->
  exists errors w',
    update_lead validate_email lead_id (JObj d) w0
    = (Ok (validation_failure errors), w') /\
    In phone_exists_error errors.
Proof.
  intros Hsel Hrow Hchg Hget Hvalid Hconf Hhit.
  pose proof (compute_check_existing_on_lead_row d row rest email phone Hrow) as Hflag.
  rewrite Hchg in Hflag. simpl in Hflag.
  pose proof (check_phone_lookup_hits d w s hit more st' Hget Hvalid Hhit) as Hph.
  destruct (check_email_on_confined validate_email d true
              (World st' (calls w ++ [SelectEqLimit "phone" (JStr s) 1])) Hconf)
    as [em [w2 [Hem _]]].
  assert (Hv : validate_lead_data validate_email (JObj d) true w
               = (Ok (required_errors required_fields d
                        ++ [phone_exists_error] ++ em), w2)).
  { rewrite validate_lead_data_blocks, check_required_dict, Hph, Hem. reflexivity. }
  eexists _, w2. split.
  - eapply update_lead_rejects; eauto; try discriminate.
    + destruct d; [discriminate Hget | reflexivity].
    + intros Habs. apply app_eq_nil in Habs. destruct Habs as [_ Habs].
      discriminate Habs.
  - rewrite !in_app_iff. right. left. simpl. auto.
Qed.

End SelfCollision.

(** C1 fails on the code.  Lead 1 is the only row of the table.  An update
    of lead 1 that changes its email and repeats its own phone looks the
    phone up, finds lead 1 itself, and is answered 400 with "Phone number
    already exists"; the same happens to the unchanged email when only the
    phone changes. *)
Theorem update_rechecks_unchanged_field :
  update_lead sample_validate_email 1 (JObj body_new_email)
    (MemStore.fresh sample_store)
  = (Ok (validation_failure ["Phone number already exists"]),
     World sample_store
       [SelectEq "id" (JInt 1);
        SelectEqLimit "phone" (JStr "9876543210") 1;
        SelectEqLimit "email" (JStr "asha@new.example") 1]) /\
  update_lead sample_validate_email 1 (JObj body_new_phone)
    (MemStore.fresh sample_store)
  = (Ok (validation_failure ["Email already exists"]),
     World sample_store
       [SelectEq "id" (JInt 1);
        SelectEqLimit "phone" (JStr "9123456780") 1;
        SelectEqLimit "email" (JStr "asha@old.example") 1]).
Proof. split; reflexivity. Qed.

(* ================================================================== *)
(** ** The phone pattern (C2) *)

(** The matcher finds a match exactly when there is one. *)
Lemma run_denotes r : forall b s k,
  Re.run r b s k = true <-> exists b' s', denotes r b s b' s' /\ k b' s' = true.
Proof.
  induction r as [| |items|r1 IH1 r2 IH2|r1 IH1 r2 IH2|r1 IH1|n r1 IH1];
    intros b s k; simpl.
  - rewrite andb_true_iff. split.
    + intros [-> Hk]. exists true, s. auto.
    + intros [b' [s' [[-> [-> ->]] Hk]]]. auto.
  - split.
    + destruct s as [|c [|c' s'']]; try discriminate.
      * intros Hk. exists b, "". auto.
      * rewrite andb_true_iff. intros [Hc Hk]. apply Ascii.eqb_eq in Hc. subst c.
        exists b, (String "010" ""). auto.
    + intros [b' [s' [[[->| ->] [-> ->]] Hk]]]; auto.
  - split.
    + destruct s as [|c s0]; try discriminate.
      rewrite andb_true_iff. intros [Hc Hk]. exists false, s0. split; auto.
      exists c. auto.
    + intros [b' [s' [[c [-> [Hc ->]]] Hk]]]. now rewrite Hc, Hk.
  - rewrite IH1. split.
    + intros [bm [sm [H1 H2]]]. apply IH2 in H2. destruct H2 as [b' [s' [H2 Hk]]].
      exists b', s'. split; auto. exists bm, sm. auto.
    + intros [b' [s' [[bm [sm [H1 H2]]] Hk]]]. exists bm, sm. split; auto.
      apply IH2. exists b', s'. auto.
  - rewrite orb_true_iff, IH1, IH2. split.
    + intros [[b' [s' [H Hk]]]|[b' [s' [H Hk]]]]; exists b', s'; auto.
    + intros [b' [s' [[H|H] Hk]]]; [left|right]; exists b', s'; auto.
  - rewrite orb_true_iff, IH1. split.
    + intros [[b' [s' [H Hk]]]|Hk]; [exists b', s'; auto | exists b, s; auto].
    + intros [b' [s' [[H|[-> ->]] Hk]]]; [left; exists b', s'; auto | right; auto].
  - revert b s k. induction n as [|n IHn]; intros b s k.
    + split.
      * intros Hk. exists b, s. auto.
      * intros [b' [s' [[-> ->] Hk]]]. auto.
    + rewrite IH1. split.
      * intros [bm [sm [H1 H2]]]. apply IHn in H2.
        destruct H2 as [b' [s' [H2 Hk]]]. exists b', s'. split; auto.
        exists bm, sm. auto.
      * intros [b' [s' [[bm [sm [H1 H2]]] Hk]]]. exists bm, sm. split; auto.
        apply IHn. exists b', s'. auto.
Qed.

Lemma range_six_to_nine c :
  Re.item_matches (Re.Range "6" "9") c = six_to_nine c.
Proof.
  destruct c as [[|] [|] [|] [|] [|] [|] [|] [|]]; reflexivity.
Qed.

Lemma range_char c :
  existsb (fun i => Re.item_matches i c) [Re.Range "6" "9"] = true <->
  six_to_nine c = true.
Proof.
  cbn [existsb]. now rewrite orb_false_r, range_six_to_nine.
Qed.

Lemma digit_char c :
  existsb (fun i => Re.item_matches i c) [Re.Digit] = true <->
  Re.is_decimal c = true.
Proof. cbn [existsb Re.item_matches]. now rewrite orb_false_r. Qed.

Lemma space_or_hyphen c :
  existsb (fun i => Re.item_matches i c) [Re.Space; Re.Lit "-"] = true <->
  Re.is_space c = true \/ c = "-"%char.
Proof.
  cbn [existsb Re.item_matches].
  rewrite orb_false_r, orb_true_iff, Ascii.eqb_eq. reflexivity.
Qed.

Lemma literal_char x c :
  existsb (fun i => Re.item_matches i c) [Re.Lit x] = true <-> c = x.
Proof.
  cbn [existsb Re.item_matches]. rewrite orb_false_r. apply Ascii.eqb_eq.
Qed.

Ltac open_match :=
  repeat match goal with
         | H : exists _, _ |- _ => destruct H
         | H : _ /\ _ |- _ => destruct H
         | H : existsb _ [Re.Digit] = true |- _ => apply digit_char in H
         | H : existsb _ [Re.Range _ _] = true |- _ => apply range_char in H
         | H : existsb _ [Re.Lit _] = true |- _ => apply literal_char in H
         | H : existsb _ [Re.Space; Re.Lit _] = true |- _ => apply space_or_hyphen in H
         end; subst.

Lemma number_and_end_denotes b s b' s' :
  denotes number_and_end b s b' s' <->
  exists t tail, s = (t ++ tail)%string /\ national_number t /\
                 (tail = "" \/ tail = String "010" "") /\ s' = tail /\ b' = false.
Proof.
  unfold number_and_end. cbn [denotes]. split.
  - intros H. open_match.
    eexists (String _ (String _ (String _ (String _ (String _ (String _
               (String _ (String _ (String _ (String _ "")))))))))), _.
    split; [reflexivity|]. split; [|auto].
    eexists _, _. split; [reflexivity|]. split; [assumption|]. split; [reflexivity|].
    cbn [all_chars].
    repeat match goal with
           | H : Re.is_decimal _ = true |- _ => rewrite H; clear H
           end.
    reflexivity.
  - intros [t [tail [-> [[c [rest [-> [Hc [Hlen Hdig]]]]] [Hend [-> ->]]]]]].
    destruct rest as [|c1 [|c2 [|c3 [|c4 [|c5 [|c6 [|c7 [|c8 [|c9 [|c10 rest]]]]]]]]]];
      try discriminate Hlen.
    cbn [all_chars] in Hdig. repeat rewrite andb_true_iff in Hdig.
    destruct Hdig as [H1 [H2 [H3 [H4 [H5 [H6 [H7 [H8 [H9 _]]]]]]]]].
    cbn [append].
    exists false. eexists. split.
    { exists c. split; [reflexivity|]. split; auto. now apply range_char. }
    exists false, tail. split; [|auto].
    repeat (exists false; eexists; split;
            [eexists; split; [reflexivity|]; split; auto;
             apply digit_char; assumption|]).
    auto.
Qed.

Lemma optional_prefix_denotes b s b' s' :
  denotes optional_prefix b s b' s' ->
  exists p, s = (p ++ s')%string /\ country_prefix p.
Proof.
  unfold optional_prefix, Re.lit. cbn [denotes].
  intros [[H|H]|[-> ->]].
  - destruct H as [b1 [s1 [H1 [b2 [s2 [H2 [b3 [s3 [H3 [H|H]]]]]]]]]]; open_match.
    + eexists (String "+" (String "9" (String "1" (String _ "")))).
      split; [reflexivity|].
      right. right. right. eexists. split; [eassumption|reflexivity].
    + exists "+91". split; [reflexivity|]. right. right. left. reflexivity.
  - open_match. exists "0". split; [reflexivity|]. right. left. reflexivity.
  - exists "". split; [reflexivity|]. left. reflexivity.
Qed.

Lemma optional_prefix_matches p t :
  country_prefix p -> national_number t ->
  forall tail,
    exists b', denotes optional_prefix true (p ++ t ++ tail) b' (t ++ tail).
Proof.
  intros Hp _ tail. unfold optional_prefix, Re.lit.
  destruct Hp as [->|[->|[->|[x [Hx ->]]]]]; cbn [denotes append].
  - exists true. right. auto.
  - exists false. left. right. exists "0"%char.
    split; [reflexivity|]. split; [now apply literal_char|reflexivity].
  - exists false. left. left.
    exists false. eexists.
    split; [exists "+"%char; split; [reflexivity|]; split;
            [now apply literal_char|reflexivity]|].
    exists false. eexists.
    split; [exists "9"%char; split; [reflexivity|]; split;
            [now apply literal_char|reflexivity]|].
    exists false. eexists.
    split; [exists "1"%char; split; [reflexivity|]; split;
            [now apply literal_char|reflexivity]|].
    right. auto.
  - exists false. left. left.
    exists false. eexists.
    split; [exists "+"%char; split; [reflexivity|]; split;
            [now apply literal_char|reflexivity]|].
    exists false. eexists.
    split; [exists "9"%char; split; [reflexivity|]; split;
            [now apply literal_char|reflexivity]|].
    exists false. eexists.
    split; [exists "1"%char; split; [reflexivity|]; split;
            [now apply literal_char|reflexivity]|].
    left. exists x. split; [reflexivity|]. split; [|reflexivity].
    now apply space_or_hyphen.
Qed.

Lemma pattern_split :
  pattern = Re.Seq Re.Caret (Re.Seq optional_prefix number_and_end).
Proof. reflexivity. Qed.

Lemma append_assoc (a b c : string) : ((a ++ b) ++ c = a ++ (b ++ c))%string.
Proof. induction a; simpl; congruence. Qed.

(** What [validate_phone_number] accepts: the strings of the specified
    format, and those strings followed by one newline. *)
Lemma validate_phone_number_accepts s :
  validate_phone_number (JStr s) = Ok true <->
  accepted_phone s \/
  exists s0, s = (s0 ++ String "010" "")%string /\ accepted_phone s0.
Proof.
  unfold validate_phone_number.
  assert (Hiff : Re.matches pattern s = true <->
                 exists p t tail, s = (p ++ t ++ tail)%string /\ country_prefix p /\
                                  national_number t /\
                                  (tail = "" \/ tail = String "010" "")).
  { unfold Re.matches. rewrite run_denotes, pattern_split. split.
    - intros [b' [s' [H _]]]. cbn [denotes] in H. fold optional_prefix number_and_end in H.
      destruct H as [b1 [s1 [[_ [-> ->]] [b2 [s2 [Hpre Hnum]]]]]].
      apply optional_prefix_denotes in Hpre. destruct Hpre as [p [-> Hp]].
      apply number_and_end_denotes in Hnum.
      destruct Hnum as [t [tail [-> [Ht [Hend _]]]]].
      exists p, t, tail. auto.
    - intros [p [t [tail [-> [Hp [Ht Hend]]]]]].
      destruct (optional_prefix_matches p t Hp Ht tail) as [b1 Hpre].
      exists false, tail. split; auto.
      exists true, (p ++ t ++ tail)%string. split; [cbn [denotes]; auto|].
      exists b1, (t ++ tail)%string. split; [exact Hpre|].
      apply number_and_end_denotes. exists t, tail. auto. }
  split.
  - intros H. assert (Hm : Re.matches pattern s = true) by congruence.
    clear H. apply Hiff in Hm.
    destruct Hm as [p [t [tail [-> [Hp [Ht [->| ->]]]]]]].
    + left. exists p, t. split; auto.
      f_equal. clear. induction t; simpl; congruence.
    + right. exists (p ++ t)%string. split; [now rewrite append_assoc|].
      exists p, t. auto.
  - intros H. f_equal. apply Hiff.
    destruct H as [[p [t [-> [Hp Ht]]]]|[s0 [-> [p [t [-> [Hp Ht]]]]]]].
    + exists p, t, "". repeat split; auto.
      f_equal. clear. induction t; simpl; congruence.
    + exists p, t, (String "010" ""). repeat split; auto.
      now rewrite append_assoc.
Qed.

(** C2 fails on the code.  [$] also matches just before a newline that
    ends the string, so the validator accepts a number of the specified
    format followed by a newline, which is not of the specified format:
    something comes after the ten digits. *)
Theorem validate_phone_number_accepts_trailing_newline :
  validate_phone_number (JStr phone_then_newline) = Ok true /\
  ~ accepted_phone phone_then_newline.
Proof.
  split; [reflexivity|].
  intros [p [t [Heq [Hp [c [rest [-> [_ [Hlen _]]]]]]]]].
  unfold phone_then_newline in Heq. cbn [append] in Heq.
  destruct Hp as [->|[->|[->|[x [_ ->]]]]]; cbn [append] in Heq;
    try discriminate Heq.
  inversion Heq; subst. discriminate Hlen.
Qed.

(* ================================================================== *)
(** * Further properties *)

(** ** The two blocks of the validator, case by case *)

Section Blocks.

Context {S : Type} {client : TableStore S}.
Variable validate_email : json -> outcome unit.

(** The phone block: it raises without a query, or it skips the phone, or
    it reports the format, or (flag set, format accepted) it executes the
    lookup and reports what the store answers. *)
Lemma check_phone_cases data flag (w : world S) :
  (exists e, check_phone data flag [] w = (Exc e, w)) \/
  (is_present "phone" data = Ok false /\ check_phone data flag [] w = (Ok [], w)) \/
  (exists v,
      is_present "phone" data = Ok true /\ Py.getitem data "phone" = Ok v /\
      ((validate_phone_number v = Ok false /\
        check_phone data flag [] w = (Ok [phone_format_error], w)) \/
       (validate_phone_number v = Ok true /\ flag = false /\
        check_phone data flag [] w = (Ok [], w)) \/
       (validate_phone_number v = Ok true /\ flag = true /\
        check_phone data flag [] w
        = (Ok (lookup_report phone_exists_error phone_lookup_error
                 (fst (execute_query (phone_lookup v) (supabase w)))),
           World (snd (execute_query (phone_lookup v) (supabase w)))
                 (calls w ++ [phone_lookup v]))))).
Proof.
  unfold check_phone, bind, lift, ret, try_except.
  destruct (is_present "phone" data) as [[|]|e]; [| right; left; auto | left; eauto].
  destruct (Py.getitem data "phone") as [v|e]; [|left; eauto].
  destruct (validate_phone_number v) as [[|]|e] eqn:Hv; [| |left; eauto].
  - right. right. exists v. split; [reflexivity|]. split; [reflexivity|].
    right. destruct flag; [right|left]; auto.
    split; [exact Hv|]. split; [reflexivity|].
    simpl. rewrite execute_eq. unfold phone_lookup.
    destruct (fst (execute_query _ (supabase w))) as [[|r rows]|e]; reflexivity.
  - right. right. exists v. split; [reflexivity|]. split; [reflexivity|].
    left. auto.
Qed.

(** The email block, likewise; an exception of the checker that is not an
    [EmailNotValidError] leaves the block. *)
Lemma check_email_cases data flag (w : world S) :
  (exists e, check_email validate_email data flag [] w = (Exc e, w)) \/
  (is_present "email" data = Ok false /\
   check_email validate_email data flag [] w = (Ok [], w)) \/
  (exists v,
      is_present "email" data = Ok true /\ Py.getitem data "email" = Ok v /\
      ((exists e, validate_email v = Exc e /\ is_EmailNotValidError e = true /\
                  check_email validate_email data flag [] w
                  = (Ok [email_format_error], w)) \/
       (validate_email v = Ok tt /\ flag = false /\
        check_email validate_email data flag [] w = (Ok [], w)) \/
       (validate_email v = Ok tt /\ flag = true /\
        check_email validate_email data flag [] w
        = (Ok (lookup_report email_exists_error email_lookup_error
                 (fst (execute_query (email_lookup v) (supabase w)))),
           World (snd (execute_query (email_lookup v) (supabase w)))
                 (calls w ++ [email_lookup v]))))).
Proof.
  unfold check_email, bind, lift, ret, try_except.
  destruct (is_present "email" data) as [[|]|e] eqn:Hp;
    [| right; left; auto | left; eauto].
  destruct (Py.getitem data "email") as [v|e] eqn:Hg.
  - destruct (validate_email v) as [[]|e] eqn:Hv.
    + right. right. exists v. split; [reflexivity|]. split; [reflexivity|].
      right. destruct flag; [right|left]; auto.
      split; [exact Hv|]. split; [reflexivity|].
      simpl. rewrite execute_eq. unfold email_lookup.
      destruct (fst (execute_query _ (supabase w))) as [[|r rows]|e]; reflexivity.
    + destruct (is_EmailNotValidError e) eqn:He; [|left; eauto].
      right. right. exists v. split; [reflexivity|]. split; [reflexivity|].
      left. exists e. auto.
  - (* [data['email']] is there when the block is entered *)
    unfold is_present in Hp. rewrite Hg in Hp.
    destruct (Py.contains "email" data) as [[|]|e']; discriminate Hp.
Qed.

End Blocks.

(** ** What the validator asks the store *)

Section ValidatorQueries.

Context {S : Type} {client : TableStore S}.
Variable validate_email : json -> outcome unit.

Lemma check_phone_queries data flag (w : world S) :
  exists qp,
    calls (snd (check_phone data flag [] w)) = calls w ++ qp /\
    (qp = [] \/
     (flag = true /\
      exists v, Py.getitem data "phone" = Ok v /\
                validate_phone_number v = Ok true /\ qp = [phone_lookup v])).
Proof.
  destruct (check_phone_cases data flag w)
    as [[e H]|[[_ H]|[v [_ [Hg [[_ H]|[[_ [_ H]]|[Hv [Hf H]]]]]]]]];
    rewrite H; simpl.
  1-4: exists []; rewrite app_nil_r; auto.
  exists [phone_lookup v]. split; [reflexivity|]. right. eauto.
Qed.

Lemma check_email_queries data flag (w : world S) :
  exists qe,
    calls (snd (check_email validate_email data flag [] w)) = calls w ++ qe /\
    (qe = [] \/
     (flag = true /\
      exists v, Py.getitem data "email" = Ok v /\
                validate_email v = Ok tt /\ qe = [email_lookup v])).
Proof.
  destruct (check_email_cases validate_email data flag w)
    as [[e H]|[[_ H]|[v [_ [Hg [[e [_ [_ H]]]|[[_ [_ H]]|[Hv [Hf H]]]]]]]]];
    rewrite H; simpl.
  1-4: exists []; rewrite app_nil_r; auto.
  exists [email_lookup v]. split; [reflexivity|]. right. eauto.
Qed.

(** With a false flag a block is a function of the body alone. *)
Lemma check_phone_pure data (w w0 : world S) :
  check_phone data false [] w = (fst (check_phone data false [] w0), w).
Proof.
  unfold check_phone, bind, lift, ret.
  destruct (is_present "phone" data) as [[|]|e]; simpl; auto.
  destruct (Py.getitem data "phone") as [v|e]; simpl; auto.
  destruct (validate_phone_number v) as [[|]|e]; simpl; auto.
Qed.

Lemma check_email_pure data (w w0 : world S) :
  check_email validate_email data false [] w
  = (fst (check_email validate_email data false [] w0), w).
Proof.
  unfold check_email, bind, lift, ret, try_except.
  destruct (is_present "email" data) as [[|]|e]; simpl; auto.
  destruct (Py.getitem data "email") as [v|e]; simpl.
  - destruct (validate_email v) as [[]|e]; simpl; auto.
    destruct (is_EmailNotValidError e); auto.
  - destruct (is_EmailNotValidError e); auto.
Qed.

End ValidatorQueries.

(** The queries of the validator. *)
Lemma validator_queries
  {S : Type} {client : TableStore S} (validate_email : json -> outcome unit)
  (data : json) (flag : bool) (w : world S) :
  exists qp qe,
    calls (snd (validate_lead_data validate_email data flag w))
    = calls w ++ qp ++ qe /\
    (qp = [] \/
     (flag = true /\
      exists v, Py.getitem data "phone" = Ok v /\
                validate_phone_number v = Ok true /\ qp = [phone_lookup v])) /\
    (qe = [] \/
     (flag = true /\
      exists v, Py.getitem data "email" = Ok v /\
                validate_email v = Ok tt /\ qe = [email_lookup v])).
Proof.
  rewrite validate_lead_data_blocks.
  destruct (check_required required_fields data []) as [req|e].
  2: { exists [], []. simpl. rewrite app_nil_r. auto. }
  destruct (check_phone_queries data flag w) as [qp [Hp Hqp]].
  destruct (check_phone data flag [] w) as [[ph|e] w1]; simpl in Hp.
  2: { exists qp, []. simpl. rewrite app_nil_r. auto. }
  destruct (check_email_queries validate_email data flag w1) as [qe [He Hqe]].
  exists qp, qe. split; [|auto].
  destruct (check_email validate_email data flag [] w1) as [[em|e] w2];
    simpl in *; rewrite He, Hp, app_assoc; reflexivity.
Qed.

(** X1. Whatever the body, the flag and the store, the validator executes
    at most two queries: possibly the lookup of the body's own phone, then
    possibly the lookup of the body's own email, each with limit 1.  A
    lookup is executed only with the flag set and only for a value that has
    passed its format check: a phone of the wrong format and an email the
    checker rejects are never looked up. *)
Theorem validate_lead_data_queries
  {S : Type} {client : TableStore S} (validate_email : json -> outcome unit)
  (data : json) (flag : bool) (w : world S) :
  exists qp qe,
    calls (snd (validate_lead_data validate_email data flag w))
    = calls w ++ qp ++ qe /\
    (qp = [] \/
     (flag = true /\
      exists v, Py.getitem data "phone" = Ok v /\
                validate_phone_number v = Ok true /\ qp = [phone_lookup v])) /\
    (qe = [] \/
     (flag = true /\
      exists v, Py.getitem data "email" = Ok v /\
                validate_email v = Ok tt /\ qe = [email_lookup v])).
Proof. apply validator_queries. Qed.

(** X2. With [check_existing] false the validator never touches the store
    and its answer (the list, or the exception) is a function of the body
    alone: the same on every store and at every moment. *)
Theorem validate_lead_data_offline
  {S : Type} {client : TableStore S} (validate_email : json -> outcome unit)
  (data : json) (w w0 : world S) :
  validate_lead_data validate_email data false w
  = (fst (validate_lead_data validate_email data false w0), w).
Proof.
  rewrite !validate_lead_data_blocks.
  destruct (check_required required_fields data []) as [req|e]; auto.
  rewrite (check_phone_pure data w w0), (check_phone_pure data w0 w0).
  destruct (fst (check_phone data false [] w0)) as [ph|e]; auto.
  rewrite (check_email_pure validate_email data w w0),
          (check_email_pure validate_email data w0 w0).
  destruct (fst (check_email validate_email data false [] w0)) as [em|e]; auto.
Qed.

(** ** Bodies that pass validation *)

Lemma check_required_grows fields data errors r :
  errors <> [] -> check_required fields data errors = Ok r -> r <> [].
Proof.
  intros Hne. rewrite check_required_appends.
  destruct (check_required fields data []) as [r0|e]; simpl; [|discriminate].
  intros H. inversion H; subst. intros Hr. apply app_eq_nil in Hr. tauto.
Qed.

Lemma check_required_cons field rest data errors :
  check_required (field :: rest) data errors
  = (missing <~ is_missing field data ;;
     check_required rest data
       (if missing then errors ++ [(field ++ " is required")%string] else errors)).
Proof. reflexivity. Qed.

(** A [str] or a list is no map: a field it does not contain is reported,
    a field it contains makes [data[field]] raise. *)
Lemma check_required_not_indexable data :
  (forall field, exists e, Py.getitem data field = Exc e) ->
  (exists c, Py.contains "name" data = Ok c) ->
  check_required required_fields data [] <> Ok [].
Proof.
  intros Hget [c Hc] H. unfold required_fields in H.
  rewrite check_required_cons in H. unfold is_missing in H. rewrite Hc in H.
  destruct c; cbn [negb obind] in H.
  - destruct (Hget "name") as [e He]. rewrite He in H. discriminate H.
  - refine (check_required_grows _ _ _ _ _ H eq_refl). discriminate.
Qed.

(** Only a map gets through the loop without a message. *)
Lemma check_required_passes data :
  check_required required_fields data [] = Ok [] ->
  exists d, data = JObj d /\
            forall field, In field required_fields -> supplied field d = true.
Proof.
  intros H. destruct data as [|b|n|s|items|d]; try discriminate H.
  - exfalso. revert H. apply check_required_not_indexable.
    + intros field. eexists. reflexivity.
    + eexists. reflexivity.
  - exfalso. revert H. apply check_required_not_indexable.
    + intros field. eexists. reflexivity.
    + eexists. reflexivity.
  - exists d. split; [reflexivity|]. intros field Hf.
    rewrite check_required_dict in H. inversion H as [Hreq].
    destruct (supplied field d) eqn:Hs; [reflexivity|].
    apply (in_required_errors field d Hf) in Hs. rewrite Hreq in Hs. destruct Hs.
Qed.

Lemma required_errors_none d :
  (forall field, In field required_fields -> supplied field d = true) ->
  required_errors required_fields d = [].
Proof.
  intros H. unfold required_errors.
  assert (Hf : filter (fun f => negb (supplied f d)) required_fields = []).
  { induction required_fields as [|f fs IH]; [reflexivity|]. simpl.
    rewrite (H f (or_introl eq_refl)). simpl. apply IH.
    intros g Hg. apply H. now right. }
  now rewrite Hf.
Qed.

Lemma getitem_dict_inv d k v :
  Py.getitem (JObj d) k = Ok v -> Py.dict_get k d = Some v.
Proof.
  unfold Py.getitem. destruct (Py.dict_get k d); intros H; inversion H; auto.
Qed.

Lemma lookup_report_nil taken failed answer :
  lookup_report taken failed answer = [] -> answer = Ok [].
Proof. destruct answer as [[|r rows]|e]; simpl; intros H; congruence. Qed.

(** When the validator returns the empty list. *)
Lemma validation_passes_iff
  {S : Type} {client : TableStore S} (validate_email : json -> outcome unit)
  (data : json) (flag : bool) (w w' : world S) :
  validate_lead_data validate_email data flag w = (Ok [], w') <->
  exists d phone email,
    data = JObj d /\ well_formed_lead validate_email d phone email /\
    if flag then
      exists s1 s2,
        execute_query (phone_lookup phone) (supabase w) = (Ok [], s1) /\
        execute_query (email_lookup email) s1 = (Ok [], s2) /\
        w' = World s2 (calls w ++ [phone_lookup phone; email_lookup email])
    else w' = w.
Proof.
  rewrite validate_lead_data_blocks. split.
  - intros H.
    destruct (check_required required_fields data []) as [req|e] eqn:Hreq;
      [|discriminate H].
    destruct (check_phone data flag [] w) as [[ph|e] w1] eqn:Hph; [|discriminate H].
    destruct (check_email validate_email data flag [] w1) as [[em|e] w2] eqn:Hem;
      [|discriminate H].
    assert (Hnil : req ++ ph ++ em = [] /\ w2 = w') by (inversion H; auto).
    destruct Hnil as [Hnil ->]. apply app_eq_nil in Hnil. destruct Hnil as [-> Hnil].
    apply app_eq_nil in Hnil. destruct Hnil as [-> ->].
    apply check_required_passes in Hreq. destruct Hreq as [d [-> Hsup]].
    assert (Hp : supplied "phone" d = true) by (apply Hsup; simpl; auto).
    assert (He : supplied "email" d = true) by (apply Hsup; simpl; auto).
    destruct (check_phone_cases (JObj d) flag w)
      as [[e C]|[[C _]|[phone [_ [Hgp [[_ C]|[[Hvp [Hf C]]|[Hvp [Hf C]]]]]]]]];
      try (rewrite Hph in C; discriminate C);
      try (rewrite is_present_dict, Hp in C; discriminate C).
    + (* flag false *)
      rewrite Hph in C. assert (w1 = w) by (inversion C; auto). subst w1 flag.
      destruct (check_email_cases validate_email (JObj d) false w)
        as [[e C']|[[C' _]|[email [_ [Hge [[e [_ [_ C']]]|[[Hve [_ C']]|[_ [Hf _]]]]]]]]];
        try (rewrite Hem in C'; discriminate C');
        try (rewrite is_present_dict, He in C'; discriminate C');
        try discriminate Hf.
      rewrite Hem in C'. assert (w' = w) by (inversion C'; auto).
      exists d, phone, email. split; [reflexivity|]. split; [|assumption].
      repeat split; auto using getitem_dict_inv.
    + (* flag true *)
      rewrite Hph in C. subst flag.
      destruct (execute_query (phone_lookup phone) (supabase w)) as [a1 s1] eqn:E1.
      cbn [fst snd] in C.
      assert (Hans : lookup_report phone_exists_error phone_lookup_error a1 = []
                     /\ w1 = World s1 (calls w ++ [phone_lookup phone]))
        by (inversion C; auto).
      destruct Hans as [Hans Hw1]. apply lookup_report_nil in Hans.
      rewrite Hw1 in Hem. clear C Hph Hw1.
      destruct (check_email_cases validate_email (JObj d) true
                  (World s1 (calls w ++ [phone_lookup phone])))
        as [[e C']|[[C' _]|[email [_ [Hge [[e [_ [_ C']]]|[[_ [Hf _]]|[Hve [_ C']]]]]]]]];
        try (rewrite Hem in C'; discriminate C');
        try (rewrite is_present_dict, He in C'; discriminate C');
        try discriminate Hf.
      rewrite Hem in C'. cbn [supabase calls] in C'.
      destruct (execute_query (email_lookup email) s1) as [a2 s2] eqn:E2.
      cbn [fst snd] in C'.
      assert (Hans' : lookup_report email_exists_error email_lookup_error a2 = []
                      /\ w' = World s2 ((calls w ++ [phone_lookup phone])
                                          ++ [email_lookup email]))
        by (inversion C'; auto).
      destruct Hans' as [Hans' Hw']. apply lookup_report_nil in Hans'.
      exists d, phone, email. split; [reflexivity|]. split.
      { repeat split; auto using getitem_dict_inv. }
      exists s1, s2. rewrite Hans in E1. rewrite Hans' in E2.
      split; [exact E1|]. split; [exact E2|].
      rewrite Hw', <- app_assoc. reflexivity.
  - intros [d [phone [email [-> [[Hsup [Hgp [Hvp [Hge Hve]]]] Hflag]]]]].
    rewrite check_required_dict, (required_errors_none d Hsup).
    assert (Hp : supplied "phone" d = true) by (apply Hsup; simpl; auto).
    assert (He : supplied "email" d = true) by (apply Hsup; simpl; auto).
    unfold check_phone, check_email, bind, lift, ret, try_except.
    rewrite !is_present_dict, Hp, He.
    rewrite (getitem_dict _ _ _ Hgp), (getitem_dict _ _ _ Hge), Hvp, Hve.
    destruct flag.
    + destruct Hflag as [s1 [s2 [H1 [H2 ->]]]]. simpl.
      rewrite execute_eq. fold (phone_lookup phone). rewrite H1. simpl.
      rewrite execute_eq. fold (email_lookup email). simpl. rewrite H2. simpl.
      now rewrite <- app_assoc.
    + subst w'. reflexivity.
Qed.

(** X3. The validator returns the empty list exactly when the body is a map
    that supplies the four required fields with truthy values, its phone is
    accepted by [validate_phone_number], its email is accepted by the
    checker and, with the flag set, the store answers the phone lookup and
    then the email lookup with no row; these two lookups are then all it
    executed.  No other JSON value passes. *)
Theorem validate_lead_data_passes_iff
  {S : Type} {client : TableStore S} (validate_email : json -> outcome unit)
  (data : json) (flag : bool) (w w' : world S) :
  validate_lead_data validate_email data flag w = (Ok [], w') <->
  exists d phone email,
    data = JObj d /\ well_formed_lead validate_email d phone email /\
    if flag then
      exists s1 s2,
        execute_query (phone_lookup phone) (supabase w) = (Ok [], s1) /\
        execute_query (email_lookup email) s1 = (Ok [], s2) /\
        w' = World s2 (calls w ++ [phone_lookup phone; email_lookup email])
    else w' = w.
Proof. apply validation_passes_iff. Qed.

(** ** The list the validator returns *)

Lemma NoDup_by_nodup (l : list string) : nodup string_dec l = l -> NoDup l.
Proof. intros <-. apply NoDup_nodup. Qed.

Section Reports.

Context {S : Type} {client : TableStore S}.
Variable validate_email : json -> outcome unit.

(** A block reports at most one message, and none about a field that is
    absent or falsy. *)
Lemma phone_report_on_map d flag (w : world S) ph w1 :
  check_phone (JObj d) flag [] w = (Ok ph, w1) ->
  ph = [] \/
  (supplied "phone" d = true /\
   (ph = [phone_format_error] \/ ph = [phone_exists_error]
    \/ ph = [phone_lookup_error])).
Proof.
  intros H. destruct (supplied "phone" d) eqn:Hs.
  - apply check_phone_messages in H. destruct H as [H|H]; auto.
  - left. unfold check_phone, bind, lift, ret in H.
    rewrite is_present_dict, Hs in H. inversion H. reflexivity.
Qed.

Lemma email_report_on_map d flag (w : world S) em w1 :
  check_email validate_email (JObj d) flag [] w = (Ok em, w1) ->
  em = [] \/
  (supplied "email" d = true /\
   (em = [email_format_error] \/ em = [email_exists_error]
    \/ em = [email_lookup_error])).
Proof.
  intros H. destruct (supplied "email" d) eqn:Hs.
  - apply check_email_messages in H. destruct H as [H|H]; auto.
  - left. unfold check_email, bind, lift, ret in H.
    rewrite is_present_dict, Hs in H. inversion H. reflexivity.
Qed.

(** Setting the flag can only add to what a block reports. *)
Lemma check_phone_flag_incl data (w : world S) ph0 wa ph1 wb :
  check_phone data false [] w = (Ok ph0, wa) ->
  check_phone data true [] w = (Ok ph1, wb) ->
  incl ph0 ph1.
Proof.
  unfold check_phone, bind, lift, ret, try_except.
  destruct (is_present "phone" data) as [[|]|e]; simpl; try discriminate.
  - destruct (Py.getitem data "phone") as [v|e]; simpl; try discriminate.
    destruct (validate_phone_number v) as [[|]|e]; simpl; try discriminate.
    + intros H0 _. inversion H0. apply incl_nil_l.
    + intros H0 H1. inversion H0. inversion H1. apply incl_refl.
  - intros H0 H1. inversion H0. apply incl_nil_l.
Qed.

Lemma check_email_flag_incl data (w w' : world S) em0 wa em1 wb :
  check_email validate_email data false [] w = (Ok em0, wa) ->
  check_email validate_email data true [] w' = (Ok em1, wb) ->
  incl em0 em1.
Proof.
  unfold check_email, bind, lift, ret, try_except.
  destruct (is_present "email" data) as [[|]|e]; simpl; try discriminate.
  - destruct (Py.getitem data "email") as [v|e]; simpl.
    + destruct (validate_email v) as [[]|e]; simpl.
      * intros H0 _. inversion H0. apply incl_nil_l.
      * destruct (is_EmailNotValidError e); try discriminate.
        intros H0 H1. inversion H0. inversion H1. apply incl_refl.
    + destruct (is_EmailNotValidError e); try discriminate.
      intros H0 H1. inversion H0. inversion H1. apply incl_refl.
  - intros H0 H1. inversion H0. apply incl_nil_l.
Qed.

End Reports.

(** X4. On every map the list the validator returns has no message twice,
    has at most six messages, and has at most one message about the phone
    and at most one about the email: a field reported as required is not
    also reported for its format, as taken, or for a failed lookup. *)
Theorem validate_lead_data_one_message_per_field
  {S : Type} {client : TableStore S} (validate_email : json -> outcome unit)
  (d : list (string * json)) (flag : bool) (w w' : world S)
  (errors : list string) :
  validate_lead_data validate_email (JObj d) flag w = (Ok errors, w') ->
  NoDup errors /\ length errors <= 6 /\
  count_among phone_messages errors <= 1 /\
  count_among email_messages errors <= 1.
Proof.
  rewrite validate_lead_data_blocks, check_required_dict.
  destruct (check_phone (JObj d) flag [] w) as [[ph|e] w1] eqn:Hph;
    [|discriminate].
  destruct (check_email validate_email (JObj d) flag [] w1) as [[em|e] w2] eqn:Hem;
    [|discriminate].
  intros H. assert (He : errors = required_errors required_fields d ++ ph ++ em)
    by (inversion H; auto).
  subst errors. clear H.
  apply phone_report_on_map in Hph. apply email_report_on_map in Hem.
  unfold required_errors, required_fields. cbn [filter].
  destruct (supplied "name" d), (supplied "party" d),
    (supplied "phone" d), (supplied "email" d);
    destruct Hph as [->|[Hp [->|[->| ->]]]]; try discriminate Hp;
    destruct Hem as [->|[He [->|[->| ->]]]]; try discriminate He;
    (split; [apply NoDup_by_nodup; vm_compute; reflexivity|]);
    (split; [vm_compute; lia|]);
    (split; vm_compute; lia).
Qed.

Lemma validate_lead_data_one_message_per_field_witness :
  exists errors w',
    validate_lead_data sample_validate_email (JObj body_taken_phone_bad_email) true
      (MemStore.fresh sample_store) = (Ok errors, w') /\
    NoDup errors /\ count_among phone_messages errors <= 1.
Proof.
  eexists _, _. split; [reflexivity|].
  destruct (validate_lead_data_one_message_per_field (client:=MemStore.store)
              sample_validate_email body_taken_phone_bad_email true
              (MemStore.fresh sample_store) _ _ eq_refl)
    as [Hnd [_ [Hph _]]].
  split; [exact Hnd | exact Hph].
Defined.

(** X5. Setting [check_existing] only adds messages: on the same body and
    store, every message of the run without the flag is a message of the
    run with the flag.  In particular a body that passes with the flag
    passes without it. *)
Theorem validate_lead_data_flag_only_adds
  {S : Type} {client : TableStore S} (validate_email : json -> outcome unit)
  (data : json) (w w0 w1 : world S) (errors0 errors1 : list string) :
  validate_lead_data validate_email data false w = (Ok errors0, w0) ->
  validate_lead_data validate_email data true w = (Ok errors1, w1) ->
  incl errors0 errors1 /\ (errors1 = [] -> errors0 = []).
Proof.
  rewrite !validate_lead_data_blocks.
  destruct (check_required required_fields data []) as [req|e]; [|discriminate].
  destruct (check_phone data false [] w) as [[ph0|e] wa] eqn:Hp0; [|discriminate].
  destruct (check_email validate_email data false [] wa) as [[em0|e] wa'] eqn:He0;
    [|discriminate].
  destruct (check_phone data true [] w) as [[ph1|e] wb] eqn:Hp1; [|discriminate].
  destruct (check_email validate_email data true [] wb) as [[em1|e] wb'] eqn:He1;
    [|discriminate].
  intros H0 H1.
  assert (E0 : errors0 = req ++ ph0 ++ em0) by (inversion H0; auto).
  assert (E1 : errors1 = req ++ ph1 ++ em1) by (inversion H1; auto).
  subst errors0 errors1.
  pose proof (check_phone_flag_incl data w ph0 wa ph1 wb Hp0 Hp1) as Ip.
  pose proof (check_email_flag_incl validate_email data wa wb em0 wa' em1 wb' He0 He1)
    as Ie.
  assert (I : incl (req ++ ph0 ++ em0) (req ++ ph1 ++ em1)).
  { apply incl_app; [apply incl_appl, incl_refl|].
    apply incl_appr. apply incl_app; [apply incl_appl|apply incl_appr]; assumption. }
  split; [exact I|].
  intros Hnil. rewrite Hnil in I.
  destruct (req ++ ph0 ++ em0) as [|m rest]; [reflexivity|].
  destruct (I m (or_introl eq_refl)).
Qed.

Lemma validate_lead_data_flag_only_adds_witness :
  incl [email_format_error] [phone_exists_error; email_format_error].
Proof.
  exact (proj1 (validate_lead_data_flag_only_adds (client:=MemStore.store)
                  sample_validate_email (JObj body_taken_phone_bad_email)
                  (MemStore.fresh sample_store) _ _ _ _ eq_refl eq_refl)).
Defined.

(** ** The handlers, case by case *)

Section HandlerCases.

Context {S : Type} {client : TableStore S}.
Variable validate_email : json -> outcome unit.
Variable utcnow_isoformat : string.

Lemma validate_passes_is_map data flag (w w1 : world S) :
  validate_lead_data validate_email data flag w = (Ok [], w1) ->
  exists d, data = JObj d /\ d <> [].
Proof.
  intros H. rewrite validate_lead_data_blocks in H.
  destruct (check_required required_fields data []) as [req|e] eqn:Hreq;
    [|discriminate H].
  destruct (check_phone data flag [] w) as [[ph|e] wa]; [|discriminate H].
  destruct (check_email validate_email data flag [] wa) as [[em|e] wb];
    [|discriminate H].
  assert (Hnil : req ++ ph ++ em = []) by (inversion H; auto).
  apply app_eq_nil in Hnil. destruct Hnil as [-> _].
  apply check_required_passes in Hreq. destruct Hreq as [d [-> Hsup]].
  exists d. split; [reflexivity|]. intros ->.
  specialize (Hsup "name" (or_introl eq_refl)). discriminate Hsup.
Qed.

Lemma create_lead_cases data (w : world S) :
  (Py.truthy data = false /\
   create_lead validate_email utcnow_isoformat data w
   = (Ok (message_response "No data provided" 400), w)) \/
  (exists e w1,
      validate_lead_data validate_email data true w = (Exc e, w1) /\
      create_lead validate_email utcnow_isoformat data w = (Exc e, w1)) \/
  (exists errors w1,
      validate_lead_data validate_email data true w = (Ok errors, w1) /\
      errors <> [] /\
      create_lead validate_email utcnow_isoformat data w
      = (Ok (validation_failure errors), w1)) \/
  (exists d w1,
      data = JObj d /\
      validate_lead_data validate_email data true w = (Ok [], w1) /\
      create_lead validate_email utcnow_isoformat data w
      = (Ok (write_response "Error creating lead: " 201
               (fst (execute_query (Insert (JObj (with_defaults utcnow_isoformat d)))
                       (supabase w1)))),
         World (snd (execute_query (Insert (JObj (with_defaults utcnow_isoformat d)))
                       (supabase w1)))
               (calls w1 ++ [Insert (JObj (with_defaults utcnow_isoformat d))]))).
Proof.
  destruct (Py.truthy data) eqn:Ht.
  2: { left. split; [reflexivity|]. unfold create_lead. now rewrite Ht. }
  right.
  destruct (validate_lead_data validate_email data true w) as [[errors|e] w1] eqn:Hv.
  - destruct errors as [|m errors].
    + right. right.
      destruct (validate_passes_is_map data true w w1 Hv) as [d [-> Hd]].
      exists d, w1. split; [reflexivity|]. split; [reflexivity|].
      rewrite (create_lead_inserts validate_email utcnow_isoformat d w w1 Hd Hv).
      unfold try_except. unfold bind at 1.
      rewrite (execute_eq (Insert (JObj (with_defaults utcnow_isoformat d))) w1).
      destruct (fst (execute_query _ (supabase w1))) as [[|r rows]|e]; reflexivity.
    + right. left. exists (m :: errors), w1. split; [reflexivity|].
      split; [discriminate|].
      apply create_lead_rejects; auto. discriminate.
  - left. exists e, w1. split; [reflexivity|].
    unfold create_lead. rewrite Ht. cbn [negb]. now erewrite bind_exc by exact Hv.
Qed.

Lemma update_lead_validated_cases lead_id data flag (w1 : world S) :
  (exists e w2,
      validate_lead_data validate_email data flag w1 = (Exc e, w2) /\
      update_lead_validated validate_email lead_id data flag w1
      = (Ok (message_response ("Error updating lead: " ++ exn_str e) 500), w2)) \/
  (exists errors w2,
      validate_lead_data validate_email data flag w1 = (Ok errors, w2) /\
      errors <> [] /\
      update_lead_validated validate_email lead_id data flag w1
      = (Ok (validation_failure errors), w2)) \/
  (exists w2,
      validate_lead_data validate_email data flag w1 = (Ok [], w2) /\
      update_lead_validated validate_email lead_id data flag w1
      = (Ok (write_response "Error updating lead: " 200
               (fst (execute_query (UpdateEq data "id" (JInt lead_id)) (supabase w2)))),
         World (snd (execute_query (UpdateEq data "id" (JInt lead_id)) (supabase w2)))
               (calls w2 ++ [UpdateEq data "id" (JInt lead_id)]))).
Proof.
  destruct (validate_lead_data validate_email data flag w1) as [[errors|e] w2] eqn:Hv.
  - destruct errors as [|m errors].
    + right. right. exists w2. split; [reflexivity|].
      unfold update_lead_validated, try_except.
      erewrite bind_ok by exact Hv. cbn [Py.nonempty]. unfold bind at 1.
      rewrite (execute_eq (UpdateEq data "id" (JInt lead_id)) w2).
      destruct (fst (execute_query _ (supabase w2))) as [[|r rows]|e]; reflexivity.
    + right. left. exists (m :: errors), w2. split; [reflexivity|].
      split; [discriminate|].
      unfold update_lead_validated, try_except.
      erewrite bind_ok by exact Hv. reflexivity.
  - left. exists e, w2. split; [reflexivity|].
    unfold update_lead_validated, try_except.
    erewrite bind_exc by exact Hv. reflexivity.
Qed.

Lemma update_lead_cases lead_id data (w : world S) :
  let by_id := SelectEq "id" (JInt lead_id) in
  let answer := fst (execute_query by_id (supabase w)) in
  let w1 := World (snd (execute_query by_id (supabase w))) (calls w ++ [by_id]) in
  (Py.truthy data = false /\
   update_lead validate_email lead_id data w
   = (Ok (message_response "No data provided" 400), w)) \/
  (Py.truthy data = true /\
   ((exists e, answer = Exc e /\
               update_lead validate_email lead_id data w
               = (Ok (message_response ("Error updating lead: " ++ exn_str e) 500), w1)) \/
    (answer = Ok [] /\
     update_lead validate_email lead_id data w
     = (Ok (message_response "Lead not found" 404), w1)) \/
    (exists rows, answer = Ok rows /\ rows <> [] /\
       ((exists e, compute_check_existing data rows = Exc e /\
                   update_lead validate_email lead_id data w
                   = (Ok (message_response ("Error updating lead: " ++ exn_str e) 500),
                      w1)) \/
        (exists flag, compute_check_existing data rows = Ok flag /\
                      update_lead validate_email lead_id data w
                      = update_lead_validated validate_email lead_id data flag w1))))).
Proof.
  intros by_id answer w1.
  destruct (Py.truthy data) eqn:Ht.
  2: { left. split; [reflexivity|]. unfold update_lead. now rewrite Ht. }
  right. split; [reflexivity|].
  assert (Hex : execute by_id w = (answer, w1)) by apply execute_eq.
  destruct answer as [rows|e] eqn:Ha.
  - destruct rows as [|r rows].
    + right. left. split; [reflexivity|].
      unfold update_lead. rewrite Ht. cbn [negb]. unfold try_except.
      fold by_id. erewrite bind_ok by exact Hex. reflexivity.
    + right. right. exists (r :: rows). split; [reflexivity|].
      split; [discriminate|].
      destruct (compute_check_existing data (r :: rows)) as [flag|e] eqn:Hf.
      * right. exists flag. split; [reflexivity|].
        apply update_lead_with_flag with (rows := r :: rows); auto. discriminate.
      * left. exists e. split; [reflexivity|].
        unfold update_lead. rewrite Ht. cbn [negb]. unfold try_except.
        fold by_id. erewrite bind_ok by exact Hex. cbn [Py.nonempty negb].
        unfold bind at 1. unfold lift at 1. rewrite Hf. reflexivity.
  - left. exists e. split; [reflexivity|].
    unfold update_lead. rewrite Ht. cbn [negb]. unfold try_except.
    fold by_id. erewrite bind_exc by exact Hex. reflexivity.
Qed.

End HandlerCases.

(** ** The routes that read and the route that deletes *)

(** X6. [get_all_leads] executes one query, the select of the whole table,
    and nothing else.  It answers 200 with the rows the store answered, in
    the store's order, under "leads" (an empty table gives an empty list,
    not a 404), and 500 with "Error fetching leads: " and the text of the
    exception when the store raises; it never raises itself. *)
Theorem get_all_leads_answers
  {S : Type} {client : TableStore S} (w : world S) :
  let answer := fst (execute_query SelectAll (supabase w)) in
  let w' := World (snd (execute_query SelectAll (supabase w)))
                  (calls w ++ [SelectAll]) in
  exists r,
    get_all_leads w = (Ok r, w') /\
    (forall rows, answer = Ok rows ->
                  r = Response (jsonify [("leads", JArr rows)]) 200) /\
    (forall e, answer = Exc e ->
               r = message_response ("Error fetching leads: " ++ exn_str e) 500) /\
    (status r = 200 <-> exists rows, answer = Ok rows) /\
    read_step w w'.
Proof.
  intros answer w'. subst w'.
  pose proof (reads_only_execute SelectAll eq_refl w) as R.
  rewrite execute_eq in R. cbn [snd] in R.
  unfold get_all_leads, try_except. unfold bind at 1.
  rewrite (execute_eq SelectAll w). fold answer.
  destruct answer as [rows|e]; eexists; (split; [reflexivity|]).
  - split; [intros rows' H; inversion H; reflexivity|].
    split; [intros e H; discriminate H|].
    split; [|exact R]. split; eauto.
  - split; [intros rows H; discriminate H|].
    split; [intros e' H; inversion H; reflexivity|].
    split; [|exact R]. split; [discriminate|]. intros [rows H]. discriminate H.
Qed.

(** X7. [get_lead] executes one query, the select by id, and nothing else.
    It answers 404 "Lead not found" exactly when the store answers with no
    row, 200 with the first row under "lead" when the store answers with
    rows (further rows are ignored), and 500 with "Error fetching lead: "
    and the text of the exception exactly when the store raises. *)
Theorem get_lead_answers
  {S : Type} {client : TableStore S} (lead_id : Z) (w : world S) :
  let by_id := SelectEq "id" (JInt lead_id) in
  let answer := fst (execute_query by_id (supabase w)) in
  let w' := World (snd (execute_query by_id (supabase w))) (calls w ++ [by_id]) in
  exists r,
    get_lead lead_id w = (Ok r, w') /\
    (forall row more, answer = Ok (row :: more) ->
                      r = Response (jsonify [("lead", row)]) 200) /\
    (status r = 404 <-> answer = Ok []) /\
    (status r = 404 -> r = message_response "Lead not found" 404) /\
    (status r = 500 <-> exists e, answer = Exc e) /\
    (forall e, answer = Exc e ->
               r = message_response ("Error fetching lead: " ++ exn_str e) 500) /\
    read_step w w'.
Proof.
  intros by_id answer w'. subst w'.
  pose proof (reads_only_execute by_id eq_refl w) as R.
  rewrite execute_eq in R. cbn [snd] in R.
  unfold get_lead, try_except. unfold bind at 1.
  rewrite (execute_eq by_id w). fold answer.
  destruct answer as [[|row more]|e]; eexists; (split; [reflexivity|]);
    cbn [status].
  - split; [intros row more H; discriminate H|].
    split; [split; auto|]. split; [reflexivity|].
    split; [split; [discriminate|intros [e H]; discriminate H]|].
    split; [intros e H; discriminate H|exact R].
  - split; [intros row' more' H; inversion H; reflexivity|].
    split; [split; discriminate|]. split; [discriminate|].
    split; [split; [discriminate|intros [e H]; discriminate H]|].
    split; [intros e H; discriminate H|exact R].
  - split; [intros row more H; discriminate H|].
    split; [split; discriminate|]. split; [discriminate|].
    split; [split; eauto|].
    split; [intros e' H; inversion H; reflexivity|exact R].
Qed.

(** X8. [delete_lead] executes one query, the delete by id, without looking
    the lead up first.  It answers 200 with "Lead <id> deleted
    successfully" (the id in decimal) exactly when the store answers the
    delete with rows, 404 "Lead not found" exactly when it answers with no
    row, and 500 with "Error deleting lead: " and the text of the exception
    exactly when the store raises. *)
Theorem delete_lead_answers
  {S : Type} {client : TableStore S} (lead_id : Z) (w : world S) :
  let by_id := DeleteEq "id" (JInt lead_id) in
  let answer := fst (execute_query by_id (supabase w)) in
  let w' := World (snd (execute_query by_id (supabase w))) (calls w ++ [by_id]) in
  exists r,
    delete_lead lead_id w = (Ok r, w') /\
    (status r = 200 <-> exists row more, answer = Ok (row :: more)) /\
    (status r = 200 ->
     r = message_response
           ("Lead " ++ Py.str_of_int lead_id ++ " deleted successfully") 200) /\
    (status r = 404 <-> answer = Ok []) /\
    (status r = 404 -> r = message_response "Lead not found" 404) /\
    (status r = 500 <-> exists e, answer = Exc e) /\
    (forall e, answer = Exc e ->
               r = message_response ("Error deleting lead: " ++ exn_str e) 500).
Proof.
  intros by_id answer w'. subst w'.
  unfold delete_lead, try_except. unfold bind at 1.
  rewrite (execute_eq by_id w). fold answer.
  destruct answer as [[|row more]|e]; eexists; (split; [reflexivity|]);
    cbn [status].
  - split; [split; [discriminate|intros [r [m H]]; discriminate H]|].
    split; [discriminate|]. split; [split; auto|]. split; [reflexivity|].
    split; [split; [discriminate|intros [e H]; discriminate H]|].
    intros e H; discriminate H.
  - split; [split; eauto|]. split; [reflexivity|].
    split; [split; discriminate|]. split; [discriminate|].
    split; [split; [discriminate|intros [e H]; discriminate H]|].
    intros e H; discriminate H.
  - split; [split; [discriminate|intros [r [m H]]; discriminate H]|].
    split; [discriminate|]. split; [split; discriminate|]. split; [discriminate|].
    split; [split; eauto|].
    intros e' H; inversion H; reflexivity.
Qed.

(** ** The routes that write *)

Section WriteRoutes.

Context {S : Type} {client : TableStore S}.
Variable validate_email : json -> outcome unit.
Variable utcnow_isoformat : string.

Lemma write_response_status prefix code answer :
  status (write_response prefix code answer) = code \/
  status (write_response prefix code answer) = 500.
Proof. destruct answer as [[|r rows]|e]; simpl; auto. Qed.

Lemma write_response_not_message prefix code answer text c :
  code <> 500 -> c <> 500 ->
  write_response prefix code answer <> message_response text c.
Proof.
  intros Hcode Hc. destruct answer as [[|r rows]|e]; simpl;
    unfold message_response; intros H; inversion H; congruence.
Qed.

Lemma create_lead_status data (w : world S) r w' :
  create_lead validate_email utcnow_isoformat data w = (Ok r, w') ->
  In (status r) create_codes.
Proof.
  intros H.
  destruct (create_lead_cases validate_email utcnow_isoformat data w)
    as [[_ C]|[[e [w1 [_ C]]]|[[errors [w1 [_ [_ C]]]]|[d [w1 [_ [_ C]]]]]]];
    rewrite C in H; inversion H; subst; simpl; auto.
  destruct (write_response_status "Error creating lead: " 201
              (fst (execute_query (Insert (JObj (with_defaults utcnow_isoformat d)))
                      (supabase w1)))) as [-> | ->]; simpl; auto.
Qed.

Lemma update_lead_validated_status lead_id data flag (w1 : world S) r w' :
  update_lead_validated validate_email lead_id data flag w1 = (Ok r, w') ->
  In (status r) [200; 400; 500].
Proof.
  intros H.
  destruct (update_lead_validated_cases validate_email lead_id data flag w1)
    as [[e [w2 [_ C]]]|[[errors [w2 [_ [_ C]]]]|[w2 [_ C]]]];
    rewrite C in H; inversion H; subst; simpl; auto.
  destruct (write_response_status "Error updating lead: " 200
              (fst (execute_query (UpdateEq data "id" (JInt lead_id)) (supabase w2))))
    as [-> | ->]; simpl; auto.
Qed.

Lemma update_lead_status lead_id data (w : world S) r w' :
  update_lead validate_email lead_id data w = (Ok r, w') ->
  In (status r) update_codes.
Proof.
  intros H.
  destruct (update_lead_cases validate_email lead_id data w)
    as [[_ C]|[_ [[e [_ C]]|[[_ C]|[rows [_ [_ [[e [_ C]]|[flag [_ C]]]]]]]]]];
    rewrite C in H; try (inversion H; subst; simpl; auto; fail).
  apply update_lead_validated_status in H. simpl in *. intuition.
Qed.

End WriteRoutes.

(** X9. The status codes of the responses the five handlers build, on every
    store and id and, for create and update, on every value that
    [request.get_json()] has returned as the body: list answers 200 or 500;
    get and delete answer 200, 404 or 500; create answers 201, 400 or 500
    (never 200, never 404); update answers 200, 400, 404 or 500 (never
    201).  (A request on which [get_json] itself raises is answered by the
    framework and is not a body of this statement.) *)
Theorem route_status_codes
  {S : Type} {client : TableStore S} (validate_email : json -> outcome unit)
  (utcnow_isoformat : string) (lead_id : Z) (data : json) (w : world S) :
  (forall r w', get_all_leads w = (Ok r, w') -> In (status r) [200; 500]) /\
  (forall r w', get_lead lead_id w = (Ok r, w') -> In (status r) read_codes) /\
  (forall r w', create_lead validate_email utcnow_isoformat data w = (Ok r, w') ->
                In (status r) create_codes) /\
  (forall r w', update_lead validate_email lead_id data w = (Ok r, w') ->
                In (status r) update_codes) /\
  (forall r w', delete_lead lead_id w = (Ok r, w') -> In (status r) read_codes).
Proof.
  split; [|split; [|split; [|split]]].
  - intros r w'. unfold get_all_leads, try_except. unfold bind at 1.
    rewrite (execute_eq SelectAll w).
    destruct (fst (execute_query SelectAll (supabase w))) as [rows|e];
      intros H; inversion H; simpl; auto.
  - intros r w'. unfold get_lead, try_except. unfold bind at 1.
    rewrite (execute_eq (SelectEq "id" (JInt lead_id)) w).
    destruct (fst (execute_query _ (supabase w))) as [[|row more]|e];
      intros H; inversion H; simpl; auto.
  - intros r w'. apply create_lead_status.
  - intros r w'. apply update_lead_status.
  - intros r w'. unfold delete_lead, try_except. unfold bind at 1.
    rewrite (execute_eq (DeleteEq "id" (JInt lead_id)) w).
    destruct (fst (execute_query _ (supabase w))) as [[|row more]|e];
      intros H; inversion H; simpl; auto.
Qed.

(** X10. The write routes answer 400 "No data provided" exactly when the
    body is falsy ([None], [{}], [[]], the empty string, [0], [False]), and
    then they execute no query: an update with an empty body is answered
    so whether or not the id exists. *)
Theorem no_data_iff_falsy_body
  {S : Type} {client : TableStore S} (validate_email : json -> outcome unit)
  (utcnow_isoformat : string) (lead_id : Z) (data : json) (w : world S) :
  let no_data := message_response "No data provided" 400 in
  (fst (create_lead validate_email utcnow_isoformat data w) = Ok no_data
   <-> Py.truthy data = false) /\
  (fst (update_lead validate_email lead_id data w) = Ok no_data
   <-> Py.truthy data = false) /\
  (Py.truthy data = false ->
   snd (create_lead validate_email utcnow_isoformat data w) = w /\
   snd (update_lead validate_email lead_id data w) = w).
Proof.
  intros no_data. subst no_data. split; [|split].
  - destruct (create_lead_cases validate_email utcnow_isoformat data w)
      as [[Ht C]|[[e [w1 [Hv C]]]|[[errors [w1 [Hv [_ C]]]]|[d [w1 [-> [Hv C]]]]]]];
      rewrite C; cbn [fst].
    + tauto.
    + split; [discriminate|]. intros Ht. exfalso.
      unfold create_lead in C. rewrite Ht in C. discriminate C.
    + split; [intros H; inversion H|]. intros Ht. exfalso.
      unfold create_lead in C. rewrite Ht in C. cbn in C.
      unfold ret, validation_failure in C. inversion C.
    + split.
      * intros H. exfalso. inversion H as [H1].
        revert H1. apply write_response_not_message; discriminate.
      * intros Ht. destruct d; [|discriminate Ht].
        destruct (validate_passes_is_map validate_email (JObj []) true w w1 Hv)
          as [d' [Hd' Hne]]. inversion Hd'. subst d'. contradiction.
  - destruct (update_lead_cases validate_email lead_id data w)
      as [[Ht C]|[Ht [[e [_ C]]|[[_ C]|[rows [_ [_ [[e [_ C]]|[flag [_ C]]]]]]]]]];
      rewrite C; cbn [fst]; try tauto;
      try (split; [solve [intros H; inversion H] | rewrite Ht; discriminate]).
    split; [|rewrite Ht; discriminate]. intros H. exfalso.
    destruct (update_lead_validated_cases validate_email lead_id data flag
                (World (snd (execute_query (SelectEq "id" (JInt lead_id)) (supabase w)))
                       (calls w ++ [SelectEq "id" (JInt lead_id)])))
      as [[e [w2 [_ C']]]|[[errors [w2 [_ [_ C']]]]|[w2 [_ C']]]];
      rewrite C' in H; cbn [fst] in H; inversion H as [H1].
    revert H1. apply write_response_not_message; discriminate.
  - intros Ht. unfold create_lead, update_lead. rewrite Ht. split; reflexivity.
Qed.

(** X11. An update with a non-empty body is answered 404 "Lead not found"
    exactly when the store answers the lookup by id with no row.  The body
    is then not validated: the lookup by id is the only query, and a body
    that would fail validation gets the 404 all the same. *)
Theorem update_not_found_iff_no_row
  {S : Type} {client : TableStore S} (validate_email : json -> outcome unit)
  (lead_id : Z) (data : json) (w : world S) :
  Py.truthy data = true ->
  let by_id := SelectEq "id" (JInt lead_id) in
  let answer := execute_query by_id (supabase w) in
  (forall r w', update_lead validate_email lead_id data w = (Ok r, w') ->
                (status r = 404 <-> fst answer = Ok [])) /\
  (fst answer = Ok [] ->
   update_lead validate_email lead_id data w
   = (Ok (message_response "Lead not found" 404),
      World (snd answer) (calls w ++ [by_id]))).
Proof.
  intros Ht by_id answer. subst answer by_id.
  destruct (update_lead_cases validate_email lead_id data w)
    as [[Hf C]|[_ [[e [Ha C]]|[[Ha C]|[rows [Ha [Hne [[e [_ C]]|[flag [_ C]]]]]]]]]].
  - congruence.
  - split; [|intros H; congruence].
    intros r w' H. rewrite C in H. inversion H; subst. simpl.
    split; [discriminate|congruence].
  - split; [|intros _; exact C].
    intros r w' H. rewrite C in H. inversion H; subst. simpl. tauto.
  - split; [|intros H; rewrite H in Ha; inversion Ha; subst; contradiction].
    intros r w' H. rewrite C in H. inversion H; subst. simpl.
    split; [discriminate|]. intros H'. rewrite H' in Ha. inversion Ha. subst.
    contradiction.
  - split; [|intros H; rewrite H in Ha; inversion Ha; subst; contradiction].
    intros r w' H. rewrite C in H.
    apply update_lead_validated_status in H.
    split.
    + intros H4. rewrite H4 in H. simpl in H.
      repeat (destruct H as [H|H]; [discriminate H|]). destruct H.
    + intros H'. rewrite H' in Ha. inversion Ha. subst. contradiction.
Qed.

Lemma update_not_found_iff_no_row_witness :
  update_lead sample_validate_email 99 (JObj body_three_faults)
    (MemStore.fresh sample_store)
  = (Ok (message_response "Lead not found" 404),
     World sample_store [SelectEq "id" (JInt 99)]).
Proof.
  exact (proj2 (update_not_found_iff_no_row (client:=MemStore.store)
                  sample_validate_email 99 (JObj body_three_faults)
                  (MemStore.fresh sample_store) eq_refl) eq_refl).
Defined.

(** ** What reaches the store *)

Section Writes.

Context {S : Type} {client : TableStore S}.
Variable validate_email : json -> outcome unit.
Variable utcnow_isoformat : string.

Lemma same_suffix {A} (l a b : list A) : l ++ a = l ++ b -> a = b.
Proof. apply app_inv_head. Qed.

Lemma no_suffix {A} (l a : list A) : l = l ++ a -> a = [].
Proof.
  intros H. symmetry. apply (app_inv_head l). now rewrite app_nil_r.
Qed.

(** The queries of the validator are selects, whatever it answers. *)
Lemma validator_selects data flag (w : world S) qs :
  calls (snd (validate_lead_data validate_email data flag w)) = calls w ++ qs ->
  forallb is_select qs = true.
Proof.
  intros H.
  destruct (validate_lead_data_reads validate_email data flag w) as [[qs' [E F]] _].
  rewrite E in H. apply same_suffix in H. now subst qs'.
Qed.

Lemma forallb_select_no_write qs q :
  forallb is_select qs = true -> In q qs -> is_select q = true.
Proof. intros H Hq. rewrite forallb_forall in H. now apply H. Qed.

End Writes.

(** X12. Whatever [create_lead] inserts has been validated: if the handler
    executes an insert, the body is a map with the four required fields
    truthy, a phone accepted by [validate_phone_number] and an email
    accepted by the checker; the store answered the phone lookup and then
    the email lookup with no row; the inserted row is the body with the
    defaults; and these three queries, in this order, are all the request
    executed.  The handler executes no update and no delete. *)
Theorem create_lead_inserts_only_validated
  {S : Type} {client : TableStore S} (validate_email : json -> outcome unit)
  (utcnow_isoformat : string) (data : json) (w : world S) (qs : list query) :
  calls (snd (create_lead validate_email utcnow_isoformat data w)) = calls w ++ qs ->
  (forall q, In q qs -> is_lookup q = true \/ exists row, q = Insert row) /\
  (forall row, In (Insert row) qs ->
     exists d phone email s1 s2,
       data = JObj d /\ well_formed_lead validate_email d phone email /\
       row = JObj (with_defaults utcnow_isoformat d) /\
       execute_query (phone_lookup phone) (supabase w) = (Ok [], s1) /\
       execute_query (email_lookup email) s1 = (Ok [], s2) /\
       qs = [phone_lookup phone; email_lookup email; Insert row]).
Proof.
  intros Hqs.
  assert (Hval : forall r w1 qs1,
             validate_lead_data validate_email data true w = (r, w1) ->
             calls w1 = calls w ++ qs1 ->
             forall q, In q qs1 -> is_lookup q = true).
  { intros r w1 qs1 Hv Hc q Hq.
    destruct (validator_queries validate_email data true w) as [qp [qe [E [Hp He]]]].
    rewrite Hv in E. cbn [snd] in E. rewrite Hc in E. apply same_suffix in E.
    subst qs1. apply in_app_or in Hq.
    destruct Hq as [Hq|Hq].
    - destruct Hp as [->|[_ [v [_ [_ ->]]]]]; [destruct Hq|].
      destruct Hq as [<-|[]]. reflexivity.
    - destruct He as [->|[_ [v [_ [_ ->]]]]]; [destruct Hq|].
      destruct Hq as [<-|[]]. reflexivity. }
  destruct (create_lead_cases validate_email utcnow_isoformat data w)
    as [[_ C]|[[e [w1 [Hv C]]]|[[errors [w1 [Hv [_ C]]]]|[d [w1 [-> [Hv C]]]]]]];
    rewrite C in Hqs; cbn [snd calls] in Hqs.
  - apply no_suffix in Hqs. subst qs. split; intros ? [].
  - split.
    + intros q Hq. left. eapply Hval; eauto.
    + intros row Hq. apply (Hval _ _ _ Hv Hqs) in Hq. discriminate Hq.
  - split.
    + intros q Hq. left. eapply Hval; eauto.
    + intros row Hq. apply (Hval _ _ _ Hv Hqs) in Hq. discriminate Hq.
  - pose proof Hv as Hpass. apply validation_passes_iff in Hpass.
    destruct Hpass as [d' [phone [email [Hd [Hwf [s1 [s2 [H1 [H2 Hw1]]]]]]]]].
    inversion Hd. subst d'. subst w1. cbn [calls] in Hqs.
    rewrite <- app_assoc in Hqs. apply same_suffix in Hqs. subst qs.
    split.
    + intros q [<-|[<-|[<-|[]]]]; auto. right. eauto.
    + intros row [Hq|[Hq|[Hq|[]]]]; try discriminate Hq.
      inversion Hq. subst row.
      exists d, phone, email, s1, s2. repeat split; try assumption; apply Hwf.
Qed.

Lemma create_lead_inserts_only_validated_witness :
  exists d phone email,
    JObj body_new_lead = JObj d /\
    well_formed_lead sample_validate_email d phone email.
Proof.
  destruct (proj2 (create_lead_inserts_only_validated (client:=MemStore.store)
                     sample_validate_email "2024-05-01T10:00:00+00:00"
                     (JObj body_new_lead) (MemStore.fresh sample_store)
                     [phone_lookup (JStr "+91 9123456780");
                      email_lookup (JStr "ravi@mail.example");
                      Insert (JObj (with_defaults "2024-05-01T10:00:00+00:00"
                                      body_new_lead))]
                     eq_refl)
                  (JObj (with_defaults "2024-05-01T10:00:00+00:00" body_new_lead))
                  (or_intror (or_intror (or_introl eq_refl))))
    as [d [phone [email [s1 [s2 [Hd [Hwf _]]]]]]].
  exists d, phone, email. split; assumption.
Defined.

(** X13. Whatever [update_lead] sends to the store has been validated and
    is the body itself: if the handler executes an update, it is the update
    of the row with the requested id by the request body, unchanged (no
    default is added, [lastconnected] is not refreshed); the body is a map
    with the four required fields truthy, a phone accepted by
    [validate_phone_number] and an email accepted by the checker; and the
    update is the last query, after selects only.  The handler executes no
    insert and no delete. *)
Theorem update_lead_writes_only_validated
  {S : Type} {client : TableStore S} (validate_email : json -> outcome unit)
  (lead_id : Z) (data : json) (w : world S) (qs : list query) :
  calls (snd (update_lead validate_email lead_id data w)) = calls w ++ qs ->
  (forall q, In q qs ->
             is_select q = true \/ q = UpdateEq data "id" (JInt lead_id)) /\
  (forall patch column value, In (UpdateEq patch column value) qs ->
     patch = data /\ column = "id" /\ value = JInt lead_id /\
     (exists d phone email,
         data = JObj d /\ well_formed_lead validate_email d phone email) /\
     (exists reads, qs = reads ++ [UpdateEq data "id" (JInt lead_id)] /\
                    forallb is_select reads = true)).
Proof.
  intros Hqs.
  assert (Hsel : forall reads,
             qs = reads -> forallb is_select reads = true ->
             (forall q, In q qs ->
                        is_select q = true \/ q = UpdateEq data "id" (JInt lead_id)) /\
             (forall patch column value, In (UpdateEq patch column value) qs ->
                patch = data /\ column = "id" /\ value = JInt lead_id /\
                (exists d phone email,
                    data = JObj d /\ well_formed_lead validate_email d phone email) /\
                (exists reads, qs = reads ++ [UpdateEq data "id" (JInt lead_id)] /\
                               forallb is_select reads = true))).
  { intros reads -> F. split.
    - intros q Hq. left. eapply forallb_select_no_write; eauto.
    - intros patch column value Hq.
      apply (forallb_select_no_write _ _ F) in Hq. discriminate Hq. }
  set (by_id := SelectEq "id" (JInt lead_id)) in *.
  destruct (update_lead_cases validate_email lead_id data w)
    as [[_ C]|[_ [[e [_ C]]|[[_ C]|[rows [_ [_ [[e [_ C]]|[flag [_ C]]]]]]]]]];
    fold by_id in C; rewrite C in Hqs; cbn [snd calls] in Hqs.
  - apply no_suffix in Hqs. now apply (Hsel []).
  - apply same_suffix in Hqs. now apply (Hsel [by_id]).
  - apply same_suffix in Hqs. now apply (Hsel [by_id]).
  - apply same_suffix in Hqs. now apply (Hsel [by_id]).
  - set (w1 := World (snd (execute_query by_id (supabase w))) (calls w ++ [by_id])) in *.
    destruct (validate_lead_data_reads validate_email data flag w1)
      as [[sel [E F]] _].
    destruct (update_lead_validated_cases validate_email lead_id data flag w1)
      as [[e [w2 [Hv C']]]|[[errors [w2 [Hv [_ C']]]]|[w2 [Hv C']]]];
      rewrite C' in Hqs; rewrite Hv in E; cbn [snd calls] in Hqs, E.
    + rewrite E in Hqs. subst w1. cbn [calls] in Hqs.
      rewrite <- app_assoc in Hqs. apply same_suffix in Hqs.
      apply (Hsel (by_id :: sel)); auto.
    + rewrite E in Hqs. subst w1. cbn [calls] in Hqs.
      rewrite <- app_assoc in Hqs. apply same_suffix in Hqs.
      apply (Hsel (by_id :: sel)); auto.
    + rewrite E in Hqs. subst w1. cbn [calls] in Hqs.
      rewrite <- !app_assoc in Hqs. apply same_suffix in Hqs.
      cbn [app] in Hqs. subst qs.
      assert (Hwf : exists d phone email,
                 data = JObj d /\ well_formed_lead validate_email d phone email).
      { apply validation_passes_iff in Hv.
        destruct Hv as [d [phone [email [Hd [Hwf _]]]]]. eauto. }
      split.
      * intros q [<-|Hq]; [left; reflexivity|].
        apply in_app_or in Hq. destruct Hq as [Hq|[<-|[]]]; auto.
        left. eapply forallb_select_no_write; eauto.
      * intros patch column value [Hq|Hq]; [discriminate Hq|].
        apply in_app_or in Hq. destruct Hq as [Hq|[Hq|[]]].
        -- apply (forallb_select_no_write _ _ F) in Hq. discriminate Hq.
        -- inversion Hq. subst. repeat split; auto.
           exists (by_id :: sel). split; [reflexivity|]. simpl. exact F.
Qed.

Lemma update_lead_writes_only_validated_witness :
  exists d phone email,
    JObj body_same_contact = JObj d /\
    well_formed_lead sample_validate_email d phone email.
Proof.
  destruct (proj2 (update_lead_writes_only_validated (client:=MemStore.store)
                     sample_validate_email 1 (JObj body_same_contact)
                     (MemStore.fresh sample_store)
                     [SelectEq "id" (JInt 1);
                      UpdateEq (JObj body_same_contact) "id" (JInt 1)]
                     eq_refl)
                  (JObj body_same_contact) "id" (JInt 1)
                  (or_intror (or_introl eq_refl)))
    as [_ [_ [_ [Hwf _]]]].
  exact Hwf.
Defined.

(** X14. A write that the store answers with no row is answered 500, after
    the write has been executed: once validation has passed, an insert
    (resp. update) answered with an empty list makes [response.data[0]]
    raise [IndexError], and the handler answers 500 "Error creating lead:
    list index out of range" (resp. "Error updating lead: ..."), not 201,
    200 or 404. *)
Theorem write_without_row_is_500
  {S : Type} {client : TableStore S} (validate_email : json -> outcome unit)
  (utcnow_isoformat : string) (lead_id : Z) (data : json) (w : world S) :
  (forall d w1 s',
      data = JObj d ->
      validate_lead_data validate_email data true w = (Ok [], w1) ->
      execute_query (Insert (JObj (with_defaults utcnow_isoformat d))) (supabase w1)
      = (Ok [], s') ->
      create_lead validate_email utcnow_isoformat data w
      = (Ok (message_response "Error creating lead: list index out of range" 500),
         World s' (calls w1 ++ [Insert (JObj (with_defaults utcnow_isoformat d))]))) /\
  (forall rows w1 flag w2 s',
      execute (SelectEq "id" (JInt lead_id)) w = (Ok rows, w1) -> rows <> [] ->
      compute_check_existing data rows = Ok flag ->
      validate_lead_data validate_email data flag w1 = (Ok [], w2) ->
      execute_query (UpdateEq data "id" (JInt lead_id)) (supabase w2) = (Ok [], s') ->
      update_lead validate_email lead_id data w
      = (Ok (message_response "Error updating lead: list index out of range" 500),
         World s' (calls w2 ++ [UpdateEq data "id" (JInt lead_id)]))).
Proof.
  split.
  - intros d w1 s' -> Hv Hins.
    destruct (create_lead_cases validate_email utcnow_isoformat (JObj d) w)
      as [[Ht C]|[[e [w1' [Hv' C]]]|[[errors [w1' [Hv' [Hne C]]]]|[d' [w1' [Hd [Hv' C]]]]]]].
    + exfalso. destruct (validate_passes_is_map validate_email _ _ _ _ Hv)
        as [d' [Hd Hne]]. inversion Hd. subst d'. destruct d; [contradiction|discriminate Ht].
    + rewrite Hv in Hv'. discriminate Hv'.
    + rewrite Hv in Hv'. inversion Hv'. subst. contradiction.
    + rewrite Hv in Hv'. inversion Hv'. inversion Hd. subst d' w1'.
      rewrite Hins in C. exact C.
  - intros rows w1 flag w2 s' Hsel Hrows Hflag Hv Hup.
    assert (Ht : Py.truthy data = true).
    { destruct (validate_passes_is_map validate_email _ _ _ _ Hv) as [d [-> Hne]].
      destruct d; [contradiction|reflexivity]. }
    rewrite (update_lead_with_flag validate_email lead_id data w rows w1 flag
               Ht Hsel Hrows Hflag).
    destruct (update_lead_validated_cases validate_email lead_id data flag w1)
      as [[e [w2' [Hv' C]]]|[[errors [w2' [Hv' [Hne C]]]]|[w2' [Hv' C]]]];
      rewrite Hv in Hv'.
    + discriminate Hv'.
    + inversion Hv'. subst. contradiction.
    + inversion Hv'. subst w2'. rewrite Hup in C. exact C.
Qed.

Lemma write_without_row_is_500_witness :
  create_lead (client:=ScriptedStore.store) sample_validate_email
    "2024-05-01T10:00:00+00:00" (JObj body_new_lead) (World [] [])
  = (Ok (message_response "Error creating lead: list index out of range" 500),
     World [] ([phone_lookup (JStr "+91 9123456780");
                email_lookup (JStr "ravi@mail.example")]
                 ++ [Insert (JObj (with_defaults "2024-05-01T10:00:00+00:00"
                                     body_new_lead))])) /\
  update_lead (client:=ScriptedStore.store) sample_validate_email 1
    (JObj body_same_contact) (World [Ok (MemStore.rows sample_store)] [])
  = (Ok (message_response "Error updating lead: list index out of range" 500),
     World [] ([SelectEq "id" (JInt 1)]
                 ++ [UpdateEq (JObj body_same_contact) "id" (JInt 1)])).
Proof.
  split.
  - exact (proj1 (write_without_row_is_500 (client:=ScriptedStore.store)
                    sample_validate_email "2024-05-01T10:00:00+00:00" 0
                    (JObj body_new_lead) (World [] []))
                 body_new_lead
                 (World [] [phone_lookup (JStr "+91 9123456780");
                            email_lookup (JStr "ravi@mail.example")])
                 [] eq_refl eq_refl eq_refl).
  - refine (proj2 (write_without_row_is_500 (client:=ScriptedStore.store)
                     sample_validate_email "2024-05-01T10:00:00+00:00" 1
                     (JObj body_same_contact)
                     (World [Ok (MemStore.rows sample_store)] []))
                  (MemStore.rows sample_store)
                  (World [] [SelectEq "id" (JInt 1)]) false
                  (World [] [SelectEq "id" (JInt 1)]) []
                  eq_refl _ eq_refl eq_refl eq_refl).
    discriminate.
Defined.

(** X15. A stored row without the column the body supplies: when the body
    is a map with an "email" key and the row the store answered has no
    "email" key, [existing_lead.data[0]['email']] raises [KeyError] and the
    update is answered 500 "Error updating lead: 'email'" after the lookup
    by id alone; likewise for "phone" when the body has no "email" key. *)
Theorem update_missing_column_is_500
  {S : Type} {client : TableStore S} (validate_email : json -> outcome unit)
  (lead_id : Z) (d r : list (string * json)) (rest : list json) (w w1 : world S) :
  execute (SelectEq "id" (JInt lead_id)) w = (Ok (JObj r :: rest), w1) ->
  (Py.dict_has "email" d = true -> Py.dict_get "email" r = None ->
   update_lead validate_email lead_id (JObj d) w
   = (Ok (message_response "Error updating lead: 'email'" 500), w1)) /\
  (Py.dict_has "email" d = false -> Py.dict_has "phone" d = true ->
   Py.dict_get "phone" r = None ->
   update_lead validate_email lead_id (JObj d) w
   = (Ok (message_response "Error updating lead: 'phone'" 500), w1)).
Proof.
  intros Hsel.
  assert (Hraise : forall field,
             Py.dict_has field d = true -> Py.dict_get field r = None ->
             differs field (JObj d) (JObj r :: rest)
             = Exc (Exn KeyError ("'" ++ field ++ "'"))).
  { intros field Hd Hr. unfold differs, Py.contains. rewrite Hd. cbn [obind].
    unfold Py.dict_has in Hd. unfold Py.getitem.
    destruct (Py.dict_get field d); [|discriminate Hd]. cbn [obind Py.first].
    now rewrite Hr. }
  assert (Hrun : forall e,
             d <> [] ->
             compute_check_existing (JObj d) (JObj r :: rest) = Exc e ->
             update_lead validate_email lead_id (JObj d) w
             = (Ok (message_response ("Error updating lead: " ++ exn_str e) 500), w1)).
  { intros e Hd Hf. unfold update_lead.
    assert (Ht : Py.truthy (JObj d) = true) by (destruct d; [contradiction|reflexivity]).
    rewrite Ht. cbn [negb]. unfold try_except.
    erewrite bind_ok by exact Hsel. cbn [Py.nonempty negb].
    unfold bind at 1. unfold lift at 1. rewrite Hf. reflexivity. }
  split.
  - intros Hd Hr. apply (Hrun (Exn KeyError "'email'")).
    + intros ->. discriminate Hd.
    + unfold compute_check_existing. now rewrite (Hraise "email" Hd Hr).
  - intros He Hd Hr. apply (Hrun (Exn KeyError "'phone'")).
    + intros ->. discriminate Hd.
    + unfold compute_check_existing.
      assert (E : differs "email" (JObj d) (JObj r :: rest) = Ok false).
      { unfold differs, Py.contains. now rewrite He. }
      rewrite E. cbn [obind]. now rewrite (Hraise "phone" Hd Hr).
Qed.

Lemma update_missing_column_is_500_witness :
  update_lead sample_validate_email 7 (JObj body_for_meera)
    (MemStore.fresh store_without_email)
  = (Ok (message_response "Error updating lead: 'email'" 500),
     World store_without_email [SelectEq "id" (JInt 7)]).
Proof.
  exact (proj1 (update_missing_column_is_500 (client:=MemStore.store)
                  sample_validate_email 7 body_for_meera
                  [("id", JInt 7); ("name", JStr "Meera"); ("phone", JStr "9000000001")]
                  [] (MemStore.fresh store_without_email)
                  (World store_without_email [SelectEq "id" (JInt 7)]) eq_refl)
               eq_refl eq_refl).
Defined.

(** ** The inserted row *)

Lemma dict_set_absent k v d :
  Py.dict_has k d = false -> Py.dict_set k v d = d ++ [(k, v)].
Proof.
  unfold Py.dict_has. induction d as [|[k' v'] d IH]; simpl; auto.
  destruct (String.eqb k k'); [discriminate|].
  intros H. now rewrite IH.
Qed.

Lemma dict_has_app_other k k' v d :
  String.eqb k k' = false -> Py.dict_has k (d ++ [(k', v)]) = Py.dict_has k d.
Proof.
  intros Hne. unfold Py.dict_has. induction d as [|[k0 v0] d IH]; simpl.
  - now rewrite Hne.
  - destruct (String.eqb k k0); auto.
Qed.

(** X16. The row the create handler inserts is the body, its fields in
    their order and with their values, followed by the defaults that were
    missing, in the order [lastconnected], [status], [tag]: no field of the
    body is dropped, moved or changed, and a second pass would add
    nothing. *)
Theorem with_defaults_appends (utcnow_isoformat : string) (d : list (string * json)) :
  with_defaults utcnow_isoformat d = d ++ missing_defaults utcnow_isoformat d /\
  with_defaults utcnow_isoformat (with_defaults utcnow_isoformat d)
  = with_defaults utcnow_isoformat d.
Proof.
  assert (H : forall d, with_defaults utcnow_isoformat d
                        = d ++ missing_defaults utcnow_isoformat d).
  { clear d. intros d. unfold with_defaults, missing_defaults, dict_setdefault.
    cbv zeta.
    destruct (Py.dict_has "lastconnected" d) eqn:H1.
    - destruct (Py.dict_has "status" d) eqn:H2.
      + destruct (Py.dict_has "tag" d) eqn:H3; simpl.
        * now rewrite app_nil_r.
        * now apply dict_set_absent.
      + rewrite (dict_set_absent "status" _ d H2).
        rewrite (dict_has_app_other "tag" "status" _ d eq_refl).
        destruct (Py.dict_has "tag" d) eqn:H3; simpl; auto.
        rewrite dict_set_absent; [now rewrite <- app_assoc|].
        now rewrite (dict_has_app_other "tag" "status" _ d eq_refl).
    - rewrite (dict_set_absent "lastconnected" _ d H1).
      rewrite (dict_has_app_other "status" "lastconnected" _ d eq_refl).
      destruct (Py.dict_has "status" d) eqn:H2.
      + rewrite (dict_has_app_other "tag" "lastconnected" _ d eq_refl).
        destruct (Py.dict_has "tag" d) eqn:H3; simpl; auto.
        rewrite dict_set_absent; [now rewrite <- app_assoc|].
        now rewrite (dict_has_app_other "tag" "lastconnected" _ d eq_refl).
      + rewrite dict_set_absent
          by now rewrite (dict_has_app_other "status" "lastconnected" _ d eq_refl).
        rewrite (dict_has_app_other "tag" "status" _ _ eq_refl).
        rewrite (dict_has_app_other "tag" "lastconnected" _ d eq_refl).
        destruct (Py.dict_has "tag" d) eqn:H3; simpl.
        * now rewrite <- app_assoc.
        * rewrite dict_set_absent.
          -- now rewrite <- !app_assoc.
          -- rewrite (dict_has_app_other "tag" "status" _ _ eq_refl).
             now rewrite (dict_has_app_other "tag" "lastconnected" _ d eq_refl). }
  split; [apply H|].
  assert (Hhas : forall k, In k ["lastconnected"; "status"; "tag"] ->
                           Py.dict_has k (with_defaults utcnow_isoformat d) = true).
  { intros k Hk. unfold Py.dict_has.
    destruct (Py.dict_get k d) as [v|] eqn:E.
    - now rewrite (with_defaults_keeps utcnow_isoformat d k v E).
    - destruct Hk as [<-|[<-|[<-|[]]]].
      + now rewrite (with_defaults_lastconnected utcnow_isoformat d E).
      + now rewrite (with_defaults_status utcnow_isoformat d E).
      + now rewrite (with_defaults_tag utcnow_isoformat d E). }
  rewrite (H (with_defaults utcnow_isoformat d)). unfold missing_defaults.
  rewrite !Hhas by (simpl; auto). simpl. now rewrite app_nil_r.
Qed.

(** ** The strings the phone validator accepts *)

(** X17. [validate_phone_number] accepts a string exactly when it is of the
    format (an optional "+91" with an optional whitespace character or
    hyphen, or a "0"; then a digit from 6 to 9 and nine decimal digits), or
    is such a string followed by one newline. *)
Theorem validate_phone_number_accepts_iff (s : string) :
  validate_phone_number (JStr s) = Ok true <->
  accepted_phone s \/
  exists s0, s = (s0 ++ String "010" "")%string /\ accepted_phone s0.
Proof. apply validate_phone_number_accepts. Qed.

Lemma length_of_append (a b : string) :
  String.length (a ++ b) = String.length a + String.length b.
Proof. induction a; simpl; congruence. Qed.

Lemma accepted_phone_length s :
  accepted_phone s -> 10 <= String.length s <= 14.
Proof.
  intros [p [t [-> [Hp [c [rest [-> [_ [Hlen _]]]]]]]]].
  rewrite length_of_append. cbn [String.length]. rewrite Hlen.
  destruct Hp as [->|[->|[->|[x [_ ->]]]]]; cbn [String.length]; lia.
Qed.

(** X18. Every string [validate_phone_number] accepts has between 10 and 15
    characters: the empty string, a number with an extension, two numbers
    in one field, or a number padded with blanks are all rejected. *)
Theorem validate_phone_number_length (s : string) :
  validate_phone_number (JStr s) = Ok true -> 10 <= String.length s <= 15.
Proof.
  intros H. apply validate_phone_number_accepts in H.
  destruct H as [H|[s0 [-> H]]].
  - apply accepted_phone_length in H. lia.
  - apply accepted_phone_length in H. rewrite length_of_append.
    cbn [String.length]. lia.
Qed.

Lemma validate_phone_number_length_witness :
  10 <= String.length "+91-9123456780" <= 15.
Proof.
  exact (validate_phone_number_length "+91-9123456780" eq_refl).
Defined.

(** ** Bodies that hold none of the required names *)

Lemma is_missing_absent field data :
  Py.contains field data = Ok false ->
  is_missing field data = Ok true /\ is_present field data = Ok false.
Proof. intros H. unfold is_missing, is_present. rewrite H. split; reflexivity. Qed.

(** X19. A body in which [in] finds none of "name", "phone", "email" and
    "party" (a map without these keys, but also a JSON array or a JSON
    string that does not hold them) gets the four "<field> is required"
    messages, in the order name, phone, email, party, and nothing else; no
    lookup is executed, whatever the flag, and the create handler answers
    400 with these four messages when the body is truthy. *)
Theorem body_without_required_names
  {S : Type} {client : TableStore S} (validate_email : json -> outcome unit)
  (utcnow_isoformat : string) (data : json) (flag : bool) (w : world S) :
  (forall field, In field required_fields -> Py.contains field data = Ok false) ->
  validate_lead_data validate_email data flag w
  = (Ok ["name is required"; "phone is required"; "email is required";
         "party is required"], w) /\
  (Py.truthy data = true ->
   create_lead validate_email utcnow_isoformat data w
   = (Ok (validation_failure
            ["name is required"; "phone is required"; "email is required";
             "party is required"]), w)).
Proof.
  intros H.
  destruct (is_missing_absent "name" data (H _ (or_introl eq_refl))) as [E1 _].
  destruct (is_missing_absent "phone" data
              (H _ (or_intror (or_introl eq_refl)))) as [E2 Hp].
  destruct (is_missing_absent "email" data
              (H _ (or_intror (or_intror (or_introl eq_refl))))) as [E3 He].
  destruct (is_missing_absent "party" data
              (H _ (or_intror (or_intror (or_intror (or_introl eq_refl))))))
    as [E4 _].
  assert (Hv : forall flag',
             validate_lead_data validate_email data flag' w
             = (Ok ["name is required"; "phone is required"; "email is required";
                    "party is required"], w)).
  { intros flag'. rewrite validate_lead_data_blocks. unfold required_fields.
    rewrite check_required_cons, E1. cbn [obind].
    rewrite check_required_cons, E2. cbn [obind].
    rewrite check_required_cons, E3. cbn [obind].
    rewrite check_required_cons, E4. cbn [obind check_required].
    unfold check_phone, check_email, bind, lift, ret. rewrite Hp, He. reflexivity. }
  split; [apply Hv|]. intros Ht.
  apply create_lead_rejects; [exact Ht | apply Hv | discriminate].
Qed.

Lemma body_without_required_names_witness :
  create_lead sample_validate_email "2024-05-01T10:00:00+00:00" body_array
    (MemStore.fresh sample_store)
  = (Ok (validation_failure
           ["name is required"; "phone is required"; "email is required";
            "party is required"]), MemStore.fresh sample_store).
Proof.
  refine (proj2 (body_without_required_names (client:=MemStore.store)
                   sample_validate_email "2024-05-01T10:00:00+00:00" body_array
                   true (MemStore.fresh sample_store) _) eq_refl).
  intros field [<-|[<-|[<-|[<-|[]]]]]; reflexivity.
Defined.
